(** * bot/utils/time.py: human-readable time formatting and waiting helpers

    A shallow embedding of [_stringify_time_unit], [humanize_delta],
    [time_since], [parse_rfc1123], [wait_until] and [format_infraction], and
    of the library calls they make: [datetime] arithmetic, comparison and
    construction, [datetime.strptime] with its patterns,
    [dateutil.parser.isoparse], [dateutil.relativedelta] built from two
    datetimes, [datetime.strftime], and the clock and sleep of a coroutine.
    The properties of the six functions follow the definitions.

    Conventions.
    - Python [int] is [Z]; [str] and [bytes] are [string], whose characters
      are the code points 0..255; a Python list is a [list] updated by index
      with stdpp's lookup, insert and delete.
    - A call that may raise returns [result]: [Ok v] or [Raise e].
    - A [float] of seconds is kept as the exact quotient it approximates. *)

From Stdlib Require Import ZArith QArith String Ascii List Bool Lia DecimalString.
From stdpp Require Import base list strings.

Open Scope string_scope.
Open Scope list_scope.
Open Scope Z_scope.

(* ===================================================================== *)
(** * Python primitives *)
(* ===================================================================== *)

Module Py.

(** Exceptions the modelled calls raise. *)
Inductive exn : Type :=
| ValueError
| TypeError
| OverflowError.

Inductive result (A : Type) : Type :=
| Ok (v : A)
| Raise (e : exn).
Arguments Ok {A} v.
Arguments Raise {A} e.

(** Sequencing: an exception propagates to the caller.  The instances give
    the notation [x ← r; k]. *)
#[global] Instance result_ret : MRet result := fun A v => Ok v.
#[global] Instance result_bind : MBind result := fun A B k r =>
  match r with
  | Ok v => k v
  | Raise e => Raise e
  end.

Definition is_ok {A : Type} (r : result A) : bool :=
  match r with Ok _ => true | Raise _ => false end.

(** [str(value)] / [f"{value}"] of an [int]. *)
Definition str_int (value : Z) : string :=
  NilZero.string_of_int (Z.to_int value).

(** [s[:stop]]: a negative [stop] counts from the end, and the bound is
    clamped to the string. *)
Definition slice_to (s : string) (stop : Z) : string :=
  let len := Z.of_nat (String.length s) in
  let stop := if stop <? 0 then Z.max 0 (stop + len) else Z.min stop len in
  substring 0 (Z.to_nat stop) s.

(** [s[start:stop]] and [s[start:]] for [0 <= start <= stop]; a slice that
    runs past the end is cut there. *)
Definition slice (s : string) (start stop : nat) : string :=
  substring start (stop - start) s.

Definition slice_from (s : string) (start : nat) : string :=
  substring start (String.length s - start) s.

(** [sep.join(items)]. *)
Definition join (sep : string) (items : list string) : string :=
  String.concat sep items.

(** [sub in s]. *)
Fixpoint contains (sub s : string) : bool :=
  String.prefix sub s ||
  match s with
  | EmptyString => false
  | String _ s' => contains sub s'
  end.

(** Number of occurrences of the character [c] in [s]. *)
Fixpoint count_char (c : ascii) (s : string) : nat :=
  match s with
  | EmptyString => 0%nat
  | String a s' => ((if Ascii.eqb a c then 1 else 0) + count_char c s')%nat
  end.

(** [int(text)] in base 10: surrounding whitespace is dropped, a sign may
    lead, and single underscores may separate digits. *)
Definition is_ascii_digit (c : ascii) : bool :=
  let n := N_of_ascii c in ((48 <=? n) && (n <=? 57))%N.

Definition digit_value (c : ascii) : Z := Z.of_N (N_of_ascii c) - 48.

Fixpoint lstrip (is_space : ascii -> bool) (s : string) : string :=
  match s with
  | EmptyString => EmptyString
  | String c s' => if is_space c then lstrip is_space s' else s
  end.

Fixpoint rstrip (is_space : ascii -> bool) (s : string) : string :=
  match s with
  | EmptyString => EmptyString
  | String c s' =>
      match rstrip is_space s' with
      | EmptyString => if is_space c then EmptyString else String c EmptyString
      | t => String c t
      end
  end.

Fixpoint int_digits (acc : Z) (after_digit : bool) (s : string) : result Z :=
  match s with
  | EmptyString => if after_digit then Ok acc else Raise ValueError
  | String c s' =>
      if is_ascii_digit c then int_digits (acc * 10 + digit_value c) true s'
      else if Ascii.eqb c "_" && after_digit then int_digits acc false s'
      else Raise ValueError
  end.

Definition int_base10 (is_space : ascii -> bool) (text : string) : result Z :=
  match rstrip is_space (lstrip is_space text) with
  | String "+" digits => int_digits 0 false digits
  | String "-" digits => v ← int_digits 0 false digits; Ok (- v)
  | digits => int_digits 0 false digits
  end.

(** Whitespace for [int(bytes)] and for [int(str)] on the code points
    0..255. *)
Definition is_space_bytes (c : ascii) : bool :=
  let n := N_of_ascii c in (((9 <=? n) && (n <=? 13)) || (n =? 32))%N.

Definition is_space_int_str (c : ascii) : bool :=
  let n := N_of_ascii c in
  (((9 <=? n) && (n <=? 13)) || (n =? 32) || (n =? 133) || (n =? 160))%N.

Definition int_bytes (text : string) : result Z :=
  int_base10 is_space_bytes text.

Definition int_str (text : string) : result Z :=
  int_base10 is_space_int_str text.

(** [items.index(x)]. *)
Fixpoint index (x : string) (items : list string) : result Z :=
  match items with
  | [] => Raise ValueError
  | y :: items' =>
      if String.eqb y x then Ok 0 else i ← index x items'; Ok (i + 1)
  end.

End Py.
Export Py.

(* ===================================================================== *)
(** * datetime: the standard library's dates, times and differences *)
(* ===================================================================== *)

(** After CPython's [Lib/datetime.py].  A [datetime] object is the record of
    its fields; [tzinfo] is [None] for a naive object. *)
Module Datetime.

Definition MINYEAR : Z := 1.
Definition MAXYEAR : Z := 9999.
Definition _MAXORDINAL : Z := 3652059.

(** The [tzinfo] objects the module meets: [datetime.timezone.utc], and
    dateutil's [tz.UTC] and [tz.tzoffset(None, seconds)]. *)
Inductive tzinfo : Type :=
| timezone_utc
| tzutc
| tzoffset (offset_seconds : Z).

Definition utcoffset_of (tz : tzinfo) : Z :=
  match tz with
  | timezone_utc => 0
  | tzutc => 0
  | tzoffset offset_seconds => offset_seconds
  end.

Record datetime : Type := {
  year : Z;
  month : Z;
  day : Z;
  hour : Z;
  minute : Z;
  second : Z;
  microsecond : Z;
  tz : option tzinfo
}.

(** [timedelta], normalized: [0 <= seconds < 86400] and
    [0 <= microseconds < 1000000]. *)
Record timedelta : Type := {
  days : Z;
  seconds : Z;
  microseconds : Z
}.

Definition _DAYS_IN_MONTH : list Z :=
  [-1; 31; 28; 31; 30; 31; 30; 31; 31; 30; 31; 30; 31].

Definition _DAYS_BEFORE_MONTH : list Z :=
  [-1; 0; 31; 59; 90; 120; 151; 181; 212; 243; 273; 304; 334].

Definition _is_leap (year : Z) : bool :=
  (year mod 4 =? 0) && (negb (year mod 100 =? 0) || (year mod 400 =? 0)).

Definition _days_before_year (year : Z) : Z :=
  let y := year - 1 in
  y * 365 + y / 4 - y / 100 + y / 400.

Definition _days_in_month (year month : Z) : Z :=
  if (month =? 2) && _is_leap year then 29
  else nth (Z.to_nat month) _DAYS_IN_MONTH 0.

Definition _days_before_month (year month : Z) : Z :=
  nth (Z.to_nat month) _DAYS_BEFORE_MONTH 0
  + (if (2 <? month) && _is_leap year then 1 else 0).

Definition _ymd2ord (year month day : Z) : Z :=
  _days_before_year year + _days_before_month year month + day.

Definition _DI400Y : Z := _days_before_year 401.
Definition _DI100Y : Z := _days_before_year 101.
Definition _DI4Y : Z := _days_before_year 5.

Definition _ord2ymd (n : Z) : Z * Z * Z :=
  let n := n - 1 in
  let n400 := n / _DI400Y in
  let n := n mod _DI400Y in
  let year := n400 * 400 + 1 in
  let n100 := n / _DI100Y in
  let n := n mod _DI100Y in
  let n4 := n / _DI4Y in
  let n := n mod _DI4Y in
  let n1 := n / 365 in
  let n := n mod 365 in
  let year := year + (n100 * 100 + n4 * 4 + n1) in
  if (n1 =? 4) || (n100 =? 4) then (year - 1, 12, 31)
  else
    let leapyear := (n1 =? 3) && (negb (n4 =? 24) || (n100 =? 3)) in
    let month := Z.shiftr (n + 50) 5 in
    let preceding :=
      nth (Z.to_nat month) _DAYS_BEFORE_MONTH 0
      + (if (2 <? month) && leapyear then 1 else 0) in
    let '(month, preceding) :=
      if n <? preceding
      then (month - 1,
            preceding
            - (nth (Z.to_nat (month - 1)) _DAYS_IN_MONTH 0
               + (if (month - 1 =? 2) && leapyear then 1 else 0)))
      else (month, preceding) in
    (year, month, n - preceding + 1).

Definition _check_date_fields (year month day : Z) : result unit :=
  if negb ((MINYEAR <=? year) && (year <=? MAXYEAR)) then Raise ValueError
  else if negb ((1 <=? month) && (month <=? 12)) then Raise ValueError
  else if negb ((1 <=? day) && (day <=? _days_in_month year month))
  then Raise ValueError
  else Ok tt.

Definition _check_time_fields (hour minute second microsecond : Z)
    : result unit :=
  if negb ((0 <=? hour) && (hour <=? 23)) then Raise ValueError
  else if negb ((0 <=? minute) && (minute <=? 59)) then Raise ValueError
  else if negb ((0 <=? second) && (second <=? 59)) then Raise ValueError
  else if negb ((0 <=? microsecond) && (microsecond <=? 999999))
  then Raise ValueError
  else Ok tt.

(** [datetime(year, month, day, hour, minute, second, microsecond, tzinfo)]. *)
Definition new (year month day hour minute second microsecond : Z)
    (tzinfo : option tzinfo) : result datetime :=
  _ ← _check_date_fields year month day;
  _ ← _check_time_fields hour minute second microsecond;
  Ok {| year := year; month := month; day := day; hour := hour;
        minute := minute; second := second; microsecond := microsecond;
        tz := tzinfo |}.

(** [date(year, month, day)], kept as its three fields. *)
Definition date_new (year month day : Z) : result (Z * Z * Z) :=
  _ ← _check_date_fields year month day;
  Ok (year, month, day).

(** [date.fromordinal(n)]. *)
Definition date_fromordinal (n : Z) : result (Z * Z * Z) :=
  let '(y, m, d) := _ord2ymd n in date_new y m d.

Definition toordinal (dt : datetime) : Z :=
  _ymd2ord (year dt) (month dt) (day dt).

(** [dt.replace(tzinfo=tzinfo)]. *)
Definition replace_tzinfo (dt : datetime) (tzinfo : option tzinfo)
    : result datetime :=
  new (year dt) (month dt) (day dt) (hour dt) (minute dt) (second dt)
      (microsecond dt) tzinfo.

(** [timedelta(days, seconds, microseconds)] on [int] arguments. *)
Definition timedelta_new (days seconds microseconds : Z) : result timedelta :=
  let d := days in
  let d := d + seconds / 86400 in
  let s := seconds mod 86400 in
  let seconds := microseconds / 1000000 in
  let microseconds := microseconds mod 1000000 in
  let d := d + seconds / 86400 in
  let s := s + seconds mod 86400 in
  let seconds := microseconds / 1000000 in
  let us := microseconds mod 1000000 in
  let s := s + seconds in
  let d := d + s / 86400 in
  let s := s mod 86400 in
  if 999999999 <? Z.abs d then Raise OverflowError
  else Ok {| days := d; seconds := s; microseconds := us |}.

(** [timedelta.total_seconds()].  The quotient is kept exact; the [float]
    Python returns is its nearest double. *)
Definition total_seconds (delta : timedelta) : Q :=
  Qmake ((days delta * 86400 + seconds delta) * 10 ^ 6 + microseconds delta)
        (Z.to_pos (10 ^ 6)).

(** [x > y] on the quotients. *)
Definition Qgtb (x y : Q) : bool := negb (Qle_bool x y).

(** [datetime.__sub__] on two datetimes. *)
Definition sub (self other : datetime) : result timedelta :=
  let days1 := toordinal self in
  let days2 := toordinal other in
  let secs1 := second self + minute self * 60 + hour self * 3600 in
  let secs2 := second other + minute other * 60 + hour other * 3600 in
  base ← timedelta_new (days1 - days2) (secs1 - secs2)
                        (microsecond self - microsecond other);
  match tz self, tz other with
  | None, None => Ok base
  | Some tz1, Some tz2 =>
      timedelta_new (days base)
                    (seconds base + utcoffset_of tz2 - utcoffset_of tz1)
                    (microseconds base)
  | _, _ => Raise TypeError
  end.

(** [datetime.__add__] with [timedelta(days=n)]. *)
Definition add_days (self : datetime) (n : Z) : result datetime :=
  delta ← timedelta_new (toordinal self + n)
                         (hour self * 3600 + minute self * 60 + second self)
                         (microsecond self);
  let hour := seconds delta / 3600 in
  let rem := seconds delta mod 3600 in
  let minute := rem / 60 in
  let second := rem mod 60 in
  if (0 <? days delta) && (days delta <=? _MAXORDINAL) then
    '(y, m, d) ← date_fromordinal (days delta);
    new y m d hour minute second (microseconds delta) (tz self)
  else Raise OverflowError.

(** [date.__add__] with [timedelta(days=n)]. *)
Definition date_add_days (date : Z * Z * Z) (n : Z) : result (Z * Z * Z) :=
  let '(y, m, d) := date in
  let o := _ymd2ord y m d + n in
  if (0 <? o) && (o <=? _MAXORDINAL) then date_fromordinal o
  else Raise OverflowError.

Definition _isoweek1monday (year : Z) : Z :=
  let THURSDAY := 3 in
  let firstday := _ymd2ord year 1 1 in
  let firstweekday := (firstday + 6) mod 7 in
  let week1monday := firstday - firstweekday in
  if THURSDAY <? firstweekday then week1monday + 7 else week1monday.

(** [date.isocalendar()]: ISO year, week and weekday. *)
Definition isocalendar (date : Z * Z * Z) : Z * Z * Z :=
  let '(y, m, d) := date in
  let year := y in
  let week1monday := _isoweek1monday year in
  let today := _ymd2ord y m d in
  let week := (today - week1monday) / 7 in
  let day := (today - week1monday) mod 7 in
  if week <? 0 then
    let year := year - 1 in
    let week1monday := _isoweek1monday year in
    (year, (today - week1monday) / 7 + 1, (today - week1monday) mod 7 + 1)
  else if (52 <=? week) && (_isoweek1monday (year + 1) <=? today)
  then (year + 1, 0 + 1, day + 1)
  else (year, week + 1, day + 1).

End Datetime.

(* ===================================================================== *)
(** * re: the patterns of _strptime *)
(* ===================================================================== *)

Module Re.

(** [c.lower()] on the code points 0..255. *)
Definition lower (c : ascii) : ascii :=
  let n := N_of_ascii c in
  if ((65 <=? n) && (n <=? 90))%N then ascii_of_N (n + 32)
  else if ((192 <=? n) && (n <=? 222) && negb (n =? 215))%N
  then ascii_of_N (n + 32)
  else c.

(** [s.lower()]. *)
Fixpoint lower_str (s : string) : string :=
  match s with
  | EmptyString => EmptyString
  | String c s' => String (lower c) (lower_str s')
  end.

(** [\d] and [\s] on the code points 0..255. *)
Definition is_digit (c : ascii) : bool :=
  let n := N_of_ascii c in ((48 <=? n) && (n <=? 57))%N.

Definition is_space (c : ascii) : bool :=
  let n := N_of_ascii c in
  (((9 <=? n) && (n <=? 13)) || ((28 <=? n) && (n <=? 32))
   || (n =? 133) || (n =? 160))%N.

(** [[lo-hi]]. *)
Definition in_range (lo hi : ascii) (c : ascii) : bool :=
  ((N_of_ascii lo <=? N_of_ascii c) && (N_of_ascii c <=? N_of_ascii hi))%N.

(** The pattern syntax that [TimeRE.pattern] produces, compiled with
    [IGNORECASE]: literal characters, character classes, sequence,
    alternation, [class+] and named groups. *)
Inductive regex : Type :=
| Empty
| Chr (c : ascii)
| Cls (accepts : ascii -> bool)
| Seq (r1 r2 : regex)
| Alt (r1 r2 : regex)
| Plus (accepts : ascii -> bool)
| Group (name : ascii) (r : regex).

Definition groupdict : Type := list (ascii * string).

(** Greedy [class+]: the longest run first, then shorter ones. *)
Fixpoint match_plus {R : Type} (accepts : ascii -> bool) (s : string)
    (k : string -> option R) : option R :=
  match s with
  | EmptyString => None
  | String c s' =>
      if accepts c then
        match match_plus accepts s' k with
        | Some found => Some found
        | None => k s'
        end
      else None
  end.

(** Backtracking match of [r] at the start of [s]; [k] continues with the
    rest of the text, and a failure of [k] makes the match try its next
    alternative. *)
Fixpoint match_at {R : Type} (r : regex) (s : string) (groups : groupdict)
    (k : string -> groupdict -> option R) : option R :=
  match r with
  | Empty => k s groups
  | Chr c =>
      match s with
      | String a s' => if Ascii.eqb (lower a) (lower c) then k s' groups else None
      | EmptyString => None
      end
  | Cls accepts =>
      match s with
      | String a s' => if accepts a then k s' groups else None
      | EmptyString => None
      end
  | Seq r1 r2 =>
      match_at r1 s groups (fun s' groups' => match_at r2 s' groups' k)
  | Alt r1 r2 =>
      match match_at r1 s groups k with
      | Some found => Some found
      | None => match_at r2 s groups k
      end
  | Plus accepts => match_plus accepts s (fun s' => k s' groups)
  | Group name r =>
      match_at r s groups (fun s' groups' =>
        let text := substring 0 (String.length s - String.length s') s in
        k s' (groups' ++ [(name, text)]))
  end.

(** [pattern.match(s)]: the first match at the start of [s], as the
    unmatched rest and the groups. *)
Definition match_ (r : regex) (s : string) : option (string * groupdict) :=
  match_at r s [] (fun rest groups => Some (rest, groups)).

(** Building blocks. *)
Fixpoint word (s : string) : regex :=
  match s with
  | EmptyString => Empty
  | String c EmptyString => Chr c
  | String c s' => Seq (Chr c) (word s')
  end.

Fixpoint alts (rs : list regex) : regex :=
  match rs with
  | [] => Empty
  | [r] => r
  | r :: rs' => Alt r (alts rs')
  end.

(** The texts a pattern matches. *)
Inductive Matches : regex -> string -> Prop :=
| M_empty : Matches Empty ""
| M_chr c a : lower a = lower c -> Matches (Chr c) (String a "")
| M_cls accepts a : accepts a = true -> Matches (Cls accepts) (String a "")
| M_seq r1 r2 w1 w2 :
    Matches r1 w1 -> Matches r2 w2 -> Matches (Seq r1 r2) (w1 +:+ w2)
| M_alt_l r1 r2 w : Matches r1 w -> Matches (Alt r1 r2) w
| M_alt_r r1 r2 w : Matches r2 w -> Matches (Alt r1 r2) w
| M_plus_one accepts a :
    accepts a = true -> Matches (Plus accepts) (String a "")
| M_plus_more accepts a w :
    accepts a = true -> Matches (Plus accepts) w ->
    Matches (Plus accepts) (String a w)
| M_group name r w : Matches r w -> Matches (Group name r) w.

End Re.

(* ===================================================================== *)
(** * _strptime: datetime.strptime *)
(* ===================================================================== *)

(** After CPython's [Lib/_strptime.py], in the C locale, for the directives
    of the module's format: [%a %b %d %H %M %S %Y] and [%%]. *)
Module Strptime.

Import Re.

(** [LocaleTime.a_weekday] and [LocaleTime.a_month] (with its dummy first
    entry). *)
Definition a_weekday : list string :=
  ["mon"; "tue"; "wed"; "thu"; "fri"; "sat"; "sun"].

Definition a_month : list string :=
  [""; "jan"; "feb"; "mar"; "apr"; "may"; "jun";
   "jul"; "aug"; "sep"; "oct"; "nov"; "dec"].

(** Stable sort by decreasing length, as [sorted(..., key=len,
    reverse=True)]. *)
Fixpoint insert_by_length (x : string) (sorted : list string) : list string :=
  match sorted with
  | [] => [x]
  | y :: sorted' =>
      if (String.length y <=? String.length x)%nat then x :: sorted
      else y :: insert_by_length x sorted'
  end.

Definition sorted_by_length (items : list string) : list string :=
  fold_right insert_by_length [] items.

(** [TimeRE.__seqToRE]. *)
Definition __seqToRE (to_convert : list string) (directive : ascii) : regex :=
  Group directive (alts (map word (sorted_by_length to_convert))).

Definition digit : regex := Cls is_digit.
Definition range (lo hi : ascii) : regex := Cls (in_range lo hi).

(** The entries of the [TimeRE] table. *)
Definition directive_regex (directive : ascii) : option regex :=
  match directive with
  | "d"%char =>
      (* 3[0-1]|[1-2]\d|0[1-9]|[1-9]| [1-9] *)
      Some (Group "d" (alts [Seq (Chr "3") (range "0" "1");
                             Seq (range "1" "2") digit;
                             Seq (Chr "0") (range "1" "9");
                             range "1" "9";
                             Seq (Chr " ") (range "1" "9")]))
  | "H"%char =>
      (* 2[0-3]|[0-1]\d|\d *)
      Some (Group "H" (alts [Seq (Chr "2") (range "0" "3");
                             Seq (range "0" "1") digit;
                             digit]))
  | "M"%char =>
      (* [0-5]\d|\d *)
      Some (Group "M" (alts [Seq (range "0" "5") digit; digit]))
  | "S"%char =>
      (* 6[0-1]|[0-5]\d|\d *)
      Some (Group "S" (alts [Seq (Chr "6") (range "0" "1");
                             Seq (range "0" "5") digit;
                             digit]))
  | "Y"%char =>
      (* \d\d\d\d *)
      Some (Group "Y" (Seq digit (Seq digit (Seq digit digit))))
  | "a"%char => Some (__seqToRE a_weekday "a")
  | "b"%char => Some (__seqToRE (tail a_month) "b")
  | "%"%char => Some (Chr "%")
  | _ => None
  end.

(** [TimeRE.pattern]: a run of whitespace in the format becomes [\s+], a
    directive becomes its table entry, any other character stands for
    itself.  A directive outside the table and a stray [%] are the
    [ValueError] of [_strptime]. *)
Fixpoint pattern_from (after_space : bool) (format : string) : result regex :=
  match format with
  | EmptyString => Ok Empty
  | String c rest =>
      if is_space c then
        if after_space then pattern_from true rest
        else tl ← pattern_from true rest; Ok (Seq (Plus is_space) tl)
      else if Ascii.eqb c "%" then
        match rest with
        | EmptyString => Raise ValueError
        | String directive rest' =>
            match directive_regex directive with
            | None => Raise ValueError
            | Some r => tl ← pattern_from false rest'; Ok (Seq r tl)
            end
        end
      else tl ← pattern_from false rest; Ok (Seq (Chr c) tl)
  end.

Definition pattern (format : string) : result regex :=
  pattern_from false format.

(** The variables that the loop over the groups assigns. *)
Record fields : Type := {
  year : option Z;
  month : Z;
  day : Z;
  hour : Z;
  minute : Z;
  second : Z;
  weekday : option Z
}.

Definition defaults : fields :=
  {| year := None; month := 1; day := 1; hour := 0; minute := 0;
     second := 0; weekday := None |}.

(** One turn of [for group_key in found_dict.keys()]. *)
Definition assign (f : fields) (group : ascii * string) : result fields :=
  let '(group_key, text) := group in
  match group_key with
  | "Y"%char =>
      v ← int_str text;
      Ok {| year := Some v; month := month f; day := day f; hour := hour f;
            minute := minute f; second := second f; weekday := weekday f |}
  | "b"%char =>
      v ← index (lower_str text) a_month;
      Ok {| year := year f; month := v; day := day f; hour := hour f;
            minute := minute f; second := second f; weekday := weekday f |}
  | "d"%char =>
      v ← int_str text;
      Ok {| year := year f; month := month f; day := v; hour := hour f;
            minute := minute f; second := second f; weekday := weekday f |}
  | "H"%char =>
      v ← int_str text;
      Ok {| year := year f; month := month f; day := day f; hour := v;
            minute := minute f; second := second f; weekday := weekday f |}
  | "M"%char =>
      v ← int_str text;
      Ok {| year := year f; month := month f; day := day f; hour := hour f;
            minute := v; second := second f; weekday := weekday f |}
  | "S"%char =>
      v ← int_str text;
      Ok {| year := year f; month := month f; day := day f; hour := hour f;
            minute := minute f; second := v; weekday := weekday f |}
  | "a"%char =>
      v ← index (lower_str text) a_weekday;
      Ok {| year := year f; month := month f; day := day f; hour := hour f;
            minute := minute f; second := second f; weekday := Some v |}
  | _ => Ok f
  end.

Fixpoint assign_all (f : fields) (found_dict : groupdict) : result fields :=
  match found_dict with
  | [] => Ok f
  | group :: found_dict' => f' ← assign f group; assign_all f' found_dict'
  end.

(** [_strptime]: the first six entries of the time tuple.  The day of the
    year is computed from [datetime_date(year, month, day)], which must
    exist; a weekday given by [%a] is kept as it was read. *)
Definition _strptime (data_string format : string)
    : result (Z * Z * Z * Z * Z * Z) :=
  format_regex ← pattern format;
  match match_ format_regex data_string with
  | None => Raise ValueError
  | Some (rest, found_dict) =>
      if negb (String.eqb rest "") then Raise ValueError
      else
        f ← assign_all defaults found_dict;
        let '(year_, leap_year_fix) :=
          match year f with
          | Some y => (y, false)
          | None =>
              if (month f =? 2) && (day f =? 29) then (1904, true)
              else (1900, false)
          end in
        _ ← Datetime.date_new year_ (month f) (day f);
        _ ← Datetime.date_new year_ 1 1;
        let year_ := if leap_year_fix then 1900 else year_ in
        Ok (year_, month f, day f, hour f, minute f, second f)
  end.

(** [_strptime_datetime], that is [datetime.datetime.strptime]. *)
Definition strptime (data_string format : string)
    : result Datetime.datetime :=
  '(y, m, d, hh, mm, ss) ← _strptime data_string format;
  Datetime.new y m d hh mm ss 0 None.

End Strptime.

(* ===================================================================== *)
(** * dateutil.parser.isoparse *)
(* ===================================================================== *)

(** After python-dateutil's [parser/isoparser.py] (2.8), the parser object
    built with [sep=None]: any single character may separate the date from
    the time. *)
Module Isoparser.

Definition _DATE_SEP : string := "-".
Definition _TIME_SEP : string := ":".

(** [_FRACTION_REGEX], [[\.,]([0-9]+)]. *)
Definition _FRACTION_REGEX : Re.regex :=
  Re.Seq (Re.Cls (fun c => Ascii.eqb c "." || Ascii.eqb c ","))
         (Re.Group "1" (Re.Plus is_ascii_digit)).

(** [calendar.isleap]. *)
Definition isleap (year : Z) : bool :=
  (year mod 4 =? 0) && (negb (year mod 100 =? 0) || (year mod 400 =? 0)).

(** The decorator [_takes_ascii]: the text is encoded as ASCII. *)
Definition encode_ascii (str_in : string) : result string :=
  if forallb (fun c => (N_of_ascii c <? 128)%N) (list_ascii_of_string str_in)
  then Ok str_in
  else Raise ValueError.

Definition _parse_isodate_common (dt_str : string)
    : result (list Z * nat) :=
  let len_str := String.length dt_str in
  let components := [1; 1; 1] in
  if (len_str <? 4)%nat then Raise ValueError
  else
    (* Year *)
    year ← int_bytes (slice dt_str 0 4);
    let components := <[0%nat := year]> components in
    let pos := 4%nat in
    if (len_str <=? pos)%nat then Ok (components, pos)
    else
      let has_sep := String.eqb (slice dt_str pos (pos + 1)) _DATE_SEP in
      let pos := if has_sep then (pos + 1)%nat else pos in
      (* Month *)
      if (len_str - pos <? 2)%nat then Raise ValueError
      else
        month ← int_bytes (slice dt_str pos (pos + 2));
        let components := <[1%nat := month]> components in
        let pos := (pos + 2)%nat in
        if (len_str <=? pos)%nat then
          if has_sep then Ok (components, pos) else Raise ValueError
        else
          pos ← (if has_sep then
                   if negb (String.eqb (slice dt_str pos (pos + 1)) _DATE_SEP)
                   then Raise ValueError
                   else Ok (pos + 1)%nat
                 else Ok pos);
          (* Day *)
          if (len_str - pos <? 2)%nat then Raise ValueError
          else
            day ← int_bytes (slice dt_str pos (pos + 2));
            Ok (<[2%nat := day]> components, (pos + 2)%nat).

Definition _calculate_weekdate (year week day : Z) : result (Z * Z * Z) :=
  if negb ((0 <? week) && (week <? 54)) then Raise ValueError
  else if negb ((0 <? day) && (day <? 8)) then Raise ValueError
  else
    (* Week 1 always has January 4th in it *)
    jan_4 ← Datetime.date_new year 1 4;
    let '(_, _, isoweekday) := Datetime.isocalendar jan_4 in
    week_1 ← Datetime.date_add_days jan_4 (- (isoweekday - 1));
    let week_offset := (week - 1) * 7 + (day - 1) in
    Datetime.date_add_days week_1 week_offset.

Definition _parse_isodate_uncommon (dt_str : string)
    : result (list Z * nat) :=
  if (String.length dt_str <? 4)%nat then Raise ValueError
  else
    (* All ISO formats start with the year *)
    year ← int_bytes (slice dt_str 0 4);
    let has_sep := String.eqb (slice dt_str 4 5) _DATE_SEP in
    let pos := (4 + (if has_sep then 1 else 0))%nat in
    '(base_date, pos) ←
      (if String.eqb (slice dt_str pos (pos + 1)) "W" then
         (* YYYY-?Www-?D? *)
         let pos := (pos + 1)%nat in
         weekno ← int_bytes (slice dt_str pos (pos + 2));
         let pos := (pos + 2)%nat in
         '(dayno, pos) ←
           (if (pos <? String.length dt_str)%nat then
              if negb (Bool.eqb (String.eqb (slice dt_str pos (pos + 1)) _DATE_SEP)
                                has_sep)
              then Raise ValueError
              else
                let pos := (pos + (if has_sep then 1 else 0))%nat in
                dayno ← int_bytes (slice dt_str pos (pos + 1));
                Ok (dayno, (pos + 1)%nat)
            else Ok (1, pos));
         base_date ← _calculate_weekdate year weekno dayno;
         Ok (base_date, pos)
       else
         (* YYYYDDD or YYYY-DDD *)
         if (String.length dt_str - pos <? 3)%nat then Raise ValueError
         else
           ordinal_day ← int_bytes (slice dt_str pos (pos + 3));
           let pos := (pos + 3)%nat in
           if (ordinal_day <? 1)
              || (365 + (if isleap year then 1 else 0) <? ordinal_day)
           then Raise ValueError
           else
             jan_1 ← Datetime.date_new year 1 1;
             base_date ← Datetime.date_add_days jan_1 (ordinal_day - 1);
             Ok (base_date, pos));
    let '(y, m, d) := base_date in
    Ok ([y; m; d], pos).

(** [try: common; except ValueError: uncommon]. *)
Definition _parse_isodate (dt_str : string) : result (list Z * nat) :=
  match _parse_isodate_common dt_str with
  | Raise ValueError => _parse_isodate_uncommon dt_str
  | r => r
  end.

Definition _parse_tzstr (tzstr : string) : result Datetime.tzinfo :=
  if String.eqb tzstr "Z" || String.eqb tzstr "z" then Ok Datetime.tzutc
  else
    let len := String.length tzstr in
    if negb ((len =? 3)%nat || (len =? 5)%nat || (len =? 6)%nat)
    then Raise ValueError
    else
      mult ← (if String.eqb (slice tzstr 0 1) "-" then Ok (-1)
              else if String.eqb (slice tzstr 0 1) "+" then Ok 1
              else Raise ValueError);
      hours ← int_bytes (slice tzstr 1 3);
      minutes ← (if (len =? 3)%nat then Ok 0
                 else
                   int_bytes
                     (slice_from tzstr
                        (if String.eqb (slice tzstr 3 4) _TIME_SEP
                         then 4%nat else 3%nat)));
      if (hours =? 0) && (minutes =? 0) then Ok Datetime.tzutc
      else if 59 <? minutes then Raise ValueError
      else if 23 <? hours then Raise ValueError
      else Ok (Datetime.tzoffset (mult * (hours * 60 + minutes) * 60)).

(** The state of the loop of [_parse_isotime]: [components[0:4]],
    [components[-1]], [pos], [comp] and [has_sep]. *)
Record isotime_state : Type := {
  components : list Z;
  tzinfo : option Datetime.tzinfo;
  pos : nat;
  comp : Z;
  has_sep : bool
}.

(** [while pos < len_str and comp < 5].  [comp] starts at -1 and grows by
    one in every turn, so six turns are the most the loop can make. *)
Fixpoint isotime_loop (turns : nat) (timestr : string) (st : isotime_state)
    : result isotime_state :=
  match turns with
  | O => Ok st
  | S turns' =>
      let len_str := String.length timestr in
      if negb ((pos st <? len_str)%nat && (comp st <? 5)) then Ok st
      else
        let comp := comp st + 1 in
        let pos := pos st in
        let char := slice timestr pos (pos + 1) in
        if existsb (String.eqb char) ["-"; "+"; "Z"; "z"] then
          (* Detect time zone boundary *)
          tz ← _parse_tzstr (slice_from timestr pos);
          Ok {| components := components st; tzinfo := Some tz;
                pos := len_str; comp := comp; has_sep := has_sep st |}
        else
          '(has_sep, pos) ←
            (if (comp =? 1) && String.eqb char _TIME_SEP
             then Ok (true, (pos + 1)%nat)
             else if (comp =? 2) && has_sep st then
               if negb (String.eqb char _TIME_SEP) then Raise ValueError
               else Ok (has_sep st, (pos + 1)%nat)
             else Ok (has_sep st, pos));
          '(components, pos) ←
            (if comp <? 3 then
               (* Hour, minute, second *)
               v ← int_bytes (slice timestr pos (pos + 2));
               Ok (<[Z.to_nat comp := v]> (components st), (pos + 2)%nat)
             else Ok (components st, pos));
          if comp =? 3 then
            (* Fraction of a second *)
            match Re.match_ _FRACTION_REGEX (slice_from timestr pos) with
            | Some (rest, [(_, digits)]) =>
                let us_str := slice digits 0 6 in
                v ← int_bytes us_str;
                let width := (String.length (slice_from timestr pos)
                              - String.length rest)%nat in
                isotime_loop turns' timestr
                  {| components :=
                       <[3%nat :=
                         v * 10 ^ (6 - Z.of_nat (String.length us_str))]>
                         components;
                     tzinfo := tzinfo st; pos := (pos + width)%nat;
                     comp := comp; has_sep := has_sep |}
            | _ =>
                isotime_loop turns' timestr
                  {| components := components; tzinfo := tzinfo st;
                     pos := pos; comp := comp; has_sep := has_sep |}
            end
          else
            isotime_loop turns' timestr
              {| components := components; tzinfo := tzinfo st;
                 pos := pos; comp := comp; has_sep := has_sep |}
  end.

Definition _parse_isotime (timestr : string)
    : result (list Z * option Datetime.tzinfo) :=
  let len_str := String.length timestr in
  if (len_str <? 2)%nat then Raise ValueError
  else
    st ← isotime_loop 6 timestr
           {| components := [0; 0; 0; 0]; tzinfo := None; pos := 0%nat;
              comp := -1; has_sep := false |};
    if (pos st <? len_str)%nat then Raise ValueError
    else if (nth 0 (components st) 0 =? 24)
            && existsb (fun component => negb (component =? 0))
                       (skipn 1 (components st))
    then Raise ValueError
    else Ok (components st, tzinfo st).

(** [isoparse]. *)
Definition isoparse (dt_str : string) : result Datetime.datetime :=
  dt_str ← encode_ascii dt_str;
  '(date, pos) ← _parse_isodate dt_str;
  '(time, tz) ←
    (if (pos <? String.length dt_str)%nat
     then _parse_isotime (slice_from dt_str (pos + 1))
     else Ok ([0; 0; 0; 0], None));
  let year := nth 0 date 0 in
  let month := nth 1 date 0 in
  let day := nth 2 date 0 in
  let hour := nth 0 time 0 in
  let minute := nth 1 time 0 in
  let second := nth 2 time 0 in
  let microsecond := nth 3 time 0 in
  if (pos <? String.length dt_str)%nat && (hour =? 24) then
    dt ← Datetime.new year month day 0 minute second microsecond tz;
    Datetime.add_days dt 1
  else Datetime.new year month day hour minute second microsecond tz.

End Isoparser.

(* ===================================================================== *)
(** * datetime.strftime *)
(* ===================================================================== *)

(** [datetime.strftime] hands the format to the C library's [strftime]; the
    conversions of the module's format are [%Y %m %d %H %M]. *)
Module Strftime.

(** The C library: whether [%Y] is zero-filled to four digits, or written
    as the plain number as glibc does.  The two differ before year 1000. *)
Class Libc : Type := { pads_year : bool }.

(** [text.zfill(width)] for the text of a number that is not negative. *)
Definition zfill (width : nat) (text : string) : string :=
  string_of_list_ascii (repeat "0"%char (width - String.length text))
  +:+ text.

Definition conversion `{Libc} (dt : Datetime.datetime) (directive : ascii)
    : option string :=
  match directive with
  | "Y"%char =>
      Some (if pads_year then zfill 4 (str_int (Datetime.year dt))
            else str_int (Datetime.year dt))
  | "m"%char => Some (zfill 2 (str_int (Datetime.month dt)))
  | "d"%char => Some (zfill 2 (str_int (Datetime.day dt)))
  | "H"%char => Some (zfill 2 (str_int (Datetime.hour dt)))
  | "M"%char => Some (zfill 2 (str_int (Datetime.minute dt)))
  | "S"%char => Some (zfill 2 (str_int (Datetime.second dt)))
  | "%"%char => Some "%"
  | _ => None
  end.

Fixpoint strftime `{Libc} (dt : Datetime.datetime) (format : string) : string :=
  match format with
  | EmptyString => EmptyString
  | String c rest =>
      if Ascii.eqb c "%" then
        match rest with
        | EmptyString => String c EmptyString
        | String directive rest' =>
            match conversion dt directive with
            | Some text => text +:+ strftime dt rest'
            | None => String c (String directive (strftime dt rest'))
            end
        end
      else String c (strftime dt rest)
  end.

End Strftime.

(* ===================================================================== *)
(** * Coroutines: the clock and the event loop *)
(* ===================================================================== *)

Module Asyncio.

(** A coroutine of the module, as the sequence of its requests:
    [datetime.datetime.utcnow()], which resumes with the reading, and
    [await asyncio.sleep(seconds)]. *)
Inductive coroutine (A : Type) : Type :=
| Return (v : A)
| Throw (e : exn)
| Utcnow (k : Datetime.datetime -> coroutine A)
| Sleep (delay : Q) (k : coroutine A).
Arguments Return {A} v.
Arguments Throw {A} e.
Arguments Utcnow {A} k.
Arguments Sleep {A} delay k.

(** What the environment observes of a run. *)
Inductive event : Type :=
| utcnow_called (now : Datetime.datetime)
| slept (delay : Q).

(** [utcnow()] returns a naive object. *)
Definition naive (reading : Datetime.datetime) : Datetime.datetime :=
  {| Datetime.year := Datetime.year reading;
     Datetime.month := Datetime.month reading;
     Datetime.day := Datetime.day reading;
     Datetime.hour := Datetime.hour reading;
     Datetime.minute := Datetime.minute reading;
     Datetime.second := Datetime.second reading;
     Datetime.microsecond := Datetime.microsecond reading;
     Datetime.tz := None |}.

(** Runs a coroutine to its end; the [i]-th call of [utcnow()] reads
    [clock i].  The result is the events in order and the outcome. *)
Fixpoint run {A : Type} (clock : nat -> Datetime.datetime) (reads : nat)
    (c : coroutine A) : list event * result A :=
  match c with
  | Return v => ([], Ok v)
  | Throw e => ([], Raise e)
  | Utcnow k =>
      let now := naive (clock reads) in
      let '(events, outcome) := run clock (S reads) (k now) in
      (utcnow_called now :: events, outcome)
  | Sleep delay k =>
      let '(events, outcome) := run clock reads k in
      (slept delay :: events, outcome)
  end.

End Asyncio.

(* ===================================================================== *)
(** * dateutil.relativedelta *)
(* ===================================================================== *)

(** After python-dateutil's [relativedelta.py] (2.9): the object that
    [relativedelta(dt1, dt2)] builds from two datetimes, and its [abs], with
    the comparison and the sum of [datetime.py] and the month lengths of
    [calendar.py] that the constructor calls.  The absolute fields of the
    object ([year], [month], ..., [weekday]) are [None] in an object built
    this way and are left out. *)
Module Relativedelta.

Record relativedelta : Type := {
  years : Z;
  months : Z;
  days : Z;
  leapdays : Z;
  hours : Z;
  minutes : Z;
  seconds : Z;
  microseconds : Z
}.

(** [calendar.mdays] and [calendar.monthrange(year, month)[1]]. *)
Definition mdays : list Z := [0; 31; 28; 31; 30; 31; 30; 31; 31; 30; 31; 30; 31].

Definition monthrange (year month : Z) : result Z :=
  if negb ((1 <=? month) && (month <=? 12)) then Raise ValueError
  else Ok (nth (Z.to_nat month) mdays 0
           + (if (month =? 2) && Isoparser.isleap year then 1 else 0)).

(** [_cmp(x, y)] of [datetime.py] on two tuples of [int]. *)
Fixpoint _cmp (x y : list Z) : Z :=
  match x, y with
  | [], [] => 0
  | [], _ :: _ => -1
  | _ :: _, [] => 1
  | a :: x', b :: y' =>
      if a <? b then -1 else if b <? a then 1 else _cmp x' y'
  end.

(** [datetime._cmp]: the fields are compared when both objects are naive or
    have the same offset; a naive and an aware object do not compare. *)
Definition datetime_cmp (self other : Datetime.datetime) : result Z :=
  let base :=
    _cmp [Datetime.year self; Datetime.month self; Datetime.day self;
          Datetime.hour self; Datetime.minute self; Datetime.second self;
          Datetime.microsecond self]
         [Datetime.year other; Datetime.month other; Datetime.day other;
          Datetime.hour other; Datetime.minute other; Datetime.second other;
          Datetime.microsecond other] in
  match Datetime.tz self, Datetime.tz other with
  | None, None => Ok base
  | Some mytz, Some ottz =>
      if Datetime.utcoffset_of mytz =? Datetime.utcoffset_of ottz then Ok base
      else
        diff ← Datetime.sub self other;
        if Datetime.days diff <? 0 then Ok (-1)
        else if (Datetime.days diff =? 0) && (Datetime.seconds diff =? 0)
                && (Datetime.microseconds diff =? 0)
        then Ok 0
        else Ok 1
  | _, _ => Raise TypeError
  end.

(** [self < other] and [self > other]. *)
Definition lt (self other : Datetime.datetime) : result bool :=
  c ← datetime_cmp self other; Ok (c <? 0).

Definition gt (self other : Datetime.datetime) : result bool :=
  c ← datetime_cmp self other; Ok (0 <? c).

(** [datetime.__add__] with a [timedelta]. *)
Definition datetime_add (self : Datetime.datetime) (other : Datetime.timedelta)
    : result Datetime.datetime :=
  delta ← Datetime.timedelta_new
             (Datetime.toordinal self)
             (Datetime.hour self * 3600 + Datetime.minute self * 60
              + Datetime.second self)
             (Datetime.microsecond self);
  delta ← Datetime.timedelta_new
             (Datetime.days delta + Datetime.days other)
             (Datetime.seconds delta + Datetime.seconds other)
             (Datetime.microseconds delta + Datetime.microseconds other);
  let hour := Datetime.seconds delta / 3600 in
  let rem := Datetime.seconds delta mod 3600 in
  let minute := rem / 60 in
  let second := rem mod 60 in
  if (0 <? Datetime.days delta) && (Datetime.days delta <=? Datetime._MAXORDINAL)
  then
    '(y, m, d) ← Datetime.date_fromordinal (Datetime.days delta);
    Datetime.new y m d hour minute second (Datetime.microseconds delta)
                 (Datetime.tz self)
  else Raise OverflowError.

(** [int(copysign(1, x))]. *)
Definition _sign (x : Z) : Z := if x <? 0 then -1 else 1.

Definition _set_months (self : relativedelta) (months : Z) : relativedelta :=
  if 11 <? Z.abs months then
    let s := _sign months in
    let div := (months * s) / 12 in
    let mod_ := (months * s) mod 12 in
    {| years := div * s; months := mod_ * s; days := days self;
       leapdays := leapdays self; hours := hours self;
       minutes := minutes self; seconds := seconds self;
       microseconds := microseconds self |}
  else
    {| years := 0; months := months; days := days self;
       leapdays := leapdays self; hours := hours self;
       minutes := minutes self; seconds := seconds self;
       microseconds := microseconds self |}.

(** [relativedelta.__radd__] with a [datetime]: the years and months are
    added to the year and the month, the day is cut to the length of the
    month reached, and the remaining fields are added as a [timedelta].
    ([_set_months] leaves a number of months between -11 and 11, as the
    assertion of the method demands.) *)
Definition __radd__ (self : relativedelta) (other : Datetime.datetime)
    : result Datetime.datetime :=
  let year := Datetime.year other + years self in
  let month := Datetime.month other in
  let '(year, month) :=
    if months self =? 0 then (year, month)
    else
      let month := month + months self in
      if 12 <? month then (year + 1, month - 12)
      else if month <? 1 then (year - 1, month + 12)
      else (year, month) in
  ndays ← monthrange year month;
  let day := Z.min ndays (Datetime.day other) in
  let days :=
    if negb (leapdays self =? 0) && (2 <? month) && Isoparser.isleap year
    then days self + leapdays self
    else days self in
  replaced ← Datetime.new year month day (Datetime.hour other)
                (Datetime.minute other) (Datetime.second other)
                (Datetime.microsecond other) (Datetime.tz other);
  delta ← Datetime.timedelta_new
             days (seconds self + minutes self * 60 + hours self * 3600)
             (microseconds self);
  datetime_add replaced delta.

Definition _fix (self : relativedelta) : relativedelta :=
  let '(microseconds, seconds) :=
    if 999999 <? Z.abs (microseconds self) then
      let s := _sign (microseconds self) in
      ((microseconds self * s) mod 1000000 * s,
       seconds self + (microseconds self * s) / 1000000 * s)
    else (microseconds self, seconds self) in
  let '(seconds, minutes) :=
    if 59 <? Z.abs seconds then
      let s := _sign seconds in
      ((seconds * s) mod 60 * s, minutes self + (seconds * s) / 60 * s)
    else (seconds, minutes self) in
  let '(minutes, hours) :=
    if 59 <? Z.abs minutes then
      let s := _sign minutes in
      ((minutes * s) mod 60 * s, hours self + (minutes * s) / 60 * s)
    else (minutes, hours self) in
  let '(hours, days) :=
    if 23 <? Z.abs hours then
      let s := _sign hours in
      ((hours * s) mod 24 * s, days self + (hours * s) / 24 * s)
    else (hours, days self) in
  let '(months, years) :=
    if 11 <? Z.abs (months self) then
      let s := _sign (months self) in
      ((months self * s) mod 12 * s, years self + (months self * s) / 12 * s)
    else (months self, years self) in
  {| years := years; months := months; days := days;
     leapdays := leapdays self; hours := hours; minutes := minutes;
     seconds := seconds; microseconds := microseconds |}.

(** [while compare(dt1, dtm): months += increment; ...], the state being
    [(self, months, dtm)].  [None]: the loop has not ended after [fuel]
    tests of its condition. *)
Fixpoint adjust (fuel : nat)
    (compare : Datetime.datetime -> Datetime.datetime -> result bool)
    (increment : Z) (dt1 dt2 : Datetime.datetime)
    (self : relativedelta) (months : Z) (dtm : Datetime.datetime)
    : option (result (relativedelta * Datetime.datetime)) :=
  match fuel with
  | O => None
  | S fuel' =>
      match compare dt1 dtm with
      | Raise e => Some (Raise e)
      | Ok false => Some (Ok (self, dtm))
      | Ok true =>
          let months := months + increment in
          let self := _set_months self months in
          match __radd__ self dt2 with
          | Raise e => Some (Raise e)
          | Ok dtm => adjust fuel' compare increment dt1 dt2 self months dtm
          end
      end
  end.

(** [self.seconds = delta.seconds + delta.days * 86400] and
    [self.microseconds = delta.microseconds]. *)
Definition set_delta (self : relativedelta) (delta : Datetime.timedelta)
    : relativedelta :=
  {| years := years self; months := months self; days := days self;
     leapdays := leapdays self; hours := hours self; minutes := minutes self;
     seconds := Datetime.seconds delta + Datetime.days delta * 86400;
     microseconds := Datetime.microseconds delta |}.

(** [relativedelta(dt1, dt2)] for two [datetime] objects. *)
Definition new (fuel : nat) (dt1 dt2 : Datetime.datetime)
    : option (result relativedelta) :=
  let self := {| years := 0; months := 0; days := 0; leapdays := 0;
                 hours := 0; minutes := 0; seconds := 0;
                 microseconds := 0 |} in
  (* Get year / month delta between the two *)
  let months := (Datetime.year dt1 - Datetime.year dt2) * 12
                + (Datetime.month dt1 - Datetime.month dt2) in
  let self := _set_months self months in
  match __radd__ self dt2 with
  | Raise e => Some (Raise e)
  | Ok dtm =>
      match lt dt1 dt2 with
      | Raise e => Some (Raise e)
      | Ok less =>
          let '(compare, increment) := if less then (gt, 1) else (lt, -1) in
          match adjust fuel compare increment dt1 dt2 self months dtm with
          | None => None
          | Some r =>
              Some ('(self, dtm) ← r;
                    delta ← Datetime.sub dt1 dtm;
                    Ok (_fix (set_delta self delta)))
          end
      end
  end.

(** [relativedelta(years=..., months=..., ...)]: the constructor with the
    relative fields as keyword arguments, which stores them and calls
    [_fix]. *)
Definition keywords (years months days leapdays hours minutes seconds
    microseconds : Z) : relativedelta :=
  _fix {| years := years; months := months; days := days;
          leapdays := leapdays; hours := hours; minutes := minutes;
          seconds := seconds; microseconds := microseconds |}.

(** [relativedelta.__abs__]. *)
Definition abs (self : relativedelta) : relativedelta :=
  keywords (Z.abs (years self)) (Z.abs (months self)) (Z.abs (days self))
           (leapdays self) (Z.abs (hours self)) (Z.abs (minutes self))
           (Z.abs (seconds self)) (Z.abs (microseconds self)).

End Relativedelta.

(* ===================================================================== *)
(** * humanize_delta *)
(* ===================================================================== *)

(** The fields of [dateutil.relativedelta.relativedelta] that the module
    reads. *)
Record relativedelta : Type := {
  years : Z;
  months : Z;
  days : Z;
  hours : Z;
  minutes : Z;
  seconds : Z
}.

Definition _stringify_time_unit (value : Z) (unit : string) : string :=
  if value =? 1 then str_int value +:+ " " +:+ slice_to unit (-1)
  else if value =? 0 then "less than a " +:+ slice_to unit (-1)
  else str_int value +:+ " " +:+ unit.

(** The tuple [units] built at the top of [humanize_delta]. *)
Definition units_of (delta : relativedelta) : list (string * Z) :=
  [ ("years", years delta);
    ("months", months delta);
    ("days", days delta);
    ("hours", hours delta);
    ("minutes", minutes delta);
    ("seconds", seconds delta) ].

(** The [for unit, value in units] loop, with its [break]; the state is
    [(time_strings, unit_count)]. *)
Fixpoint units_loop (precision : string) (max_units : Z)
    (units : list (string * Z)) (time_strings : list string) (unit_count : Z)
    : list string * Z :=
  match units with
  | [] => (time_strings, unit_count)
  | (unit, value) :: rest =>
      let '(time_strings, unit_count) :=
        if value =? 0 then (time_strings, unit_count)
        else (time_strings ++ [_stringify_time_unit value unit], unit_count + 1) in
      if String.eqb unit precision || (max_units <=? unit_count)
      then (time_strings, unit_count)
      else units_loop precision max_units rest time_strings unit_count
  end.

(** [time_strings] as the loop leaves it. *)
Definition emitted (delta : relativedelta) (precision : string) (max_units : Z)
    : list string :=
  fst (units_loop precision max_units (units_of delta) [] 0).

(** [time_strings[-1] = f"{time_strings[-2]} and {time_strings[-1]}"]
    followed by [del time_strings[-2]], under [len(time_strings) > 1]. *)
Definition add_and (time_strings : list string) : list string :=
  let n := length time_strings in
  if (1 <? n)%nat then
    match time_strings !! (n - 2)%nat, time_strings !! (n - 1)%nat with
    | Some a, Some b =>
        delete (n - 2)%nat (<[(n - 1)%nat := a +:+ " and " +:+ b]> time_strings)
    | _, _ => time_strings
    end
  else time_strings.

Definition humanize_delta (delta : relativedelta) (precision : string)
    (max_units : Z) : string :=
  let time_strings := add_and (emitted delta precision max_units) in
  match time_strings with
  | [] => _stringify_time_unit 0 precision
  | _ :: _ => join ", " time_strings
  end.

(** Vocabulary of the statements about the loop. *)

Definition unit_names : list string :=
  ["years"; "months"; "days"; "hours"; "minutes"; "seconds"].

Definition nonzero (uv : string * Z) : bool := negb (snd uv =? 0).

Definition stringify (uv : string * Z) : string :=
  _stringify_time_unit (snd uv) (fst uv).

(** A digit or the minus sign: what the text of an [int] starts with. *)
Definition digit_or_sign (c : ascii) : bool :=
  match c with
  | "0" | "1" | "2" | "3" | "4" | "5" | "6" | "7" | "8" | "9" | "-" => true
  | _ => false
  end%char.

(** The [break] test after the unit at index [i], when the counter was
    [unit_count] on entry to the loop. *)
Definition stops (precision : string) (max_units : Z) (unit_count : Z)
    (units : list (string * Z)) (i : nat) : bool :=
  match units !! i with
  | Some (unit, _) =>
      String.eqb unit precision
      || (max_units <=? unit_count + Z.of_nat (length (List.filter nonzero (take (S i) units))))
  | None => false
  end.

(* ===================================================================== *)
(** * time_since *)
(* ===================================================================== *)

(** The six fields of the object that [humanize_delta] reads. *)
Definition fields_read (delta : Relativedelta.relativedelta) : relativedelta :=
  {| years := Relativedelta.years delta;
     months := Relativedelta.months delta;
     days := Relativedelta.days delta;
     hours := Relativedelta.hours delta;
     minutes := Relativedelta.minutes delta;
     seconds := Relativedelta.seconds delta |}.

(** [time_since] reads the clock with the request of [wait_until] and makes
    no other request.  [fuel] bounds the loop of the [relativedelta]
    constructor, and [None] is returned when the loop has not ended within
    it. *)
Definition time_since (fuel : nat) (past_datetime : Datetime.datetime)
    (precision : string) (max_units : Z) : Asyncio.coroutine (option string) :=
  Asyncio.Utcnow (fun now =>
    match Relativedelta.new fuel now past_datetime with
    | None => Asyncio.Return None
    | Some (Raise e) => Asyncio.Throw e
    | Some (Ok delta) =>
        let delta := Relativedelta.abs delta in
        let humanized := humanize_delta (fields_read delta) precision max_units in
        Asyncio.Return (Some (humanized +:+ " ago"))
    end).

(* ===================================================================== *)
(** * parse_rfc1123 *)
(* ===================================================================== *)

Definition RFC1123_FORMAT : string := "%a, %d %b %Y %H:%M:%S GMT".

Definition parse_rfc1123 (time_str : string) : result Datetime.datetime :=
  dt ← Strptime.strptime time_str RFC1123_FORMAT;
  Datetime.replace_tzinfo dt (Some Datetime.timezone_utc).

(** Vocabulary of the statements about [parse_rfc1123]. *)

(** [TimeRE.pattern(RFC1123_FORMAT)], that is
    [(?P<a>mon|...|sun),\s+(?P<d>...)\s+(?P<b>jan|...|dec)\s+(?P<Y>\d\d\d\d)\s+(?P<H>...):(?P<M>...):(?P<S>...)\s+GMT]. *)
Definition table_entry (directive : ascii) : Re.regex :=
  match Strptime.directive_regex directive with
  | Some r => r
  | None => Re.Empty
  end.

Definition rfc1123_regex : Re.regex :=
  let spaces := Re.Plus Re.is_space in
  fold_right Re.Seq Re.Empty
    [table_entry "a"; Re.Chr ","; spaces; table_entry "d"; spaces;
     table_entry "b"; spaces; table_entry "Y"; spaces;
     table_entry "H"; Re.Chr ":"; table_entry "M"; Re.Chr ":"; table_entry "S";
     spaces; Re.Chr "G"; Re.Chr "M"; Re.Chr "T"].



(** The exact pattern of the specification,
    [<weekday-abbrev>, <day> <month-abbrev> <year> <hour>:<minute>:<second> GMT],
    with a two-digit day, hour, minute and second and a four-digit year. *)
Fixpoint all_digits (s : string) : bool :=
  match s with
  | EmptyString => true
  | String c s' => Re.is_digit c && all_digits s'
  end.

Definition weekday_abbrevs : list string :=
  ["Mon"; "Tue"; "Wed"; "Thu"; "Fri"; "Sat"; "Sun"].

Definition month_abbrevs : list string :=
  ["Jan"; "Feb"; "Mar"; "Apr"; "May"; "Jun";
   "Jul"; "Aug"; "Sep"; "Oct"; "Nov"; "Dec"].

Definition rfc1123_exact (s : string) : bool :=
  (String.length s =? 29)%nat
  && existsb (String.eqb (substring 0 3 s)) weekday_abbrevs
  && String.eqb (substring 3 2 s) ", "
  && all_digits (substring 5 2 s)
  && String.eqb (substring 7 1 s) " "
  && existsb (String.eqb (substring 8 3 s)) month_abbrevs
  && String.eqb (substring 11 1 s) " "
  && all_digits (substring 12 4 s)
  && String.eqb (substring 16 1 s) " "
  && all_digits (substring 17 2 s)
  && String.eqb (substring 19 1 s) ":"
  && all_digits (substring 20 2 s)
  && String.eqb (substring 22 1 s) ":"
  && all_digits (substring 23 2 s)
  && String.eqb (substring 25 4 s) " GMT".

(** The number that a text of digits writes. *)
Fixpoint digits_value (acc : Z) (digits : string) : Z :=
  match digits with
  | EmptyString => acc
  | String c digits' => digits_value (acc * 10 + digit_value c) digits'
  end.

Definition number_at (s : string) (start len : nat) : Z :=
  digits_value 0 (substring start len s).

Definition month_at (s : string) (start : nat) : Z :=
  match index (substring start 3 s) month_abbrevs with
  | Ok i => i + 1
  | Raise _ => 0
  end.

(** The day, hour, minute and second of a text in the exact pattern are a
    day of some month and a time of day. *)
Definition rfc1123_in_range (s : string) : bool :=
  (1 <=? number_at s 5 2) && (number_at s 5 2 <=? 31)
  && (number_at s 17 2 <=? 23)
  && (number_at s 20 2 <=? 59)
  && (number_at s 23 2 <=? 59).

(** The pattern [r] matches [w] before any other text, whatever follows:
    a match of [r] at [w ++ rest] whose continuation accepts [rest] is the
    first one found. *)
Definition consumes (R : Type) (r : Re.regex) (w : string) : Prop :=
  forall rest groups (k : string -> Re.groupdict -> option R) found,
    k rest groups = Some found ->
    Re.match_at r (w +:+ rest) groups k = Some found.

(** The timestamp that a text in the exact pattern writes, in UTC. *)
Definition rfc1123_timestamp (s : string) : result Datetime.datetime :=
  Datetime.new (number_at s 12 4) (month_at s 8) (number_at s 5 2)
               (number_at s 17 2) (number_at s 20 2) (number_at s 23 2) 0
               (Some Datetime.timezone_utc).

(* ===================================================================== *)
(** * wait_until *)
(* ===================================================================== *)

Definition wait_until (time : Datetime.datetime) : Asyncio.coroutine unit :=
  Asyncio.Utcnow (fun now =>
    match Datetime.sub time now with
    | Raise e => Asyncio.Throw e
    | Ok delay =>
        let delay_seconds := Datetime.total_seconds delay in
        if Datetime.Qgtb delay_seconds 1
        then Asyncio.Sleep delay_seconds (Asyncio.Return tt)
        else Asyncio.Return tt
    end).

(** Vocabulary of the statements about [wait_until]. *)

(** The fields are those of a constructed [datetime]. *)
Definition well_formed (dt : Datetime.datetime) : bool :=
  is_ok (Datetime.new (Datetime.year dt) (Datetime.month dt) (Datetime.day dt)
           (Datetime.hour dt) (Datetime.minute dt) (Datetime.second dt)
           (Datetime.microsecond dt) (Datetime.tz dt)).

(** Microseconds from the start of day 0 to the fields of [dt]. *)
Definition microseconds_of (dt : Datetime.datetime) : Z :=
  ((Datetime.toordinal dt * 86400
    + Datetime.hour dt * 3600 + Datetime.minute dt * 60 + Datetime.second dt)
   * 1000000)
  + Datetime.microsecond dt.

(** One reading of the clock; then either one sleep of the whole delay, when
    the delay exceeds one second, or nothing; and a normal return. *)
Definition waits_once (time : Datetime.datetime)
    (clock : nat -> Datetime.datetime) : Prop :=
  let now := Asyncio.naive (clock 0%nat) in
  let delay_seconds :=
    Qmake (microseconds_of time - microseconds_of now) 1000000 in
  Asyncio.run clock 0 (wait_until time)
  = (Asyncio.utcnow_called now
       :: (if Datetime.Qgtb delay_seconds 1
           then [Asyncio.slept delay_seconds] else []),
     Ok tt).

(* ===================================================================== *)
(** * format_infraction *)
(* ===================================================================== *)

Definition INFRACTION_FORMAT : string := "%Y-%m-%d %H:%M".

Definition format_infraction `{Strftime.Libc} (timestamp : string)
    : result string :=
  dt ← Isoparser.isoparse timestamp;
  Ok (Strftime.strftime dt INFRACTION_FORMAT).

(** Vocabulary of the statements about [format_infraction]. *)

(** The GNU C library writes the year as the plain number. *)
Definition glibc : Strftime.Libc := {| Strftime.pads_year := false |}.

(** The layout [YYYY-MM-DD HH:MM] of the fields of [dt], the year as the C
    library writes it. *)
Definition infraction_layout `{Strftime.Libc} (dt : Datetime.datetime)
    : string :=
  (if Strftime.pads_year then Strftime.zfill 4 (str_int (Datetime.year dt))
   else str_int (Datetime.year dt))
  +:+ "-" +:+ Strftime.zfill 2 (str_int (Datetime.month dt))
  +:+ "-" +:+ Strftime.zfill 2 (str_int (Datetime.day dt))
  +:+ " " +:+ Strftime.zfill 2 (str_int (Datetime.hour dt))
  +:+ ":" +:+ Strftime.zfill 2 (str_int (Datetime.minute dt)).

(** Four digits, a dash, two digits, a dash, two digits, a space, two
    digits, a colon, two digits. *)
Definition is_infraction_pattern (s : string) : bool :=
  (String.length s =? 16)%nat
  && all_digits (substring 0 4 s)
  && String.eqb (substring 4 1 s) "-"
  && all_digits (substring 5 2 s)
  && String.eqb (substring 7 1 s) "-"
  && all_digits (substring 8 2 s)
  && String.eqb (substring 10 1 s) " "
  && all_digits (substring 11 2 s)
  && String.eqb (substring 13 1 s) ":"
  && all_digits (substring 14 2 s).


(** Checks of the two renderings of a number, run over the ranges of the
    fields. *)
Definition two_digit_text (n : Z) : bool :=
  match Strftime.zfill 2 (str_int n) with
  | String a (String b EmptyString) => Re.is_digit a && Re.is_digit b
  | _ => false
  end.

Definition four_digit_text (padded : bool) (n : Z) : bool :=
  match (if padded then Strftime.zfill 4 (str_int n) else str_int n) with
  | String a (String b (String c (String d EmptyString))) =>
      Re.is_digit a && Re.is_digit b && Re.is_digit c && Re.is_digit d
  | _ => false
  end.

Definition upto (n : Z) : list Z := map Z.of_nat (seq 0 (Z.to_nat n)).

(** The units that the loop of [humanize_delta] reaches when the counter
    does not end it: those down to and including the one named [precision],
    all of them when none is. *)
Fixpoint visited (precision : string) (units : list (string * Z))
    : list (string * Z) :=
  match units with
  | [] => []
  | (unit, value) :: rest =>
      (unit, value)
      :: (if String.eqb unit precision then [] else visited precision rest)
  end.

(** Equality of two dates, for the checks of the calendar. *)
Definition date_eqb (a b : Z * Z * Z) : bool :=
  let '(y, m, d) := a in
  let '(y', m', d') := b in
  (y =? y') && (m =? m') && (d =? d').

(** Vocabulary of the statements about [time_since]. *)

(** [dt] moved by [n] months: the month [n] months after that of [dt], the
    day cut to the length of that month, the time of day kept. *)
Definition shift_months (dt : Datetime.datetime) (n : Z) : Datetime.datetime :=
  let t := Datetime.year dt * 12 + (Datetime.month dt - 1) + n in
  {| Datetime.year := t / 12;
     Datetime.month := t mod 12 + 1;
     Datetime.day :=
       Z.min (Datetime._days_in_month (t / 12) (t mod 12 + 1)) (Datetime.day dt);
     Datetime.hour := Datetime.hour dt;
     Datetime.minute := Datetime.minute dt;
     Datetime.second := Datetime.second dt;
     Datetime.microsecond := Datetime.microsecond dt;
     Datetime.tz := Datetime.tz dt |}.

(** The object before any field is set. *)
Definition no_delta : Relativedelta.relativedelta :=
  {| Relativedelta.years := 0; Relativedelta.months := 0;
     Relativedelta.days := 0; Relativedelta.leapdays := 0;
     Relativedelta.hours := 0; Relativedelta.minutes := 0;
     Relativedelta.seconds := 0; Relativedelta.microseconds := 0 |}.

(** The tuple of fields that two naive datetimes are compared by. *)
Definition fields_of (dt : Datetime.datetime) : list Z :=
  [Datetime.year dt; Datetime.month dt; Datetime.day dt; Datetime.hour dt;
   Datetime.minute dt; Datetime.second dt; Datetime.microsecond dt].

(** The number of months that [relativedelta(dt1, dt2)] holds for two naive
    datetimes: the months from the month of [dt2] to the month of [dt1],
    less one (towards zero) when [dt2] moved by them lies beyond [dt1]. *)
Definition months_between (dt1 dt2 : Datetime.datetime) : Z :=
  let months := (Datetime.year dt1 - Datetime.year dt2) * 12
                + (Datetime.month dt1 - Datetime.month dt2) in
  let c := Relativedelta._cmp (fields_of dt1)
             (fields_of (shift_months dt2 months)) in
  if Relativedelta._cmp (fields_of dt1) (fields_of dt2) <? 0
  then if 0 <? c then months + 1 else months
  else if c <? 0 then months - 1 else months.

(** A span of [s] seconds as whole days, hours, minutes and seconds. *)
Definition span_of (s : Z) : relativedelta :=
  {| years := 0; months := 0; days := s / 86400; hours := s / 3600 mod 24;
     minutes := s / 60 mod 60; seconds := s mod 60 |}.

(** A span of [k] whole months and [s] seconds as years, months, days,
    hours, minutes and seconds. *)
Definition calendar_span (k s : Z) : relativedelta :=
  {| years := k / 12; months := k mod 12; days := s / 86400;
     hours := s / 3600 mod 24; minutes := s / 60 mod 60; seconds := s mod 60 |}.

(** Checks of the texts that [strftime] writes, run over the ranges of the
    fields: [int] reads the number back, and the time of day is parsed
    back. *)
Definition year_text_value (n : Z) : bool :=
  match int_bytes (Strftime.zfill 4 (str_int n)) with
  | Ok v => v =? n
  | Raise _ => false
  end.

Definition two_digit_value (n : Z) : bool :=
  match int_bytes (Strftime.zfill 2 (str_int n)) with
  | Ok v => v =? n
  | Raise _ => false
  end.

Definition time_text (hour minute : Z) : string :=
  Strftime.zfill 2 (str_int hour) +:+ ":" +:+ Strftime.zfill 2 (str_int minute).

Definition time_text_parsed (hour minute : Z) : bool :=
  (String.length (time_text hour minute) =? 5)%nat
  && forallb (fun c => (N_of_ascii c <? 128)%N)
       (list_ascii_of_string (time_text hour minute))
  && match Isoparser._parse_isotime (time_text hour minute) with
     | Ok ([h; m; 0; 0], None) => (h =? hour) && (m =? minute)
     | _ => false
     end.


(** Some character of [s] is outside ASCII. *)
Definition has_non_ascii (s : string) : bool :=
  existsb (fun c => (128 <=? N_of_ascii c)%N) (list_ascii_of_string s).

(* ===================================================================== *)
(** * Properties *)
(* ===================================================================== *)

Example humanize_delta_ex :
  humanize_delta {| years := 0; months := 0; days := 1; hours := 2;
                    minutes := 0; seconds := 5 |} "seconds" 6
  = "1 day, 2 hours and 5 seconds".
Proof. vm_compute. reflexivity. Qed.

(** ** The loop of [humanize_delta] *)

Section Loop.

Variables (precision : string) (max_units : Z).

Lemma stops_cons unit_count uv rest i :
  stops precision max_units unit_count (uv :: rest) (S i)
  = stops precision max_units
      (unit_count + (if nonzero uv then 1 else 0)) rest i.
Proof.
  unfold stops. cbn [lookup list_lookup]. destruct (rest !! i) as [[u v]|] eqn:E.
  - change (take (S (S i)) (uv :: rest)) with (uv :: take (S i) rest).
    cbn [List.filter]. destruct (nonzero uv); cbn [length];
      do 2 f_equal; lia.
  - reflexivity.
Qed.

(** The loop visits a prefix of [units], appends the rendering of each
    visited unit whose value is not zero, and the prefix ends at the first
    unit at which the [break] test holds. *)
Lemma units_loop_spec units time_strings unit_count :
  exists n : nat,
    (n <= length units)%nat /\
    (units <> [] -> (1 <= n)%nat) /\
    units_loop precision max_units units time_strings unit_count
    = (time_strings ++ map stringify (List.filter nonzero (take n units)),
       unit_count + Z.of_nat (length (List.filter nonzero (take n units)))) /\
    (forall i, (S i < n)%nat ->
       stops precision max_units unit_count units i = false) /\
    ((n < length units)%nat ->
       stops precision max_units unit_count units (n - 1) = true).
Proof.
  revert time_strings unit_count.
  induction units as [|[u v] rest IH]; intros ts c.
  - exists 0%nat. cbn. rewrite app_nil_r, Z.add_0_r.
    repeat split; try lia; try congruence.
  - cbn [units_loop].
    set (st := if v =? 0 then (ts, c)
               else (ts ++ [_stringify_time_unit v u], c + 1)).
    assert (Hst : st = (ts ++ map stringify (List.filter nonzero [(u, v)]),
                        c + Z.of_nat (length (List.filter nonzero [(u, v)])))).
    { subst st. cbn. unfold nonzero. cbn [snd].
      destruct (v =? 0); cbn; [rewrite app_nil_r, Z.add_0_r|]; reflexivity. }
    destruct st as [ts1 c1]. injection Hst as Hts Hc.
    destruct (String.eqb u precision || (max_units <=? c1)) eqn:Hbrk.
    + exists 1%nat. cbn [take length]. subst ts1 c1.
      repeat split; try lia.
      intros _. unfold stops. cbn [lookup list_lookup Nat.sub firstn List.filter].
      exact Hbrk.
    + destruct (IH ts1 c1) as (n & Hn & Hpos & Heq & Hbefore & Hat).
      exists (S n). cbn [length].
      assert (Hc1 : c1 = c + (if nonzero (u, v) then 1 else 0)).
      { subst c1. cbn. destruct (nonzero (u, v)); reflexivity. }
      repeat split; try lia.
      * rewrite Heq. change (take (S n) ((u, v) :: rest))
          with ((u, v) :: take n rest).
        subst ts1 c1. cbn [List.filter].
        destruct (nonzero (u, v)); cbn [map length app];
          rewrite <- ?app_assoc, ?app_nil_r; cbn [app]; f_equal; lia.
      * intros [|i] Hi.
        -- unfold stops. cbn [lookup list_lookup firstn List.filter].
           rewrite firstn_O. cbn [List.filter]. rewrite <- Hc. exact Hbrk.
        -- rewrite stops_cons, <- Hc1. apply Hbefore. lia.
      * intros Hlt. assert (Hn' : (n < length rest)%nat) by lia.
        assert (1 <= n)%nat.
        { apply Hpos. intros ->. cbn in Hn'. lia. }
        destruct n as [|k]; [lia|].
        replace (S (S k) - 1)%nat with (S k) by lia.
        rewrite stops_cons, <- Hc1.
        specialize (Hat Hn'). replace (S k - 1)%nat with k in Hat by lia.
        exact Hat.
Qed.

End Loop.

Lemma emitted_spec delta precision max_units :
  exists n : nat,
    (1 <= n <= 6)%nat /\
    emitted delta precision max_units
    = map stringify (List.filter nonzero (take n (units_of delta))) /\
    (forall i, (S i < n)%nat ->
       stops precision max_units 0 (units_of delta) i = false) /\
    ((n < 6)%nat ->
       stops precision max_units 0 (units_of delta) (n - 1) = true).
Proof.
  destruct (units_loop_spec precision max_units (units_of delta) [] 0)
    as (n & Hn & Hpos & Heq & Hbefore & Hat).
  exists n. unfold emitted. rewrite Heq. cbn [fst app].
  change (length (units_of delta)) with 6%nat in *.
  repeat split; auto; apply Hpos; discriminate.
Qed.

(** C1. [humanize_delta] walks the six units in the order years, months,
    days, hours, minutes, seconds; the strings it collects are the renderings
    [_stringify_time_unit value unit] of the visited units whose value is not
    zero, in that order; and the visited units are those up to and including
    the first one that equals [precision] or at which the number of collected
    strings has reached [max_units].  A delta of 1 day, 2 hours, 0 minutes and
    5 seconds renders as "1 day, 2 hours and 5 seconds". *)
Theorem humanize_delta_iteration :
  forall (delta : relativedelta) (precision : string) (max_units : Z),
    map fst (units_of delta) = unit_names /\
    map snd (units_of delta)
    = [years delta; months delta; days delta;
       hours delta; minutes delta; seconds delta] /\
    (exists n : nat,
       (1 <= n <= 6)%nat /\
       emitted delta precision max_units
       = map stringify (List.filter nonzero (take n (units_of delta))) /\
       (forall i, (S i < n)%nat ->
          stops precision max_units 0 (units_of delta) i = false) /\
       ((n < 6)%nat ->
          stops precision max_units 0 (units_of delta) (n - 1) = true)) /\
    humanize_delta {| years := 0; months := 0; days := 1; hours := 2;
                      minutes := 0; seconds := 5 |} "seconds" 6
    = "1 day, 2 hours and 5 seconds".
Proof.
  intros delta precision max_units.
  split; [reflexivity|]. split; [reflexivity|].
  split; [apply emitted_spec|]. vm_compute. reflexivity.
Qed.

(** ** String helpers *)

#[local] Arguments String.append !s1 s2 : simpl nomatch.

Lemma string_app_nil_r (s : string) : s +:+ "" = s.
Proof. induction s as [|c s IH]; cbn; [|rewrite IH]; reflexivity. Qed.

Lemma string_length_app (s t : string) :
  String.length (s +:+ t) = (String.length s + String.length t)%nat.
Proof. induction s as [|c s IH]; cbn; [|rewrite IH]; reflexivity. Qed.

Lemma substring_app_length (s t : string) :
  substring 0 (String.length s) (s +:+ t) = s.
Proof.
  induction s as [|c s IH]; cbn.
  - destruct t; reflexivity.
  - rewrite IH. reflexivity.
Qed.

(** [unit[:-1]] removes the last character of [unit]. *)
Lemma slice_to_drop_last (stem : string) (c : ascii) :
  slice_to (stem +:+ String c "") (-1) = stem.
Proof.
  unfold slice_to. rewrite string_length_app. cbn [String.length].
  change (-1 <? 0) with true. cbv iota.
  replace (Z.to_nat (Z.max 0 (-1 + Z.of_nat (String.length stem + 1))))
    with (String.length stem) by lia.
  apply substring_app_length.
Qed.

Lemma count_char_app (c : ascii) (s t : string) :
  count_char c (s +:+ t) = (count_char c s + count_char c t)%nat.
Proof. induction s as [|a s IH]; cbn; [|rewrite IH]; lia. Qed.

Lemma count_space_uint (d : Decimal.uint) :
  count_char " " (NilEmpty.string_of_uint d) = 0%nat.
Proof. induction d; cbn; auto. Qed.

Lemma count_space_str_int (value : Z) : count_char " " (str_int value) = 0%nat.
Proof.
  unfold str_int, NilZero.string_of_int, NilZero.string_of_uint.
  destruct (Z.to_int value) as [d|d]; destruct d; cbn;
    auto using count_space_uint.
Qed.

Lemma str_int_head (value : Z) :
  exists c rest, str_int value = String c rest /\ digit_or_sign c = true.
Proof.
  unfold str_int, NilZero.string_of_int, NilZero.string_of_uint.
  destruct (Z.to_int value) as [d|d]; destruct d; cbn; eauto.
Qed.

Lemma contains_and_spaces (s : string) :
  contains " and " s = true -> (2 <= count_char " " s)%nat.
Proof.
  induction s as [|c s IH]; cbn [contains]; [discriminate|].
  intros H. apply orb_true_iff in H as [H|H].
  - destruct s as [|c2 [|c3 [|c4 [|c5 r]]]]; cbn [String.prefix] in H;
      repeat (destruct (ascii_dec _ _) in H; try discriminate);
      subst; cbn; lia.
  - specialize (IH H). cbn [count_char]. lia.
Qed.

(** ** _stringify_time_unit *)

(** C5. [_stringify_time_unit value unit] is the value followed by the unit
    name without its last character when the value is 1, "less than a "
    followed by the unit name without its last character when the value is 0,
    and the value followed by the unit name as it is otherwise; removing the
    last character of a name [stem ++ suffix] with a one-character suffix
    leaves [stem].  The three documented examples hold. *)
Theorem stringify_time_unit_forms :
  forall (value : Z) (unit : string),
    (value = 1 ->
     _stringify_time_unit value unit = "1 " +:+ slice_to unit (-1)) /\
    (value = 0 ->
     _stringify_time_unit value unit = "less than a " +:+ slice_to unit (-1)) /\
    (value <> 1 -> value <> 0 ->
     _stringify_time_unit value unit = str_int value +:+ " " +:+ unit) /\
    (forall stem suffix, unit = stem +:+ String suffix "" ->
       slice_to unit (-1) = stem) /\
    _stringify_time_unit 1 "seconds" = "1 second" /\
    _stringify_time_unit 24 "hours" = "24 hours" /\
    _stringify_time_unit 0 "minutes" = "less than a minute".
Proof.
  intros value unit. unfold _stringify_time_unit at 1 2 3.
  repeat split.
  - intros ->. reflexivity.
  - intros ->. reflexivity.
  - intros H1 H0.
    destruct (Z.eqb_spec value 1); [contradiction|].
    destruct (Z.eqb_spec value 0); [contradiction|]. reflexivity.
  - intros stem suffix ->. apply slice_to_drop_last.
Qed.

Lemma stringify_time_unit_forms_witness :
  _stringify_time_unit 1 "seconds" = "1 " +:+ slice_to "seconds" (-1)
  /\ _stringify_time_unit 0 "minutes" = "less than a " +:+ slice_to "minutes" (-1)
  /\ _stringify_time_unit 24 "hours" = str_int 24 +:+ " " +:+ "hours"
  /\ slice_to "hours" (-1) = "hour".
Proof.
  split; [|split; [|split]].
  - apply (proj1 (stringify_time_unit_forms 1 "seconds")). reflexivity.
  - apply (proj1 (proj2 (stringify_time_unit_forms 0 "minutes"))). reflexivity.
  - apply (proj1 (proj2 (proj2 (stringify_time_unit_forms 24 "hours"))));
      lia.
  - apply (proj1 (proj2 (proj2 (proj2 (stringify_time_unit_forms 0 "hours"))))
             "hour" "s"%char).
    reflexivity.
Defined.

(** ** Joining the collected strings *)

Lemma add_and_nil : add_and [] = [].
Proof. reflexivity. Qed.

Lemma add_and_single (a : string) : add_and [a] = [a].
Proof. reflexivity. Qed.

Lemma add_and_snoc2 (init : list string) (a b : string) :
  add_and (init ++ [a; b]) = init ++ [a +:+ " and " +:+ b].
Proof.
  unfold add_and. rewrite length_app. cbn [length].
  replace (length init + 2 - 2)%nat with (length init) by lia.
  replace (length init + 2 - 1)%nat with (length init + 1)%nat by lia.
  destruct (Nat.ltb_spec 1 (length init + 2)); [|lia].
  rewrite list_lookup_middle by reflexivity.
  rewrite lookup_app_r by lia.
  replace (length init + 1 - length init)%nat with 1%nat by lia.
  cbn [lookup list_lookup].
  rewrite insert_app_r_alt by lia.
  replace (length init + 1 - length init)%nat with 1%nat by lia.
  cbn [insert list_insert]. apply delete_middle.
Qed.

Lemma snoc2_of_length {A : Type} (l : list A) :
  (2 <= length l)%nat -> exists init a b, l = init ++ [a; b].
Proof.
  intros Hlen.
  destruct (rev l) as [|b [|a r]] eqn:E.
  - apply (f_equal (@length A)) in E. rewrite length_rev in E. cbn in E. lia.
  - apply (f_equal (@length A)) in E. rewrite length_rev in E. cbn in E. lia.
  - exists (rev r), a, b. rewrite <- (rev_involutive l), E. cbn [rev].
    rewrite <- app_assoc. reflexivity.
Qed.

(** Every collected string renders one of the six units, at a value that is
    not zero. *)
Lemma emitted_elem delta precision max_units (a : string) :
  In a (emitted delta precision max_units) ->
  exists uv, In uv (units_of delta) /\ nonzero uv = true /\ a = stringify uv.
Proof.
  destruct (emitted_spec delta precision max_units) as (n & _ & -> & _).
  intros Ha. apply in_map_iff in Ha as (uv & <- & Hin).
  apply filter_In in Hin as [Hin Hnz].
  exists uv. repeat split; auto.
  apply list_elem_of_In. apply (subseteq_take n). apply list_elem_of_In, Hin.
Qed.

Lemma stringify_one_space delta uv :
  In uv (units_of delta) -> nonzero uv = true ->
  count_char " " (stringify uv) = 1%nat.
Proof.
  intros Hin Hnz. unfold stringify, _stringify_time_unit.
  unfold nonzero in Hnz. destruct (snd uv =? 0); [discriminate|].
  cbn in Hin.
  destruct (snd uv =? 1);
    rewrite !count_char_app, count_space_str_int;
    repeat (destruct Hin as [<-|Hin]; [reflexivity|]); destruct Hin.
Qed.

(** The counter bounds the number of collected strings. *)
Lemma units_loop_length precision max_units units time_strings unit_count :
  unit_count = Z.of_nat (length time_strings) ->
  (length (fst (units_loop precision max_units units time_strings unit_count))
   <= Nat.max (length time_strings + 1) (Z.to_nat max_units))%nat
  /\ (unit_count < max_units ->
      (length (fst (units_loop precision max_units units time_strings unit_count))
       <= Z.to_nat max_units)%nat).
Proof.
  revert time_strings unit_count.
  induction units as [|[u v] rest IH]; intros ts c Hc; cbn [units_loop].
  - cbn [fst]. lia.
  - destruct (v =? 0).
    + destruct (String.eqb u precision || (max_units <=? c)) eqn:Hbrk.
      * cbn [fst]. lia.
      * apply orb_false_iff in Hbrk as [_ Hm]. apply Z.leb_gt in Hm.
        destruct (IH ts c Hc) as [_ IH2]. specialize (IH2 Hm). lia.
    + assert (Hc' : c + 1 = Z.of_nat (length (ts ++ [_stringify_time_unit v u]))).
      { rewrite length_app. cbn [length]. lia. }
      destruct (String.eqb u precision || (max_units <=? c + 1)) eqn:Hbrk.
      * cbn [fst]. rewrite length_app. cbn [length]. lia.
      * apply orb_false_iff in Hbrk as [_ Hm]. apply Z.leb_gt in Hm.
        destruct (IH _ _ Hc') as [_ IH2]. specialize (IH2 Hm). lia.
Qed.

(** C2. When the loop has collected two or more strings, the last two are
    replaced by the single entry "<first> and <second>", so the list is one
    shorter, and the result joins that list with ", "; when it has collected
    exactly one string, the result is that string and has no " and " in it.
    With [max_units = 1] at most one string is collected. *)
Theorem humanize_delta_join :
  forall (delta : relativedelta) (precision : string) (max_units : Z),
    let time_strings := emitted delta precision max_units in
    ((2 <= length time_strings)%nat ->
     exists init a b, time_strings = init ++ [a; b]) /\
    (forall init a b, time_strings = init ++ [a; b] ->
       add_and time_strings = init ++ [a +:+ " and " +:+ b] /\
       S (length (add_and time_strings)) = length time_strings /\
       humanize_delta delta precision max_units
       = join ", " (init ++ [a +:+ " and " +:+ b])) /\
    (forall a, time_strings = [a] ->
       humanize_delta delta precision max_units = a /\
       contains " and " a = false) /\
    (max_units = 1 -> (length time_strings <= 1)%nat).
Proof.
  intros delta precision max_units time_strings. repeat split.
  - apply snoc2_of_length.
  - rewrite H. apply add_and_snoc2.
  - rewrite H, add_and_snoc2, !length_app. cbn [length]. lia.
  - unfold humanize_delta. fold time_strings. rewrite H, add_and_snoc2.
    destruct (init ++ [a +:+ " and " +:+ b]) eqn:E'; [|reflexivity].
    apply (f_equal (@length string)) in E'. rewrite length_app in E'.
    cbn in E'. lia.
  - unfold humanize_delta. fold time_strings. rewrite H. reflexivity.
  - destruct (contains " and " a) eqn:Hc; [|reflexivity].
    apply contains_and_spaces in Hc.
    assert (Hin : In a (emitted delta precision max_units)).
    { fold time_strings. rewrite H. left. reflexivity. }
    apply emitted_elem in Hin as (uv & Hin & Hnz & ->).
    rewrite (stringify_one_space delta uv Hin Hnz) in Hc. lia.
  - intros ->. subst time_strings. unfold emitted.
    destruct (units_loop_length precision 1 (units_of delta) [] 0 eq_refl)
      as [_ H]. apply H. lia.
Qed.

Lemma humanize_delta_join_witness :
  humanize_delta {| years := 0; months := 0; days := 1; hours := 2;
                    minutes := 0; seconds := 5 |} "seconds" 6
  = join ", " (["1 day"] ++ ["2 hours" +:+ " and " +:+ "5 seconds"])
  /\ humanize_delta {| years := 0; months := 0; days := 1; hours := 2;
                       minutes := 0; seconds := 5 |} "seconds" 1
     = "1 day".
Proof.
  split.
  - apply (proj1 (proj2 (humanize_delta_join
                           {| years := 0; months := 0; days := 1; hours := 2;
                              minutes := 0; seconds := 5 |} "seconds" 6))
             ["1 day"] "2 hours" "5 seconds").
    reflexivity.
  - apply (proj1 (proj2 (proj2 (humanize_delta_join
                           {| years := 0; months := 0; days := 1; hours := 2;
                              minutes := 0; seconds := 5 |} "seconds" 1)))
             "1 day").
    reflexivity.
Defined.

(** ** The fallback *)

Lemma filter_nonzero_nil (l : list (string * Z)) :
  (forall uv, In uv l -> snd uv = 0) -> List.filter nonzero l = [].
Proof.
  induction l as [|uv l IH]; intros H; [reflexivity|].
  cbn [List.filter]. unfold nonzero at 1.
  rewrite (H uv) by (left; reflexivity). cbn.
  apply IH. intros x Hx. apply H. right. exact Hx.
Qed.

Lemma units_of_lookup delta (k : nat) (name : string) :
  unit_names !! k = Some name ->
  exists value, units_of delta !! k = Some (name, value).
Proof.
  intros H.
  do 6 (destruct k as [|k]; [injection H as <-; eexists; reflexivity|]).
  discriminate.
Qed.

Lemma stops_at_precision precision max_units unit_count units k value :
  units !! k = Some (precision, value) ->
  stops precision max_units unit_count units k = true.
Proof.
  intros H. unfold stops. rewrite H, String.eqb_refl. reflexivity.
Qed.

Lemma emitted_nil_fallback delta precision max_units :
  emitted delta precision max_units = [] ->
  humanize_delta delta precision max_units = _stringify_time_unit 0 precision.
Proof. intros H. unfold humanize_delta. rewrite H. reflexivity. Qed.

(** C4. When the six components are all zero, and whenever [precision] is
    one of the units and every component down to and including it is zero,
    [humanize_delta] returns [_stringify_time_unit 0 precision]; the all-zero
    delta at precision "minutes" gives "less than a minute". *)
Theorem humanize_delta_fallback :
  forall (delta : relativedelta) (precision : string) (max_units : Z),
    ((forall uv, In uv (units_of delta) -> snd uv = 0) ->
     humanize_delta delta precision max_units
     = _stringify_time_unit 0 precision) /\
    (forall k : nat,
       unit_names !! k = Some precision ->
       (forall uv, In uv (take (S k) (units_of delta)) -> snd uv = 0) ->
       humanize_delta delta precision max_units
       = _stringify_time_unit 0 precision) /\
    humanize_delta {| years := 0; months := 0; days := 0; hours := 0;
                      minutes := 0; seconds := 0 |} "minutes" 6
    = "less than a minute".
Proof.
  intros delta precision max_units.
  destruct (emitted_spec delta precision max_units)
    as (n & Hn & Hem & Hbefore & Hat).
  split; [|split; [|reflexivity]].
  - intros Hzero. apply emitted_nil_fallback. rewrite Hem.
    rewrite filter_nonzero_nil; [reflexivity|].
    intros uv Huv. apply Hzero.
    apply list_elem_of_In, (subseteq_take n), list_elem_of_In, Huv.
  - intros k Hk Hzero. apply emitted_nil_fallback. rewrite Hem.
    destruct (units_of_lookup delta k precision Hk) as [value Hlook].
    assert (Hle : (n <= S k)%nat).
    { destruct (Nat.le_gt_cases n (S k)) as [|Hgt]; [assumption|].
      specialize (Hbefore k Hgt).
      rewrite (stops_at_precision _ _ _ _ _ _ Hlook) in Hbefore.
      discriminate. }
    rewrite filter_nonzero_nil; [reflexivity|].
    intros uv Huv. apply Hzero.
    replace n with (Nat.min n (S k)) in Huv by lia.
    rewrite <- take_take in Huv.
    apply list_elem_of_In, (subseteq_take n), list_elem_of_In, Huv.
Qed.

Lemma humanize_delta_fallback_witness :
  humanize_delta {| years := 0; months := 0; days := 0; hours := 0;
                    minutes := 0; seconds := 0 |} "weeks" 6
  = _stringify_time_unit 0 "weeks"
  /\ humanize_delta {| years := 0; months := 0; days := 0; hours := 0;
                       minutes := 7; seconds := 9 |} "hours" 6
     = _stringify_time_unit 0 "hours".
Proof.
  split.
  - apply (proj1 (humanize_delta_fallback
                    {| years := 0; months := 0; days := 0; hours := 0;
                       minutes := 0; seconds := 0 |} "weeks" 6)).
    intros uv Huv. cbn in Huv.
    repeat (destruct Huv as [<-|Huv]; [reflexivity|]). destruct Huv.
  - apply (proj1 (proj2 (humanize_delta_fallback
                    {| years := 0; months := 0; days := 0; hours := 0;
                       minutes := 7; seconds := 9 |} "hours" 6)) 3%nat).
    + reflexivity.
    + intros uv Huv. cbn in Huv.
      repeat (destruct Huv as [<-|Huv]; [reflexivity|]). destruct Huv.
Defined.

(** ** A precision that names no unit *)





(** ** A non-positive [max_units] *)

Lemma emitted_nonpositive delta precision max_units :
  max_units <= 0 ->
  emitted delta precision max_units
  = if years delta =? 0 then []
    else [_stringify_time_unit (years delta) "years"].
Proof.
  intros Hm. unfold emitted, units_of. cbn [units_loop].
  destruct (years delta =? 0).
  - destruct (Z.leb_spec max_units 0); [|lia]. rewrite orb_true_r. reflexivity.
  - destruct (Z.leb_spec max_units (0 + 1)); [|lia]. rewrite orb_true_r.
    reflexivity.
Qed.

Lemma stringify_nonzero_head (value : Z) (unit : string) :
  value <> 0 ->
  exists c rest,
    _stringify_time_unit value unit = String c rest /\ digit_or_sign c = true.
Proof.
  intros Hv. unfold _stringify_time_unit.
  destruct (Z.eqb_spec value 0); [contradiction|].
  destruct (str_int_head value) as (c & rest & E & Hc).
  destruct (value =? 1); rewrite E; cbn; eauto.
Qed.

(** C10. With [max_units <= 0] the loop still processes the first unit
    before the counter test ends it: when the years component is not zero the
    result is exactly [_stringify_time_unit years "years"], which differs from
    the fallback, and the fallback [_stringify_time_unit 0 precision] is
    returned when the years component is zero. *)
Theorem humanize_delta_nonpositive_max_units :
  forall (delta : relativedelta) (precision : string) (max_units : Z),
    max_units <= 0 ->
    (years delta <> 0 ->
     emitted delta precision max_units
     = [_stringify_time_unit (years delta) "years"] /\
     humanize_delta delta precision max_units
     = _stringify_time_unit (years delta) "years" /\
     humanize_delta delta precision max_units
     <> _stringify_time_unit 0 precision) /\
    (years delta = 0 ->
     emitted delta precision max_units = [] /\
     humanize_delta delta precision max_units
     = _stringify_time_unit 0 precision).
Proof.
  intros delta precision max_units Hm.
  pose proof (emitted_nonpositive delta precision max_units Hm) as Hem.
  split.
  - intros Hy. destruct (Z.eqb_spec (years delta) 0); [contradiction|].
    assert (Hres : humanize_delta delta precision max_units
                   = _stringify_time_unit (years delta) "years").
    { unfold humanize_delta. rewrite Hem. reflexivity. }
    repeat split; [assumption|assumption|].
    rewrite Hres. intros Heq.
    destruct (stringify_nonzero_head (years delta) "years" Hy)
      as (c & rest & E & Hc).
    rewrite E in Heq. unfold _stringify_time_unit in Heq. cbn in Heq.
    injection Heq as -> _. discriminate.
  - intros Hy. rewrite Hy in Hem. cbn in Hem. split; [assumption|].
    apply emitted_nil_fallback. assumption.
Qed.

Lemma humanize_delta_nonpositive_max_units_witness :
  humanize_delta {| years := 2; months := 3; days := 0; hours := 0;
                    minutes := 0; seconds := 0 |} "seconds" 0
  = _stringify_time_unit 2 "years"
  /\ humanize_delta {| years := 0; months := 3; days := 0; hours := 0;
                       minutes := 0; seconds := 0 |} "seconds" 0
     = _stringify_time_unit 0 "seconds".
Proof.
  split.
  - apply (proj1 (humanize_delta_nonpositive_max_units
                    {| years := 2; months := 3; days := 0; hours := 0;
                       minutes := 0; seconds := 0 |} "seconds" 0 ltac:(lia)));
      cbn; lia.
  - apply (proj2 (humanize_delta_nonpositive_max_units
                    {| years := 0; months := 3; days := 0; hours := 0;
                       minutes := 0; seconds := 0 |} "seconds" 0 ltac:(lia)));
      reflexivity.
Defined.

(** ** wait_until *)

Lemma timedelta_new_total (d s us : Z) (delta : Datetime.timedelta) :
  Datetime.timedelta_new d s us = Ok delta ->
  (Datetime.days delta * 86400 + Datetime.seconds delta) * 10 ^ 6
  + Datetime.microseconds delta
  = (d * 86400 + s) * 10 ^ 6 + us.
Proof.
  unfold Datetime.timedelta_new.
  destruct (999999999 <? _) eqn:E; [discriminate|].
  intros [= <-]. cbn [Datetime.days Datetime.seconds Datetime.microseconds].
  change (10 ^ 6) with 1000000.
  Z.div_mod_to_equations. lia.
Qed.

Lemma timedelta_new_ok (d s us : Z) :
  Z.abs d <= 10000000 -> Z.abs s <= 100000 -> Z.abs us <= 1000000 ->
  exists delta, Datetime.timedelta_new d s us = Ok delta.
Proof.
  intros Hd Hs Hus. unfold Datetime.timedelta_new.
  destruct (Z.ltb_spec 999999999
              (Z.abs (d + s / 86400 + us / 1000000 / 86400
                      + (s mod 86400 + us / 1000000 mod 86400
                         + us mod 1000000 / 1000000) / 86400))) as [H|H].
  - exfalso. revert H. Z.div_mod_to_equations. lia.
  - eauto.
Qed.

Lemma well_formed_fields (dt : Datetime.datetime) :
  well_formed dt = true ->
  (1 <= Datetime.year dt <= 9999) /\
  (1 <= Datetime.month dt <= 12) /\
  (1 <= Datetime.day dt <= 31) /\
  (0 <= Datetime.hour dt <= 23) /\
  (0 <= Datetime.minute dt <= 59) /\
  (0 <= Datetime.second dt <= 59) /\
  (0 <= Datetime.microsecond dt <= 999999).
Proof.
  unfold well_formed, Datetime.new, Datetime._check_date_fields,
    Datetime._check_time_fields, Datetime.MINYEAR, Datetime.MAXYEAR.
  intros H.
  destruct (Z.leb_spec 1 (Datetime.year dt));
    destruct (Z.leb_spec (Datetime.year dt) 9999);
    cbn in H; try discriminate.
  destruct (Z.leb_spec 1 (Datetime.month dt));
    destruct (Z.leb_spec (Datetime.month dt) 12);
    cbn in H; try discriminate.
  destruct (Z.leb_spec 1 (Datetime.day dt));
    destruct (Z.leb_spec (Datetime.day dt)
                (Datetime._days_in_month (Datetime.year dt) (Datetime.month dt)));
    cbn in H; try discriminate.
  destruct (Z.leb_spec 0 (Datetime.hour dt));
    destruct (Z.leb_spec (Datetime.hour dt) 23);
    cbn in H; try discriminate.
  destruct (Z.leb_spec 0 (Datetime.minute dt));
    destruct (Z.leb_spec (Datetime.minute dt) 59);
    cbn in H; try discriminate.
  destruct (Z.leb_spec 0 (Datetime.second dt));
    destruct (Z.leb_spec (Datetime.second dt) 59);
    cbn in H; try discriminate.
  destruct (Z.leb_spec 0 (Datetime.microsecond dt));
    destruct (Z.leb_spec (Datetime.microsecond dt) 999999);
    cbn in H; try discriminate.
  assert (Datetime._days_in_month (Datetime.year dt) (Datetime.month dt) <= 31).
  { unfold Datetime._days_in_month.
    destruct ((Datetime.month dt =? 2) && _); [lia|].
    assert (Hm : exists k : nat, (k <= 12)%nat /\ Datetime.month dt = Z.of_nat k).
    { exists (Z.to_nat (Datetime.month dt)). lia. }
    destruct Hm as (k & Hk & ->). rewrite Nat2Z.id.
    do 13 (destruct k as [|k]; [cbn; lia|]). lia. }
  lia.
Qed.

Lemma toordinal_bounds (dt : Datetime.datetime) :
  well_formed dt = true -> 0 <= Datetime.toordinal dt <= 5000000.
Proof.
  intros H. apply well_formed_fields in H as (Hy & Hm & Hd & _).
  unfold Datetime.toordinal, Datetime._ymd2ord, Datetime._days_before_year,
    Datetime._days_before_month.
  assert (0 <= nth (Z.to_nat (Datetime.month dt)) Datetime._DAYS_BEFORE_MONTH 0
          <= 334).
  { assert (Hk : exists k : nat, (1 <= k <= 12)%nat /\ Datetime.month dt = Z.of_nat k).
    { exists (Z.to_nat (Datetime.month dt)). lia. }
    destruct Hk as (k & Hk & ->). rewrite Nat2Z.id.
    destruct k as [|k]; [lia|].
    do 12 (destruct k as [|k]; [cbn; lia|]). lia. }
  destruct ((2 <? Datetime.month dt) && _);
    Z.div_mod_to_equations; lia.
Qed.

Lemma well_formed_naive (dt : Datetime.datetime) :
  well_formed dt = true -> well_formed (Asyncio.naive dt) = true.
Proof.
  unfold well_formed, Datetime.new, Asyncio.naive.
  cbn [Datetime.year Datetime.month Datetime.day Datetime.hour Datetime.minute
       Datetime.second Datetime.microsecond Datetime.tz].
  destruct (Datetime._check_date_fields _ _ _); [|intros; assumption].
  destruct (Datetime._check_time_fields _ _ _ _); intros; assumption.
Qed.

Lemma sub_naive (time now : Datetime.datetime) :
  Datetime.tz time = None -> Datetime.tz now = None ->
  well_formed time = true -> well_formed now = true ->
  exists delay,
    Datetime.sub time now = Ok delay /\
    Datetime.total_seconds delay
    = Qmake (microseconds_of time - microseconds_of now) 1000000.
Proof.
  intros Ht Hn Wt Wn.
  pose proof (toordinal_bounds _ Wt) as Bt.
  pose proof (toordinal_bounds _ Wn) as Bn.
  apply well_formed_fields in Wt as (_ & _ & _ & ? & ? & ? & ?).
  apply well_formed_fields in Wn as (_ & _ & _ & ? & ? & ? & ?).
  unfold Datetime.sub. rewrite Ht, Hn.
  destruct (timedelta_new_ok
              (Datetime.toordinal time - Datetime.toordinal now)
              (Datetime.second time + Datetime.minute time * 60
               + Datetime.hour time * 3600
               - (Datetime.second now + Datetime.minute now * 60
                  + Datetime.hour now * 3600))
              (Datetime.microsecond time - Datetime.microsecond now))
    as [delay Hdelay]; try lia.
  exists delay. rewrite Hdelay. split; [reflexivity|].
  unfold Datetime.total_seconds.
  rewrite (timedelta_new_total _ _ _ _ Hdelay).
  unfold microseconds_of. f_equal. change (10 ^ 6) with 1000000. lia.
Qed.

(** C6, amended. For a naive target, [wait_until] reads the clock once and
    computes the delay from that reading; when the delay exceeds one second it
    sleeps once, for the whole delay, and otherwise (also for a target in the
    past) it does not sleep; then it returns.  It never reads the clock a
    second time. *)
Theorem wait_until_naive :
  forall (time : Datetime.datetime) (clock : nat -> Datetime.datetime),
    Datetime.tz time = None ->
    well_formed time = true ->
    well_formed (clock 0%nat) = true ->
    waits_once time clock.
Proof.
  intros time clock Ht Wt Wn. unfold waits_once.
  destruct (sub_naive time (Asyncio.naive (clock 0%nat)) Ht eq_refl Wt
              (well_formed_naive _ Wn)) as (delay & Hsub & Htot).
  unfold wait_until. cbn [Asyncio.run]. rewrite Hsub, Htot.
  destruct (Datetime.Qgtb _ 1); reflexivity.
Qed.

(** C6, as stated, fails on a timezone-aware target, such as the timestamps
    that [parse_rfc1123] returns: subtracting the naive reading of the clock
    raises [TypeError]. *)
Lemma wait_until_aware_raises :
  let time := {| Datetime.year := 1994; Datetime.month := 11;
                 Datetime.day := 15; Datetime.hour := 8;
                 Datetime.minute := 12; Datetime.second := 31;
                 Datetime.microsecond := 0;
                 Datetime.tz := Some Datetime.timezone_utc |} in
  let now := {| Datetime.year := 1994; Datetime.month := 11;
                Datetime.day := 15; Datetime.hour := 8;
                Datetime.minute := 12; Datetime.second := 0;
                Datetime.microsecond := 0; Datetime.tz := None |} in
  well_formed time = true /\
  Asyncio.run (fun _ => now) 0 (wait_until time)
  = ([Asyncio.utcnow_called now], Raise TypeError) /\
  ~ waits_once time (fun _ => now).
Proof.
  cbv zeta. split; [reflexivity|]. split; [vm_compute; reflexivity|].
  unfold waits_once. intros H. vm_compute in H. discriminate.
Qed.

Lemma wait_until_naive_witness :
  let time := {| Datetime.year := 2021; Datetime.month := 3;
                 Datetime.day := 5; Datetime.hour := 14;
                 Datetime.minute := 30; Datetime.second := 5;
                 Datetime.microsecond := 0; Datetime.tz := None |} in
  let now := {| Datetime.year := 2021; Datetime.month := 3;
                Datetime.day := 5; Datetime.hour := 14;
                Datetime.minute := 30; Datetime.second := 0;
                Datetime.microsecond := 0; Datetime.tz := None |} in
  Asyncio.run (fun _ => now) 0 (wait_until time)
  = ([Asyncio.utcnow_called now; Asyncio.slept (Qmake 5000000 1000000)],
     Ok tt).
Proof.
  exact (wait_until_naive
           {| Datetime.year := 2021; Datetime.month := 3;
              Datetime.day := 5; Datetime.hour := 14;
              Datetime.minute := 30; Datetime.second := 5;
              Datetime.microsecond := 0; Datetime.tz := None |}
           (fun _ =>
              {| Datetime.year := 2021; Datetime.month := 3;
                 Datetime.day := 5; Datetime.hour := 14;
                 Datetime.minute := 30; Datetime.second := 0;
                 Datetime.microsecond := 0; Datetime.tz := None |})
           eq_refl eq_refl eq_refl).
Defined.

(** The documented examples: half a second ahead does not sleep. *)
Example wait_until_half_second :
  let time := {| Datetime.year := 2021; Datetime.month := 3;
                 Datetime.day := 5; Datetime.hour := 14;
                 Datetime.minute := 30; Datetime.second := 0;
                 Datetime.microsecond := 500000; Datetime.tz := None |} in
  let now := {| Datetime.year := 2021; Datetime.month := 3;
                Datetime.day := 5; Datetime.hour := 14;
                Datetime.minute := 30; Datetime.second := 0;
                Datetime.microsecond := 0; Datetime.tz := None |} in
  Asyncio.run (fun _ => now) 0 (wait_until time)
  = ([Asyncio.utcnow_called now], Ok tt).
Proof. vm_compute. reflexivity. Qed.

(** ** Patterns *)

Lemma string_app_assoc (a b c : string) : (a +:+ b) +:+ c = a +:+ (b +:+ c).
Proof. induction a as [|x a IH]; cbn; [|rewrite IH]; reflexivity. Qed.

Lemma match_plus_sound {R : Type} accepts (s : string)
    (k : string -> option R) (found : R) :
  Re.match_plus accepts s k = Some found ->
  exists w rest,
    s = w +:+ rest /\ Re.Matches (Re.Plus accepts) w /\ k rest = Some found.
Proof.
  induction s as [|c s IH]; cbn [Re.match_plus]; [discriminate|].
  destruct (accepts c) eqn:Hc; [|discriminate].
  destruct (Re.match_plus accepts s k) as [found'|] eqn:E.
  - intros [= ->]. destruct (IH eq_refl) as (w & rest & -> & Hw & Hk).
    exists (String c w), rest. repeat split; auto.
    apply Re.M_plus_more; assumption.
  - intros Hk. exists (String c ""), s. repeat split; auto.
    apply Re.M_plus_one; assumption.
Qed.

(** A successful match consumed a text of the pattern. *)
Lemma match_at_sound {R : Type} (r : Re.regex) :
  forall (s : string) (groups : Re.groupdict)
         (k : string -> Re.groupdict -> option R) (found : R),
    Re.match_at r s groups k = Some found ->
    exists w rest groups',
      s = w +:+ rest /\ Re.Matches r w /\ k rest groups' = Some found.
Proof.
  induction r as [|c|accepts|r1 IH1 r2 IH2|r1 IH1 r2 IH2|accepts|name r IH];
    intros s groups k found; cbn [Re.match_at].
  - intros H. exists "", s, groups. repeat split; auto. constructor.
  - destruct s as [|a s]; [discriminate|].
    destruct (Ascii.eqb_spec (Re.lower a) (Re.lower c)); [|discriminate].
    intros H. exists (String a ""), s, groups. repeat split; auto.
    constructor; assumption.
  - destruct s as [|a s]; [discriminate|].
    destruct (accepts a) eqn:Ha; [|discriminate].
    intros H. exists (String a ""), s, groups. repeat split; auto.
    constructor; assumption.
  - intros H. apply IH1 in H as (w1 & rest1 & g1 & -> & Hw1 & H).
    apply IH2 in H as (w2 & rest & g2 & -> & Hw2 & H).
    exists (w1 +:+ w2), rest, g2. rewrite string_app_assoc.
    repeat split; auto. constructor; assumption.
  - destruct (Re.match_at r1 s groups k) as [found'|] eqn:E.
    + intros [= ->]. apply IH1 in E as (w & rest & g & -> & Hw & H).
      exists w, rest, g. repeat split; auto. apply Re.M_alt_l; assumption.
    + intros H. apply IH2 in H as (w & rest & g & -> & Hw & H).
      exists w, rest, g. repeat split; auto. apply Re.M_alt_r; assumption.
  - intros H. apply match_plus_sound in H as (w & rest & -> & Hw & H).
    exists w, rest, groups. repeat split; auto.
  - intros H. apply IH in H as (w & rest & g & -> & Hw & H).
    eexists w, rest, _. repeat split; [|exact H]. constructor; assumption.
Qed.

Lemma match_sound (r : Re.regex) (s rest : string) (groups : Re.groupdict) :
  Re.match_ r s = Some (rest, groups) ->
  exists w, s = w +:+ rest /\ Re.Matches r w.
Proof.
  unfold Re.match_. intros H.
  apply match_at_sound in H as (w & rest' & g & -> & Hw & [= -> ->]).
  exists w. split; auto.
Qed.








(** ** parse_rfc1123 *)

Lemma pattern_rfc1123 : Strptime.pattern RFC1123_FORMAT = Ok rfc1123_regex.
Proof. reflexivity. Qed.



Lemma prefix_app (a b : string) : String.prefix a (a +:+ b) = true.
Proof.
  induction a as [|x a IH]; cbn.
  - destruct b; reflexivity.
  - destruct (ascii_dec x x); [exact IH|contradiction].
Qed.


Lemma int_digits_raises acc after_digit s e :
  int_digits acc after_digit s = Raise e -> e = ValueError.
Proof.
  revert acc after_digit. induction s as [|c s IH]; intros acc b; cbn.
  - destruct b; congruence.
  - destruct (is_ascii_digit c); [apply IH|].
    destruct (Ascii.eqb c "_" && b); [apply IH|congruence].
Qed.

Lemma int_base10_raises is_space s e :
  int_base10 is_space s = Raise e -> e = ValueError.
Proof.
  unfold int_base10.
  destruct (rstrip is_space (lstrip is_space s)) as [|c t];
    [apply int_digits_raises|].
  destruct c as [[|] [|] [|] [|] [|] [|] [|] [|]];
    try apply int_digits_raises.
  cbn [mbind result_bind].
  destruct (int_digits 0 false t) eqn:E; [discriminate|].
  intros [= <-]. eapply int_digits_raises, E.
Qed.

Lemma index_raises x items e : index x items = Raise e -> e = ValueError.
Proof.
  induction items as [|y items IH]; cbn; [congruence|].
  destruct (String.eqb y x); [discriminate|].
  destruct (index x items); cbn; [discriminate|].
  intros [= <-]. apply IH. reflexivity.
Qed.

Lemma check_date_fields_raises y m d e :
  Datetime._check_date_fields y m d = Raise e -> e = ValueError.
Proof.
  unfold Datetime._check_date_fields.
  repeat (destruct (negb _); [congruence|]). discriminate.
Qed.

Lemma check_time_fields_raises hh mm ss us e :
  Datetime._check_time_fields hh mm ss us = Raise e -> e = ValueError.
Proof.
  unfold Datetime._check_time_fields.
  repeat (destruct (negb _); [congruence|]). discriminate.
Qed.

Lemma datetime_new_raises y m d hh mm ss us tzinfo e :
  Datetime.new y m d hh mm ss us tzinfo = Raise e -> e = ValueError.
Proof.
  unfold Datetime.new.
  destruct (Datetime._check_date_fields y m d) eqn:E1; cbn.
  - destruct (Datetime._check_time_fields hh mm ss us) eqn:E2; cbn;
      [discriminate|].
    intros [= <-]. eapply check_time_fields_raises, E2.
  - intros [= <-]. eapply check_date_fields_raises, E1.
Qed.

Lemma datetime_new_tz y m d hh mm ss us tzinfo dt :
  Datetime.new y m d hh mm ss us tzinfo = Ok dt -> Datetime.tz dt = tzinfo.
Proof.
  unfold Datetime.new.
  destruct (Datetime._check_date_fields y m d); cbn; [|discriminate].
  destruct (Datetime._check_time_fields hh mm ss us); cbn; [|discriminate].
  intros [= <-]. reflexivity.
Qed.

Lemma assign_raises f group e :
  Strptime.assign f group = Raise e -> e = ValueError.
Proof.
  destruct group as [key text]. unfold Strptime.assign.
  destruct key as [[|] [|] [|] [|] [|] [|] [|] [|]]; try discriminate;
    match goal with
    | |- context [int_str text] =>
        destruct (int_str text) eqn:E; cbn; [discriminate|];
        intros [= <-]; eapply int_base10_raises, E
    | |- context [index ?x ?l] =>
        destruct (index x l) eqn:E; cbn; [discriminate|];
        intros [= <-]; eapply index_raises, E
    end.
Qed.

Lemma assign_all_raises found_dict f e :
  Strptime.assign_all f found_dict = Raise e -> e = ValueError.
Proof.
  revert f. induction found_dict as [|g found_dict IH]; intros f; cbn;
    [discriminate|].
  destruct (Strptime.assign f g) eqn:E; cbn.
  - apply IH.
  - intros [= <-]. eapply assign_raises, E.
Qed.

Lemma date_new_raises y m d e :
  Datetime.date_new y m d = Raise e -> e = ValueError.
Proof.
  unfold Datetime.date_new.
  destruct (Datetime._check_date_fields y m d) eqn:E; cbn; [discriminate|].
  intros [= <-]. eapply check_date_fields_raises, E.
Qed.

(** What a successful [_strptime] with the module's format says of the
    text, and the one exception it raises. *)
Lemma strptime_rfc1123_ok (s : string) fields6 :
  Strptime._strptime s RFC1123_FORMAT = Ok fields6 ->
  Re.Matches rfc1123_regex s.
Proof.
  unfold Strptime._strptime. rewrite pattern_rfc1123. cbn [mbind result_bind].
  destruct (Re.match_ rfc1123_regex s) as [[rest found_dict]|] eqn:E;
    [|discriminate].
  destruct (String.eqb_spec rest ""); [|discriminate]. subst rest.
  intros _. apply match_sound in E as (w & -> & Hw).
  rewrite string_app_nil_r. exact Hw.
Qed.

Lemma strptime_rfc1123_raises (s : string) e :
  Strptime._strptime s RFC1123_FORMAT = Raise e -> e = ValueError.
Proof.
  unfold Strptime._strptime. rewrite pattern_rfc1123. cbn [mbind result_bind].
  destruct (Re.match_ rfc1123_regex s) as [[rest found_dict]|];
    [|congruence].
  destruct (negb (String.eqb rest "")); [congruence|].
  destruct (Strptime.assign_all Strptime.defaults found_dict) as [f|e'] eqn:E;
    cbn [mbind result_bind];
    [|intros [= <-]; eapply assign_all_raises, E].
  destruct (match Strptime.year f with
            | Some y => (y, false)
            | None => if (Strptime.month f =? 2) && (Strptime.day f =? 29)
                      then (1904, true) else (1900, false)
            end) as [year_ fix_].
  destruct (Datetime.date_new year_ (Strptime.month f) (Strptime.day f))
    eqn:E1; cbn [mbind result_bind];
    [|intros [= <-]; eapply date_new_raises, E1].
  destruct (Datetime.date_new year_ 1 1) eqn:E2; cbn [mbind result_bind];
    [|intros [= <-]; eapply date_new_raises, E2].
  discriminate.
Qed.

Lemma parse_rfc1123_ok (s : string) (dt : Datetime.datetime) :
  parse_rfc1123 s = Ok dt ->
  Re.Matches rfc1123_regex s /\ Datetime.tz dt = Some Datetime.timezone_utc.
Proof.
  unfold parse_rfc1123, Strptime.strptime.
  destruct (Strptime._strptime s RFC1123_FORMAT)
    as [[[[[[y m] d] hh] mm] ss]|] eqn:E; [|discriminate].
  cbn [mbind result_bind].
  destruct (Datetime.new y m d hh mm ss 0 None) as [dt0|]; [|discriminate].
  cbn [mbind result_bind]. unfold Datetime.replace_tzinfo. intros H.
  split; [eapply strptime_rfc1123_ok, E|eapply datetime_new_tz, H].
Qed.

Lemma parse_rfc1123_raises (s : string) e :
  parse_rfc1123 s = Raise e -> e = ValueError.
Proof.
  unfold parse_rfc1123, Strptime.strptime.
  destruct (Strptime._strptime s RFC1123_FORMAT)
    as [[[[[[y m] d] hh] mm] ss]|e'] eqn:E;
    [|intros [= <-]; eapply strptime_rfc1123_raises, E].
  cbn [mbind result_bind].
  destruct (Datetime.new y m d hh mm ss 0 None) as [dt0|] eqn:E1;
    [|intros [= <-]; eapply datetime_new_raises, E1].
  cbn [mbind result_bind]. apply datetime_new_raises.
Qed.

(** ** Texts in the exact pattern *)

Lemma digit_cases (c : ascii) :
  Re.is_digit c = true ->
  In c ["0"; "1"; "2"; "3"; "4"; "5"; "6"; "7"; "8"; "9"]%char.
Proof.
  destruct c as [[|] [|] [|] [|] [|] [|] [|] [|]]; cbn; intros H;
    try discriminate; tauto.
Qed.

Lemma substring_prefix (w rest : string) :
  substring 0 (String.length (w +:+ rest) - String.length rest) (w +:+ rest)
  = w.
Proof.
  rewrite string_length_app.
  replace (String.length w + String.length rest - String.length rest)%nat
    with (String.length w) by lia.
  apply substring_app_length.
Qed.

Section Pieces.

Context {R : Type}.

Lemma consumes_group name r w rest groups
    (k : string -> Re.groupdict -> option R) found :
  consumes R r w ->
  k rest (groups ++ [(name, w)]) = Some found ->
  Re.match_at (Re.Group name r) (w +:+ rest) groups k = Some found.
Proof.
  intros Hc Hk. cbn [Re.match_at]. apply Hc.
  rewrite substring_prefix. exact Hk.
Qed.

Lemma match_chr c rest groups (k : string -> Re.groupdict -> option R) :
  Re.match_at (Re.Chr c) (String c rest) groups k = k rest groups.
Proof. cbn. rewrite Ascii.eqb_refl. reflexivity. Qed.

Lemma match_one_space c rest groups (k : string -> Re.groupdict -> option R) :
  Re.is_space c = false ->
  Re.match_at (Re.Plus Re.is_space) (String " " (String c rest)) groups k
  = k (String c rest) groups.
Proof. intros H. cbn. rewrite H. reflexivity. Qed.

Ltac by_digits H1 H2 :=
  apply digit_cases in H1; apply digit_cases in H2; cbn [In] in H1, H2;
  repeat (destruct H1 as [<-|H1]); try contradiction;
  repeat (destruct H2 as [<-|H2]); try contradiction.

Lemma consumes_day d1 d2 :
  Re.is_digit d1 = true -> Re.is_digit d2 = true ->
  (1 <=? digits_value 0 (String d1 (String d2 "")))
  && (digits_value 0 (String d1 (String d2 "")) <=? 31) = true ->
  consumes R (Re.alts [Re.Seq (Re.Chr "3") (Strptime.range "0" "1");
                     Re.Seq (Strptime.range "1" "2") Strptime.digit;
                     Re.Seq (Re.Chr "0") (Strptime.range "1" "9");
                     Strptime.range "1" "9";
                     Re.Seq (Re.Chr " ") (Strptime.range "1" "9")])
           (String d1 (String d2 "")).
Proof.
  intros H1 H2 Hr rest groups k found Hk. by_digits H1 H2;
    first [exfalso; vm_compute in Hr; discriminate Hr
          | vm_compute; rewrite ?Hk; reflexivity].
Qed.

Lemma consumes_hour d1 d2 :
  Re.is_digit d1 = true -> Re.is_digit d2 = true ->
  (digits_value 0 (String d1 (String d2 "")) <=? 23) = true ->
  consumes R (Re.alts [Re.Seq (Re.Chr "2") (Strptime.range "0" "3");
                     Re.Seq (Strptime.range "0" "1") Strptime.digit;
                     Strptime.digit])
           (String d1 (String d2 "")).
Proof.
  intros H1 H2 Hr rest groups k found Hk. by_digits H1 H2;
    first [exfalso; vm_compute in Hr; discriminate Hr
          | vm_compute; rewrite ?Hk; reflexivity].
Qed.

Lemma consumes_minute d1 d2 :
  Re.is_digit d1 = true -> Re.is_digit d2 = true ->
  (digits_value 0 (String d1 (String d2 "")) <=? 59) = true ->
  consumes R (Re.alts [Re.Seq (Strptime.range "0" "5") Strptime.digit;
                     Strptime.digit])
           (String d1 (String d2 "")).
Proof.
  intros H1 H2 Hr rest groups k found Hk. by_digits H1 H2;
    first [exfalso; vm_compute in Hr; discriminate Hr
          | vm_compute; rewrite ?Hk; reflexivity].
Qed.

Lemma consumes_second d1 d2 :
  Re.is_digit d1 = true -> Re.is_digit d2 = true ->
  (digits_value 0 (String d1 (String d2 "")) <=? 59) = true ->
  consumes R (Re.alts [Re.Seq (Re.Chr "6") (Strptime.range "0" "1");
                     Re.Seq (Strptime.range "0" "5") Strptime.digit;
                     Strptime.digit])
           (String d1 (String d2 "")).
Proof.
  intros H1 H2 Hr rest groups k found Hk. by_digits H1 H2;
    first [exfalso; vm_compute in Hr; discriminate Hr
          | vm_compute; rewrite ?Hk; reflexivity].
Qed.

Lemma consumes_year y1 y2 y3 y4 :
  Re.is_digit y1 = true -> Re.is_digit y2 = true ->
  Re.is_digit y3 = true -> Re.is_digit y4 = true ->
  consumes R (Re.Seq Strptime.digit
              (Re.Seq Strptime.digit (Re.Seq Strptime.digit Strptime.digit)))
           (String y1 (String y2 (String y3 (String y4 "")))).
Proof.
  intros H1 H2 H3 H4 rest groups k found Hk.
  cbn. rewrite H1, H2, H3, H4. exact Hk.
Qed.

Lemma consumes_weekday name :
  In name weekday_abbrevs ->
  consumes R (Re.alts (map Re.word (Strptime.sorted_by_length Strptime.a_weekday)))
           name.
Proof.
  intros Hin rest groups k found Hk. cbn in Hin.
  repeat (destruct Hin as [<-|Hin];
          [vm_compute; rewrite ?Hk; reflexivity|]).
  destruct Hin.
Qed.

Lemma consumes_month name :
  In name month_abbrevs ->
  consumes R (Re.alts (map Re.word
                       (Strptime.sorted_by_length (tail Strptime.a_month))))
           name.
Proof.
  intros Hin rest groups k found Hk. cbn in Hin.
  repeat (destruct Hin as [<-|Hin];
          [vm_compute; rewrite ?Hk; reflexivity|]).
  destruct Hin.
Qed.

End Pieces.

Lemma digit_not_space (c : ascii) : Re.is_digit c = true -> Re.is_space c = false.
Proof.
  intros H. apply digit_cases in H. cbn [In] in H.
  repeat (destruct H as [<-|H]; [reflexivity|]). destruct H.
Qed.

(** The shape of a text in the exact pattern. *)
Lemma rfc1123_exact_shape (s : string) :
  rfc1123_exact s = true ->
  exists w1 w2 w3 d1 d2 b1 b2 b3 y1 y2 y3 y4 h1 h2 m1 m2 s1 s2,
    s = String w1 (String w2 (String w3 (String "," (String " " (String d1 (String d2 (String " " (String b1 (String b2 (String b3 (String " " (String y1 (String y2 (String y3 (String y4 (String " " (String h1 (String h2 (String ":" (String m1 (String m2 (String ":" (String s1 (String s2 (" GMT")))))))))))))))))))))))))
    /\ In (String w1 (String w2 (String w3 ""))) weekday_abbrevs
    /\ In (String b1 (String b2 (String b3 ""))) month_abbrevs
    /\ Re.is_digit d1 = true /\ Re.is_digit d2 = true
    /\ Re.is_digit y1 = true /\ Re.is_digit y2 = true
    /\ Re.is_digit y3 = true /\ Re.is_digit y4 = true
    /\ Re.is_digit h1 = true /\ Re.is_digit h2 = true
    /\ Re.is_digit m1 = true /\ Re.is_digit m2 = true
    /\ Re.is_digit s1 = true /\ Re.is_digit s2 = true.
Proof.
  unfold rfc1123_exact. intros H.
  repeat (apply andb_true_iff in H as [H ?]).
  apply Nat.eqb_eq in H.
  destruct s as [|w1 s]; [discriminate H|].
  destruct s as [|w2 s]; [discriminate H|].
  destruct s as [|w3 s]; [discriminate H|].
  destruct s as [|p3 s]; [discriminate H|].
  destruct s as [|p4 s]; [discriminate H|].
  destruct s as [|d1 s]; [discriminate H|].
  destruct s as [|d2 s]; [discriminate H|].
  destruct s as [|p7 s]; [discriminate H|].
  destruct s as [|b1 s]; [discriminate H|].
  destruct s as [|b2 s]; [discriminate H|].
  destruct s as [|b3 s]; [discriminate H|].
  destruct s as [|p11 s]; [discriminate H|].
  destruct s as [|y1 s]; [discriminate H|].
  destruct s as [|y2 s]; [discriminate H|].
  destruct s as [|y3 s]; [discriminate H|].
  destruct s as [|y4 s]; [discriminate H|].
  destruct s as [|p16 s]; [discriminate H|].
  destruct s as [|h1 s]; [discriminate H|].
  destruct s as [|h2 s]; [discriminate H|].
  destruct s as [|p19 s]; [discriminate H|].
  destruct s as [|m1 s]; [discriminate H|].
  destruct s as [|m2 s]; [discriminate H|].
  destruct s as [|p22 s]; [discriminate H|].
  destruct s as [|s1 s]; [discriminate H|].
  destruct s as [|s2 s]; [discriminate H|].
  destruct s as [|p25 s]; [discriminate H|].
  destruct s as [|p26 s]; [discriminate H|].
  destruct s as [|p27 s]; [discriminate H|].
  destruct s as [|p28 s]; [discriminate H|].
  destruct s; [|discriminate H]. clear H.
  cbn [substring] in *.
  repeat match goal with
         | H : String.eqb _ _ = true |- _ =>
             apply String.eqb_eq in H; injection H as H; subst
         | H : all_digits _ = true |- _ =>
             cbn [all_digits] in H;
             repeat (apply andb_true_iff in H as [? H]); clear H
         | H : existsb _ _ = true |- _ =>
             apply existsb_exists in H as (? & ? & H);
             apply String.eqb_eq in H; subst
         end.
  exists w1, w2, w3, d1, d2, b1, b2, b3, y1, y2, y3, y4, h1, h2, m1, m2, s1, s2.
  repeat split; assumption || reflexivity.
Qed.

(** [int(text)] on a text of digits. *)
Lemma int_digits_all (digits : string) (acc : Z) (after_digit : bool) :
  all_digits digits = true ->
  int_digits acc after_digit digits
  = match digits with
    | EmptyString => if after_digit then Ok acc else Raise ValueError
    | _ => Ok (digits_value acc digits)
    end.
Proof.
  revert acc after_digit. induction digits as [|c digits IH];
    intros acc b H; [reflexivity|].
  cbn [all_digits] in H. apply andb_true_iff in H as [Hc H].
  cbn [int_digits digits_value].
  change (is_ascii_digit c) with (Re.is_digit c). rewrite Hc.
  rewrite (IH _ _ H). destruct digits; reflexivity.
Qed.

Lemma rstrip_digits (digits : string) :
  all_digits digits = true -> rstrip is_space_int_str digits = digits.
Proof.
  induction digits as [|c digits IH]; intros H; [reflexivity|].
  cbn [all_digits] in H. apply andb_true_iff in H as [Hc H].
  cbn [rstrip]. rewrite (IH H).
  destruct digits; [|reflexivity].
  apply digit_cases in Hc. cbn [In] in Hc.
  repeat (destruct Hc as [<-|Hc]; [reflexivity|]). destruct Hc.
Qed.

Lemma int_str_digits (c : ascii) (digits : string) :
  all_digits (String c digits) = true ->
  int_str (String c digits) = Ok (digits_value 0 (String c digits)).
Proof.
  intros H. unfold int_str, int_base10.
  assert (Hl : lstrip is_space_int_str (String c digits) = String c digits).
  { cbn [all_digits] in H. apply andb_true_iff in H as [Hc _].
    apply digit_cases in Hc. cbn [In] in Hc.
    repeat (destruct Hc as [<-|Hc]; [reflexivity|]). destruct Hc. }
  rewrite Hl, (rstrip_digits _ H).
  rewrite <- (int_digits_all (String c digits) 0 false H).
  cbn [all_digits] in H. apply andb_true_iff in H as [Hc _].
  apply digit_cases in Hc. cbn [In] in Hc.
  repeat (destruct Hc as [<-|Hc]; [reflexivity|]). destruct Hc.
Qed.

Lemma weekday_index (name : string) :
  In name weekday_abbrevs ->
  exists v, index (Re.lower_str name) Strptime.a_weekday = Ok v.
Proof.
  intros Hin. cbn in Hin.
  repeat (destruct Hin as [<-|Hin]; [eexists; vm_compute; reflexivity|]).
  destruct Hin.
Qed.

Lemma month_index (name : string) :
  In name month_abbrevs ->
  index (Re.lower_str name) Strptime.a_month
  = Ok (match index name month_abbrevs with Ok i => i + 1 | Raise _ => 0 end).
Proof.
  intros Hin. cbn in Hin.
  repeat (destruct Hin as [<-|Hin]; [vm_compute; reflexivity|]).
  destruct Hin.
Qed.

Lemma match_seq {R : Type} r1 r2 s groups
    (k : string -> Re.groupdict -> option R) :
  Re.match_at (Re.Seq r1 r2) s groups k
  = Re.match_at r1 s groups (fun s' groups' => Re.match_at r2 s' groups' k).
Proof. reflexivity. Qed.

Lemma letter_not_space (name : string) (names : list string) c rest :
  In name names ->
  forallb (fun n => match n with
                    | String a _ => negb (Re.is_space a)
                    | EmptyString => false
                    end) names = true ->
  name = String c rest -> Re.is_space c = false.
Proof.
  intros Hin Hall ->.
  pose proof (proj1 (forallb_forall _ _) Hall _ Hin) as H. cbn in H.
  destruct (Re.is_space c); [discriminate|reflexivity].
Qed.

(** The pattern of the module's format matches a text in the exact pattern
    whose fields are in range, and reads its seven groups. *)
Lemma match_rfc1123_exact w1 w2 w3 d1 d2 b1 b2 b3 y1 y2 y3 y4 h1 h2 m1 m2 s1 s2 :
  In (String w1 (String w2 (String w3 ""))) weekday_abbrevs ->
  In (String b1 (String b2 (String b3 ""))) month_abbrevs ->
  Re.is_digit d1 = true -> Re.is_digit d2 = true ->
  Re.is_digit y1 = true -> Re.is_digit y2 = true ->
  Re.is_digit y3 = true -> Re.is_digit y4 = true ->
  Re.is_digit h1 = true -> Re.is_digit h2 = true ->
  Re.is_digit m1 = true -> Re.is_digit m2 = true ->
  Re.is_digit s1 = true -> Re.is_digit s2 = true ->
  (1 <=? digits_value 0 (String d1 (String d2 "")))
  && (digits_value 0 (String d1 (String d2 "")) <=? 31) = true ->
  (digits_value 0 (String h1 (String h2 "")) <=? 23) = true ->
  (digits_value 0 (String m1 (String m2 "")) <=? 59) = true ->
  (digits_value 0 (String s1 (String s2 "")) <=? 59) = true ->
  Re.match_ rfc1123_regex
    (String w1 (String w2 (String w3 (String "," (String " "
      (String d1 (String d2 (String " "
        (String b1 (String b2 (String b3 (String " "
          (String y1 (String y2 (String y3 (String y4 (String " "
            (String h1 (String h2 (String ":"
              (String m1 (String m2 (String ":"
                (String s1 (String s2 " GMT")))))))))))))))))))))))))
  = Some ("", [("a"%char, String w1 (String w2 (String w3 "")));
               ("d"%char, String d1 (String d2 ""));
               ("b"%char, String b1 (String b2 (String b3 "")));
               ("Y"%char, String y1 (String y2 (String y3 (String y4 ""))));
               ("H"%char, String h1 (String h2 ""));
               ("M"%char, String m1 (String m2 ""));
               ("S"%char, String s1 (String s2 ""))]).
Proof.
  intros Hwd Hmo Hd1 Hd2 Hy1 Hy2 Hy3 Hy4 Hh1 Hh2 Hm1 Hm2 Hs1 Hs2
         Rd Rh Rm Rs.
  unfold Re.match_, rfc1123_regex. cbn [fold_right].
  (* %a *)
  rewrite match_seq.
  apply (consumes_group "a" _ (String w1 (String w2 (String w3 ""))));
    [apply consumes_weekday; assumption|].
  (* , and the space *)
  rewrite match_seq, match_chr.
  rewrite match_seq, match_one_space by (apply digit_not_space; assumption).
  (* %d *)
  rewrite match_seq.
  apply (consumes_group "d" _ (String d1 (String d2 "")));
    [apply consumes_day; assumption|].
  rewrite match_seq, match_one_space
    by (eapply (letter_not_space _ month_abbrevs); [exact Hmo|reflexivity..]).
  (* %b *)
  rewrite match_seq.
  apply (consumes_group "b" _ (String b1 (String b2 (String b3 ""))));
    [apply consumes_month; assumption|].
  rewrite match_seq, match_one_space by (apply digit_not_space; assumption).
  (* %Y *)
  rewrite match_seq.
  apply (consumes_group "Y" _
           (String y1 (String y2 (String y3 (String y4 "")))));
    [apply consumes_year; assumption|].
  rewrite match_seq, match_one_space by (apply digit_not_space; assumption).
  (* %H:%M:%S *)
  rewrite match_seq.
  apply (consumes_group "H" _ (String h1 (String h2 "")));
    [apply consumes_hour; assumption|].
  rewrite match_seq, match_chr.
  rewrite match_seq.
  apply (consumes_group "M" _ (String m1 (String m2 "")));
    [apply consumes_minute; assumption|].
  rewrite match_seq, match_chr.
  rewrite match_seq.
  apply (consumes_group "S" _ (String s1 (String s2 "")));
    [apply consumes_second; assumption|].
  (* GMT *)
  rewrite match_seq, match_one_space by reflexivity.
  rewrite match_seq, match_chr. rewrite match_seq, match_chr.
  rewrite match_seq, match_chr.
  reflexivity.
Qed.

Lemma check_date_fields_first y m d :
  Datetime._check_date_fields y m d = Ok tt ->
  Datetime._check_date_fields y 1 1 = Ok tt.
Proof.
  unfold Datetime._check_date_fields.
  destruct (negb ((Datetime.MINYEAR <=? y) && (y <=? Datetime.MAXYEAR)));
    [discriminate|].
  intros _. cbn. unfold Datetime._days_in_month. cbn. reflexivity.
Qed.

(** After the groups are read: the date must exist, and the timestamp is
    built and given the UTC timezone. *)
Lemma strptime_build y m d hh mm ss :
  (dt ← ('(y, m, d, hh, mm, ss) ←
           (_ ← Datetime.date_new y m d;
            _ ← Datetime.date_new y 1 1;
            Ok (y, m, d, hh, mm, ss));
         Datetime.new y m d hh mm ss 0 None);
   Datetime.replace_tzinfo dt (Some Datetime.timezone_utc))
  = Datetime.new y m d hh mm ss 0 (Some Datetime.timezone_utc).
Proof.
  unfold Datetime.date_new, Datetime.new, Datetime.replace_tzinfo,
    Datetime.new.
  destruct (Datetime._check_date_fields y m d) as [[]|e] eqn:Ed;
    cbn [mbind result_bind]; [|reflexivity].
  rewrite (check_date_fields_first _ _ _ Ed). cbn [mbind result_bind].
  rewrite Ed. cbn [mbind result_bind].
  destruct (Datetime._check_time_fields hh mm ss 0) as [[]|e] eqn:Et;
    cbn [mbind result_bind]; [|reflexivity].
  cbn [Datetime.year Datetime.month Datetime.day Datetime.hour
       Datetime.minute Datetime.second Datetime.microsecond].
  rewrite Ed. cbn [mbind result_bind]. rewrite Et. reflexivity.
Qed.

(** Every text in the exact pattern whose day, hour, minute and second are
    in range is parsed to the timestamp it writes, in UTC (and raises
    [ValueError] when its date does not exist). *)
Lemma parse_rfc1123_exact (s : string) :
  rfc1123_exact s = true -> rfc1123_in_range s = true ->
  parse_rfc1123 s = rfc1123_timestamp s.
Proof.
  intros Hex Hrange.
  destruct (rfc1123_exact_shape s Hex)
    as (w1 & w2 & w3 & d1 & d2 & b1 & b2 & b3 & y1 & y2 & y3 & y4
        & h1 & h2 & m1 & m2 & s1 & s2 & -> & Hwd & Hmo
        & Hd1 & Hd2 & Hy1 & Hy2 & Hy3 & Hy4 & Hh1 & Hh2 & Hm1 & Hm2
        & Hs1 & Hs2).
  unfold rfc1123_in_range, number_at in Hrange. cbn [substring] in Hrange.
  apply andb_true_iff in Hrange as [Hrange Rs].
  apply andb_true_iff in Hrange as [Hrange Rm].
  apply andb_true_iff in Hrange as [Rd Rh].
  unfold rfc1123_timestamp, number_at, month_at. cbn [substring].
  unfold parse_rfc1123, Strptime.strptime, Strptime._strptime.
  rewrite pattern_rfc1123. cbn [mbind result_bind].
  rewrite (match_rfc1123_exact w1 w2 w3 d1 d2 b1 b2 b3 y1 y2 y3 y4
             h1 h2 m1 m2 s1 s2) by assumption.
  cbn [String.eqb negb].
  destruct (weekday_index _ Hwd) as [wday Hwday].
  cbn [Strptime.assign_all Strptime.assign].
  rewrite Hwday. cbn [mbind result_bind].
  rewrite (int_str_digits d1 (String d2 ""))
    by (cbn [all_digits]; rewrite Hd1, Hd2; reflexivity).
  cbn [mbind result_bind].
  rewrite (month_index _ Hmo). cbn [mbind result_bind].
  rewrite (int_str_digits y1 (String y2 (String y3 (String y4 ""))))
    by (cbn [all_digits]; rewrite Hy1, Hy2, Hy3, Hy4; reflexivity).
  cbn [mbind result_bind].
  rewrite (int_str_digits h1 (String h2 ""))
    by (cbn [all_digits]; rewrite Hh1, Hh2; reflexivity).
  cbn [mbind result_bind].
  rewrite (int_str_digits m1 (String m2 ""))
    by (cbn [all_digits]; rewrite Hm1, Hm2; reflexivity).
  cbn [mbind result_bind].
  rewrite (int_str_digits s1 (String s2 ""))
    by (cbn [all_digits]; rewrite Hs1, Hs2; reflexivity).
  cbn [mbind result_bind Strptime.year Strptime.month Strptime.day
       Strptime.hour Strptime.minute Strptime.second].
  apply strptime_build.
Qed.




(** ** format_infraction *)

Lemma upto_In (n z : Z) : 0 <= z < n -> In z (upto n).
Proof.
  intros Hz. unfold upto. apply in_map_iff. exists (Z.to_nat z).
  split; [lia|]. apply in_seq. lia.
Qed.

Lemma two_digit_text_all : forallb two_digit_text (upto 100) = true.
Proof. vm_compute. reflexivity. Qed.

Lemma four_digit_text_padded : forallb (four_digit_text true) (upto 10000) = true.
Proof. vm_compute. reflexivity. Qed.

Lemma four_digit_text_plain :
  forallb (fun n => four_digit_text false (1000 + n)) (upto 9000) = true.
Proof. vm_compute. reflexivity. Qed.

Lemma two_digit_form (n : Z) :
  0 <= n <= 99 ->
  exists a b,
    Strftime.zfill 2 (str_int n) = String a (String b "")
    /\ Re.is_digit a = true /\ Re.is_digit b = true.
Proof.
  intros Hn.
  pose proof (proj1 (forallb_forall _ _) two_digit_text_all n
                (upto_In 100 n ltac:(lia))) as H.
  unfold two_digit_text in H.
  destruct (Strftime.zfill 2 (str_int n)) as [|a [|b [|]]]; try discriminate.
  apply andb_true_iff in H as [Ha Hb]. eauto.
Qed.

Lemma four_digit_form `{Strftime.Libc} (n : Z) :
  1 <= n <= 9999 ->
  Strftime.pads_year = true \/ 1000 <= n ->
  exists a b c d,
    (if Strftime.pads_year then Strftime.zfill 4 (str_int n) else str_int n)
    = String a (String b (String c (String d "")))
    /\ Re.is_digit a = true /\ Re.is_digit b = true
    /\ Re.is_digit c = true /\ Re.is_digit d = true.
Proof.
  intros Hn Hpad.
  assert (Hchk : four_digit_text Strftime.pads_year n = true).
  { destruct Strftime.pads_year.
    - apply (proj1 (forallb_forall _ _) four_digit_text_padded n).
      apply upto_In. lia.
    - destruct Hpad as [|Hpad]; [discriminate|].
      pose proof (proj1 (forallb_forall _ _) four_digit_text_plain (n - 1000)
                    (upto_In 9000 (n - 1000) ltac:(lia))) as H1.
      cbn beta in H1. replace (1000 + (n - 1000)) with n in H1 by lia.
      exact H1. }
  unfold four_digit_text in Hchk.
  destruct (if Strftime.pads_year then _ else _)
    as [|a [|b [|c [|d [|]]]]]; try discriminate.
  do 3 (apply andb_true_iff in Hchk as [Hchk ?]).
  exists a, b, c, d. repeat split; first [assumption | reflexivity].
Qed.

Lemma strftime_infraction `{Strftime.Libc} (dt : Datetime.datetime) :
  Strftime.strftime dt INFRACTION_FORMAT = infraction_layout dt.
Proof.
  unfold infraction_layout, INFRACTION_FORMAT. cbn.
  rewrite string_app_nil_r. reflexivity.
Qed.


Lemma datetime_new_well_formed y m d hh mm ss us tzinfo dt :
  Datetime.new y m d hh mm ss us tzinfo = Ok dt -> well_formed dt = true.
Proof.
  intros H. unfold well_formed.
  assert (Hf : dt = {| Datetime.year := y; Datetime.month := m;
                       Datetime.day := d; Datetime.hour := hh;
                       Datetime.minute := mm; Datetime.second := ss;
                       Datetime.microsecond := us; Datetime.tz := tzinfo |}).
  { unfold Datetime.new in H.
    destruct (Datetime._check_date_fields y m d); cbn in H; [|discriminate].
    destruct (Datetime._check_time_fields hh mm ss us); cbn in H;
      [|discriminate].
    injection H as <-. reflexivity. }
  rewrite Hf at 1 2 3 4 5 6 7 8. cbn [Datetime.year Datetime.month
    Datetime.day Datetime.hour Datetime.minute Datetime.second
    Datetime.microsecond Datetime.tz]. rewrite H. reflexivity.
Qed.

Lemma add_days_well_formed dt n dt' :
  Datetime.add_days dt n = Ok dt' -> well_formed dt' = true.
Proof.
  unfold Datetime.add_days.
  destruct (Datetime.timedelta_new _ _ _) as [delta|]; cbn [mbind result_bind];
    [|discriminate].
  destruct ((0 <? Datetime.days delta) && _); [|discriminate].
  destruct (Datetime.date_fromordinal _) as [[[y m] d]|];
    cbn [mbind result_bind]; [|discriminate].
  apply datetime_new_well_formed.
Qed.

Lemma isoparse_well_formed (dt_str : string) (dt : Datetime.datetime) :
  Isoparser.isoparse dt_str = Ok dt -> well_formed dt = true.
Proof.
  unfold Isoparser.isoparse.
  destruct (Isoparser.encode_ascii dt_str) as [s|]; cbn [mbind result_bind];
    [|discriminate].
  destruct (Isoparser._parse_isodate s) as [[date pos]|];
    cbn [mbind result_bind]; [|discriminate].
  destruct (if (pos <? String.length s)%nat then _ else _) as [[time tz]|];
    cbn [mbind result_bind]; [|discriminate].
  destruct ((pos <? String.length s)%nat && _).
  - destruct (Datetime.new _ _ _ _ _ _ _ _) as [dt0|];
      cbn [mbind result_bind]; [|discriminate].
    apply add_days_well_formed.
  - apply datetime_new_well_formed.
Qed.





(** ** Further properties of humanize_delta *)

(** The loop in closed form: the first [max_units] units that are reached
    and whose value is not zero. *)
Lemma units_loop_closed precision max_units units time_strings unit_count :
  unit_count < max_units ->
  fst (units_loop precision max_units units time_strings unit_count)
  = time_strings
    ++ map stringify
         (take (Z.to_nat (max_units - unit_count))
               (List.filter nonzero (visited precision units))).
Proof.
  revert time_strings unit_count.
  induction units as [|[u v] rest IH]; intros ts c Hc.
  - cbn. rewrite take_nil. cbn. rewrite app_nil_r. reflexivity.
  - cbn [units_loop visited List.filter]. unfold nonzero at 1. cbn [snd].
    destruct (Z.eqb_spec v 0) as [Hv|Hv]; cbn [negb].
    + destruct (Z.leb_spec max_units c); [lia|]. rewrite orb_false_r.
      destruct (String.eqb u precision).
      * cbn. rewrite take_nil. cbn. rewrite app_nil_r. reflexivity.
      * apply IH. exact Hc.
    + replace (Z.to_nat (max_units - c))
        with (S (Z.to_nat (max_units - (c + 1)))) by lia.
      cbn [take firstn map].
      destruct (String.eqb u precision); cbn [orb].
      * cbn [fst List.filter]. rewrite take_nil. reflexivity.
      * destruct (Z.leb_spec max_units (c + 1)).
        -- cbn [fst]. replace (Z.to_nat (max_units - (c + 1))) with 0%nat by lia.
           rewrite firstn_O. reflexivity.
        -- rewrite IH by lia. rewrite <- app_assoc. reflexivity.
Qed.

Lemma visited_sublist precision units uv :
  In uv (visited precision units) -> In uv units.
Proof.
  induction units as [|[u v] rest IH]; cbn [visited]; [intros []|].
  intros [<-|H]; [left; reflexivity|].
  destruct (String.eqb u precision); [destruct H|]. right. apply IH, H.
Qed.

Lemma visited_length precision units :
  (length (visited precision units) <= length units)%nat.
Proof.
  induction units as [|[u v] rest IH]; cbn [visited length]; [lia|].
  destruct (String.eqb u precision); cbn [length]; lia.
Qed.



(** X2. [humanize_delta] never renders more than [max_units] units, one
    unit when [max_units] is less than 1, and never more than six. *)
Theorem humanize_delta_unit_count :
  forall (delta : relativedelta) (precision : string) (max_units : Z),
    (length (emitted delta precision max_units)
     <= Z.to_nat (Z.max 1 max_units))%nat
    /\ (length (emitted delta precision max_units) <= 6)%nat.
Proof.
  intros delta precision max_units. split.
  - destruct (Z_lt_le_dec max_units 1) as [Hm|Hm].
    + rewrite emitted_nonpositive by lia.
      destruct (years delta =? 0); cbn [length]; lia.
    + unfold emitted. rewrite units_loop_closed by lia.
      cbn [app]. rewrite length_map, length_take. lia.
  - destruct (emitted_spec delta precision max_units) as (n & Hn & -> & _).
    rewrite length_map.
    pose proof (filter_length_le nonzero (take n (units_of delta))) as Hlen.
    rewrite length_take in Hlen. lia.
Qed.




Lemma contains_of_prefix (sub s : string) :
  String.prefix sub s = true -> contains sub s = true.
Proof. intros H. destruct s; cbn [contains]; rewrite H; reflexivity. Qed.

Lemma contains_app_r (sub pre s : string) :
  contains sub s = true -> contains sub (pre +:+ s) = true.
Proof.
  intros H. induction pre as [|c pre IH]; [exact H|].
  cbn [String.append contains]. rewrite IH. apply orb_true_r.
Qed.

Lemma contains_join_last (sub sep : string) (init : list string) (x : string) :
  contains sub x = true -> contains sub (join sep (init ++ [x])) = true.
Proof.
  intros H. unfold join. induction init as [|y init IH]; [exact H|].
  cbn [app]. destruct (init ++ [x]) as [|z rest] eqn:E.
  - destruct init; discriminate E.
  - cbn [String.concat]. cbn [String.concat] in IH.
    apply contains_app_r, contains_app_r, IH.
Qed.

(** X4. Whenever [humanize_delta] renders a unit, its text has " and " in
    it exactly when two or more units are rendered. *)
Theorem humanize_delta_and_iff :
  forall (delta : relativedelta) (precision : string) (max_units : Z),
    emitted delta precision max_units <> [] ->
    (contains " and " (humanize_delta delta precision max_units) = true
     <-> (2 <= length (emitted delta precision max_units))%nat).
Proof.
  intros delta precision max_units Hne. split.
  - intros Hc.
    destruct (emitted delta precision max_units) as [|a [|b rest]] eqn:E;
      [contradiction| |cbn [length]; lia].
    exfalso. unfold humanize_delta in Hc. rewrite E in Hc.
    cbn [add_and length Nat.ltb Nat.leb join String.concat] in Hc.
    apply contains_and_spaces in Hc.
    assert (Hin : In a (emitted delta precision max_units))
      by (rewrite E; left; reflexivity).
    apply emitted_elem in Hin as (uv & Hin & Hnz & ->).
    rewrite (stringify_one_space delta uv Hin Hnz) in Hc. lia.
  - intros Hlen.
    destruct (snoc2_of_length _ Hlen) as (init & a & b & E).
    unfold humanize_delta. rewrite E, add_and_snoc2.
    destruct (init ++ [a +:+ " and " +:+ b]) as [|z rest] eqn:E'.
    + destruct init; discriminate E'.
    + rewrite <- E'. apply contains_join_last.
      apply contains_app_r, contains_of_prefix, prefix_app.
Qed.

Lemma humanize_delta_and_iff_witness :
  contains " and "
    (humanize_delta {| years := 0; months := 0; days := 1; hours := 2;
                       minutes := 0; seconds := 5 |} "seconds" 6) = true.
Proof.
  apply (proj2 (humanize_delta_and_iff
                  {| years := 0; months := 0; days := 1; hours := 2;
                     minutes := 0; seconds := 5 |} "seconds" 6
                  ltac:(vm_compute; discriminate))).
  vm_compute. lia.
Defined.

(** ** The calendar of datetime.py *)

Lemma forallb_upto (f : Z -> bool) (n z : Z) :
  forallb f (upto n) = true -> 0 <= z < n -> f z = true.
Proof.
  intros H Hz. apply (proj1 (forallb_forall f (upto n)) H). apply upto_In, Hz.
Qed.

Lemma date_eqb_eq (a b : Z * Z * Z) : date_eqb a b = true -> a = b.
Proof.
  destruct a as [[y m] d], b as [[y' m'] d']. cbn.
  intros H. apply andb_true_iff in H as [H Hd].
  apply andb_true_iff in H as [Hy Hm].
  apply Z.eqb_eq in Hy, Hm, Hd. subst. reflexivity.
Qed.

(** Over one cycle of 400 years, the ordinal of a date is mapped back to the
    date. *)
Lemma cycle_round_trip :
  forallb (fun y =>
    forallb (fun m =>
      forallb (fun d =>
                 date_eqb (Datetime._ord2ymd
                             (Datetime._ymd2ord (y + 1) (m + 1) (d + 1)))
                          (y + 1, m + 1, d + 1))
              (upto (Datetime._days_in_month (y + 1) (m + 1))))
      (upto 12))
    (upto 400) = true.
Proof. vm_compute. reflexivity. Qed.

Lemma cycle_date_round_trip (y m d : Z) :
  1 <= y <= 400 -> 1 <= m <= 12 -> 1 <= d <= Datetime._days_in_month y m ->
  Datetime._ord2ymd (Datetime._ymd2ord y m d) = (y, m, d).
Proof.
  intros Hy Hm Hd.
  assert (Ey : y = y - 1 + 1) by lia.
  assert (Em : m = m - 1 + 1) by lia.
  assert (Ed : d = d - 1 + 1) by lia.
  rewrite Ey, Em in Hd. rewrite Ey, Em, Ed.
  apply date_eqb_eq.
  apply (forallb_upto
           (fun d =>
              date_eqb (Datetime._ord2ymd
                          (Datetime._ymd2ord (y - 1 + 1) (m - 1 + 1) (d + 1)))
                       (y - 1 + 1, m - 1 + 1, d + 1))
           (Datetime._days_in_month (y - 1 + 1) (m - 1 + 1))); [|lia].
  apply (forallb_upto
           (fun m =>
              forallb (fun d =>
                 date_eqb (Datetime._ord2ymd
                             (Datetime._ymd2ord (y - 1 + 1) (m + 1) (d + 1)))
                          (y - 1 + 1, m + 1, d + 1))
                (upto (Datetime._days_in_month (y - 1 + 1) (m + 1))))
           12); [|lia].
  apply (forallb_upto
           (fun y =>
              forallb (fun m =>
                forallb (fun d =>
                   date_eqb (Datetime._ord2ymd
                               (Datetime._ymd2ord (y + 1) (m + 1) (d + 1)))
                            (y + 1, m + 1, d + 1))
                  (upto (Datetime._days_in_month (y + 1) (m + 1))))
                (upto 12))
           400); [|lia].
  exact cycle_round_trip.
Qed.

Lemma is_leap_period (y k : Z) :
  Datetime._is_leap (y + 400 * k) = Datetime._is_leap y.
Proof.
  unfold Datetime._is_leap.
  replace ((y + 400 * k) mod 4) with (y mod 4)
    by (Z.div_mod_to_equations; lia).
  replace ((y + 400 * k) mod 100) with (y mod 100)
    by (Z.div_mod_to_equations; lia).
  replace ((y + 400 * k) mod 400) with (y mod 400)
    by (Z.div_mod_to_equations; lia).
  reflexivity.
Qed.

Lemma ymd2ord_period (y m d k : Z) :
  Datetime._ymd2ord (y + 400 * k) m d = Datetime._ymd2ord y m d + 146097 * k.
Proof.
  unfold Datetime._ymd2ord, Datetime._days_before_month,
    Datetime._days_before_year.
  rewrite is_leap_period.
  destruct ((2 <? m) && Datetime._is_leap y);
    Z.div_mod_to_equations; lia.
Qed.

Lemma ord2ymd_period (n k : Z) :
  Datetime._ord2ymd (n + 146097 * k)
  = let '(y, m, d) := Datetime._ord2ymd n in (y + 400 * k, m, d).
Proof.
  unfold Datetime._ord2ymd.
  change Datetime._DI400Y with 146097.
  replace ((n + 146097 * k - 1) / 146097) with ((n - 1) / 146097 + k)
    by (Z.div_mod_to_equations; lia).
  replace ((n + 146097 * k - 1) mod 146097) with ((n - 1) mod 146097)
    by (Z.div_mod_to_equations; lia).
  cbv zeta.
  destruct (_ || _); [f_equal; f_equal; lia|].
  destruct (_ <? _); f_equal; f_equal; lia.
Qed.

Lemma days_in_month_period (y m k : Z) :
  Datetime._days_in_month (y + 400 * k) m = Datetime._days_in_month y m.
Proof. unfold Datetime._days_in_month. rewrite is_leap_period. reflexivity. Qed.

Lemma check_date_fields_ok (y m d : Z) :
  Datetime._check_date_fields y m d = Ok tt <->
  1 <= y <= 9999 /\ 1 <= m <= 12 /\ 1 <= d <= Datetime._days_in_month y m.
Proof.
  unfold Datetime._check_date_fields, Datetime.MINYEAR, Datetime.MAXYEAR.
  destruct (Z.leb_spec 1 y); destruct (Z.leb_spec y 9999);
    cbn [andb negb]; try (split; [discriminate|lia]).
  destruct (Z.leb_spec 1 m); destruct (Z.leb_spec m 12);
    cbn [andb negb]; try (split; [discriminate|lia]).
  destruct (Z.leb_spec 1 d);
    destruct (Z.leb_spec d (Datetime._days_in_month y m));
    cbn [andb negb]; try (split; [discriminate|lia]).
  split; [lia|reflexivity].
Qed.

(** The ordinal of a date is mapped back to the date. *)
Lemma ord2ymd_ymd2ord (y m d : Z) :
  Datetime._check_date_fields y m d = Ok tt ->
  Datetime._ord2ymd (Datetime._ymd2ord y m d) = (y, m, d).
Proof.
  intros H. apply check_date_fields_ok in H as (Hy & Hm & Hd).
  set (k := (y - 1) / 400). set (y0 := (y - 1) mod 400 + 1).
  assert (Hy0 : y = y0 + 400 * k)
    by (subst k y0; Z.div_mod_to_equations; lia).
  assert (By0 : 1 <= y0 <= 400) by (subst y0; Z.div_mod_to_equations; lia).
  clearbody k y0. subst y. rewrite days_in_month_period in Hd.
  rewrite ymd2ord_period, ord2ymd_period.
  rewrite (cycle_date_round_trip y0 m d By0 Hm Hd). reflexivity.
Qed.

(** ** Sums and comparisons of datetimes *)

Lemma timedelta_new_normal (d s us : Z) :
  Z.abs d <= 999999999 -> 0 <= s < 86400 -> 0 <= us < 1000000 ->
  Datetime.timedelta_new d s us
  = Ok {| Datetime.days := d; Datetime.seconds := s;
          Datetime.microseconds := us |}.
Proof.
  intros Hd Hs Hus. unfold Datetime.timedelta_new.
  destruct (Z.ltb_spec 999999999
              (Z.abs (d + s / 86400 + us / 1000000 / 86400
                      + (s mod 86400 + us / 1000000 mod 86400
                         + us mod 1000000 / 1000000) / 86400))) as [H|H].
  - exfalso. revert H. Z.div_mod_to_equations. lia.
  - do 2 f_equal; Z.div_mod_to_equations; lia.
Qed.

Lemma days_before_year_succ (y : Z) :
  Datetime._days_before_year (y + 1)
  = Datetime._days_before_year y + 365
    + (if Datetime._is_leap y then 1 else 0).
Proof.
  unfold Datetime._days_before_year, Datetime._is_leap.
  replace (y + 1 - 1) with y by lia.
  destruct (Z.eqb_spec (y mod 4) 0); destruct (Z.eqb_spec (y mod 100) 0);
    destruct (Z.eqb_spec (y mod 400) 0); cbn [andb orb negb];
    Z.div_mod_to_equations; lia.
Qed.

Lemma days_before_year_mono (y y' : Z) :
  y <= y' -> Datetime._days_before_year y <= Datetime._days_before_year y'.
Proof.
  intros H. unfold Datetime._days_before_year.
  Z.div_mod_to_equations. lia.
Qed.

Lemma month_cases (m : Z) :
  1 <= m <= 12 ->
  m = 1 \/ m = 2 \/ m = 3 \/ m = 4 \/ m = 5 \/ m = 6 \/ m = 7 \/ m = 8
  \/ m = 9 \/ m = 10 \/ m = 11 \/ m = 12.
Proof. lia. Qed.

Ltac by_month H :=
  destruct (month_cases _ H) as
    [->|[->|[->|[->|[->|[->|[->|[->|[->|[->|[->| ->]]]]]]]]]]].

(** Evaluates the month tables at a given month. *)
Ltac month_table :=
  repeat match goal with
         | |- context [Z.to_nat (?a + ?b)] =>
             let v := eval vm_compute in (a + b) in change (a + b) with v
         end;
  cbv [nth Z.to_nat Pos.to_nat Pos.iter_op Nat.add Init.Nat.add
       Datetime._DAYS_IN_MONTH Datetime._DAYS_BEFORE_MONTH Relativedelta.mdays
       Z.eqb Z.ltb Z.compare Pos.compare Pos.compare_cont Pos.eqb andb].

Lemma days_in_month_bounds (y m : Z) :
  1 <= m <= 12 -> 28 <= Datetime._days_in_month y m <= 31.
Proof.
  intros Hm. unfold Datetime._days_in_month.
  by_month Hm; destruct (Datetime._is_leap y); month_table; lia.
Qed.

(** The days of a year before the end of a month. *)
Lemma days_before_month_next (y m : Z) :
  1 <= m <= 12 ->
  Datetime._days_before_month y m + Datetime._days_in_month y m
  = if m =? 12 then 365 + (if Datetime._is_leap y then 1 else 0)
    else Datetime._days_before_month y (m + 1).
Proof.
  intros Hm. unfold Datetime._days_before_month, Datetime._days_in_month.
  by_month Hm; destruct (Datetime._is_leap y); month_table; lia.
Qed.

Lemma days_before_month_bounds (y m : Z) :
  1 <= m <= 12 ->
  0 <= Datetime._days_before_month y m
  /\ Datetime._days_before_month y m + Datetime._days_in_month y m
     <= 365 + (if Datetime._is_leap y then 1 else 0).
Proof.
  intros Hm. unfold Datetime._days_before_month, Datetime._days_in_month.
  by_month Hm; destruct (Datetime._is_leap y); month_table; lia.
Qed.

Lemma days_before_month_mono (y m m' : Z) :
  1 <= m -> m < m' -> m' <= 12 ->
  Datetime._days_before_month y m + Datetime._days_in_month y m
  <= Datetime._days_before_month y m'.
Proof.
  intros H1 Hlt H12. unfold Datetime._days_before_month, Datetime._days_in_month.
  assert (Hm : 1 <= m <= 12) by lia. assert (Hm' : 1 <= m' <= 12) by lia.
  by_month Hm; by_month Hm'; try lia;
    destruct (Datetime._is_leap y); month_table; lia.
Qed.

Lemma ymd2ord_bounds (y m d : Z) :
  Datetime._check_date_fields y m d = Ok tt ->
  1 <= Datetime._ymd2ord y m d <= Datetime._MAXORDINAL.
Proof.
  intros H. apply check_date_fields_ok in H as (Hy & Hm & Hd).
  unfold Datetime._ymd2ord.
  pose proof (days_before_month_bounds y m Hm) as [Hb0 Hb1].
  pose proof (days_before_year_succ y) as Hs.
  pose proof (days_before_year_mono 1 y ltac:(lia)) as H1.
  pose proof (days_before_year_mono (y + 1) 10000 ltac:(lia)) as H2.
  change (Datetime._days_before_year 1) with 0 in H1.
  change (Datetime._days_before_year 10000) with 3652059 in H2.
  change Datetime._MAXORDINAL with 3652059. lia.
Qed.

Lemma well_formed_checks (dt : Datetime.datetime) :
  well_formed dt = true ->
  Datetime._check_date_fields (Datetime.year dt) (Datetime.month dt)
    (Datetime.day dt) = Ok tt
  /\ Datetime._check_time_fields (Datetime.hour dt) (Datetime.minute dt)
       (Datetime.second dt) (Datetime.microsecond dt) = Ok tt.
Proof.
  unfold well_formed, Datetime.new.
  destruct (Datetime._check_date_fields _ _ _) as [[]|];
    cbn [mbind result_bind is_ok]; [|discriminate].
  destruct (Datetime._check_time_fields _ _ _ _) as [[]|];
    cbn [mbind result_bind is_ok]; [|discriminate].
  auto.
Qed.

Lemma datetime_new_eta (dt : Datetime.datetime) :
  well_formed dt = true ->
  Datetime.new (Datetime.year dt) (Datetime.month dt) (Datetime.day dt)
    (Datetime.hour dt) (Datetime.minute dt) (Datetime.second dt)
    (Datetime.microsecond dt) (Datetime.tz dt) = Ok dt.
Proof.
  intros H. apply well_formed_checks in H as [Hd Ht].
  unfold Datetime.new. rewrite Hd, Ht. destruct dt. reflexivity.
Qed.

(** Adding an empty [timedelta] gives the same datetime. *)
Lemma datetime_add_zero (dt : Datetime.datetime) :
  well_formed dt = true ->
  Relativedelta.datetime_add dt
    {| Datetime.days := 0; Datetime.seconds := 0; Datetime.microseconds := 0 |}
  = Ok dt.
Proof.
  intros Hwf.
  pose proof (well_formed_fields dt Hwf) as (_ & _ & _ & Hh & Hmi & Hs & Hus).
  pose proof (well_formed_checks dt Hwf) as [Hd _].
  pose proof (ymd2ord_bounds _ _ _ Hd) as Hord.
  change Datetime._MAXORDINAL with 3652059 in Hord.
  unfold Relativedelta.datetime_add, Datetime.toordinal.
  rewrite timedelta_new_normal by lia. cbn [mbind result_bind].
  cbn [Datetime.days Datetime.seconds Datetime.microseconds].
  rewrite !Z.add_0_r.
  rewrite timedelta_new_normal by lia. cbn [mbind result_bind].
  cbn [Datetime.days Datetime.seconds Datetime.microseconds].
  change Datetime._MAXORDINAL with 3652059.
  destruct (Z.ltb_spec 0 (Datetime._ymd2ord (Datetime.year dt)
                            (Datetime.month dt) (Datetime.day dt))); [|lia].
  destruct (Z.leb_spec (Datetime._ymd2ord (Datetime.year dt)
                          (Datetime.month dt) (Datetime.day dt)) 3652059);
    [|lia].
  cbn [andb]. unfold Datetime.date_fromordinal.
  rewrite (ord2ymd_ymd2ord _ _ _ Hd). unfold Datetime.date_new.
  rewrite Hd. cbn [mbind result_bind].
  replace ((Datetime.hour dt * 3600 + Datetime.minute dt * 60
            + Datetime.second dt) / 3600) with (Datetime.hour dt)
    by (Z.div_mod_to_equations; lia).
  replace ((Datetime.hour dt * 3600 + Datetime.minute dt * 60
            + Datetime.second dt) mod 3600 / 60) with (Datetime.minute dt)
    by (Z.div_mod_to_equations; lia).
  replace ((Datetime.hour dt * 3600 + Datetime.minute dt * 60
            + Datetime.second dt) mod 3600 mod 60) with (Datetime.second dt)
    by (Z.div_mod_to_equations; lia).
  apply datetime_new_eta, Hwf.
Qed.

(** ** Moving a datetime by months *)

Lemma monthrange_days (y m : Z) :
  1 <= m <= 12 ->
  Relativedelta.monthrange y m = Ok (Datetime._days_in_month y m).
Proof.
  intros Hm.
  unfold Relativedelta.monthrange, Datetime._days_in_month, Isoparser.isleap,
    Datetime._is_leap.
  destruct (Z.leb_spec 1 m); [|lia]. destruct (Z.leb_spec m 12); [|lia].
  cbn [andb negb].
  by_month Hm;
    destruct ((y mod 4 =? 0) && (negb (y mod 100 =? 0) || (y mod 400 =? 0)));
    month_table; reflexivity.
Qed.

Lemma set_months_twice (k k' : Z) :
  Relativedelta._set_months (Relativedelta._set_months no_delta k) k'
  = Relativedelta._set_months no_delta k'.
Proof.
  unfold Relativedelta._set_months.
  destruct (11 <? Z.abs k); destruct (11 <? Z.abs k'); reflexivity.
Qed.

Lemma shift_months_zero (dt : Datetime.datetime) :
  well_formed dt = true -> shift_months dt 0 = dt.
Proof.
  intros Hwf.
  pose proof (well_formed_checks dt Hwf) as [Hd _].
  apply check_date_fields_ok in Hd as (Hy & Hm & Hd).
  unfold shift_months. cbv zeta.
  replace ((Datetime.year dt * 12 + (Datetime.month dt - 1) + 0) / 12)
    with (Datetime.year dt) by (Z.div_mod_to_equations; lia).
  replace ((Datetime.year dt * 12 + (Datetime.month dt - 1) + 0) mod 12 + 1)
    with (Datetime.month dt) by (Z.div_mod_to_equations; lia).
  rewrite Z.min_r by lia. destruct dt. reflexivity.
Qed.

Lemma shift_months_well_formed (dt : Datetime.datetime) (n : Z) :
  well_formed dt = true ->
  12 <= Datetime.year dt * 12 + (Datetime.month dt - 1) + n < 120000 ->
  well_formed (shift_months dt n) = true.
Proof.
  intros Hwf Ht.
  pose proof (well_formed_checks dt Hwf) as [Hd Htime].
  apply check_date_fields_ok in Hd as (Hy & Hm & Hd).
  unfold well_formed, shift_months, Datetime.new.
  cbn [Datetime.year Datetime.month Datetime.day Datetime.hour Datetime.minute
       Datetime.second Datetime.microsecond Datetime.tz].
  set (t := Datetime.year dt * 12 + (Datetime.month dt - 1) + n) in *.
  assert (HM : 1 <= t mod 12 + 1 <= 12) by (Z.div_mod_to_equations; lia).
  pose proof (days_in_month_bounds (t / 12) (t mod 12 + 1) HM) as Hdim.
  rewrite (proj2 (check_date_fields_ok _ _ _)).
  - cbn [mbind result_bind]. rewrite Htime. reflexivity.
  - split; [Z.div_mod_to_equations; lia|]. split; [exact HM|]. lia.
Qed.

Lemma shift_months_index (dt : Datetime.datetime) (n : Z) :
  Datetime.year (shift_months dt n) * 12 + (Datetime.month (shift_months dt n) - 1)
  = Datetime.year dt * 12 + (Datetime.month dt - 1) + n
  /\ 1 <= Datetime.month (shift_months dt n) <= 12.
Proof.
  unfold shift_months. cbn [Datetime.year Datetime.month].
  Z.div_mod_to_equations. lia.
Qed.

(** [__radd__] of an object that holds [n] months only. *)
Lemma radd_set_months (other : Datetime.datetime) (n : Z) :
  well_formed other = true ->
  12 <= Datetime.year other * 12 + (Datetime.month other - 1) + n < 120000 ->
  Relativedelta.__radd__ (Relativedelta._set_months no_delta n) other
  = Ok (shift_months other n).
Proof.
  intros Hwf Ht.
  pose proof (shift_months_well_formed other n Hwf Ht) as Hshift.
  pose proof (well_formed_checks other Hwf) as [Hd Htime].
  apply check_date_fields_ok in Hd as (Hy & Hm & Hd).
  set (t := Datetime.year other * 12 + (Datetime.month other - 1) + n) in *.
  assert (HM : 1 <= t mod 12 + 1 <= 12) by (Z.div_mod_to_equations; lia).
  unfold Relativedelta.__radd__.
  match goal with
  | |- context [match ?e with pair _ _ => _ end] =>
      assert (Hym : e = (t / 12, t mod 12 + 1))
  end.
  { unfold Relativedelta._set_months, Relativedelta._sign, no_delta.
    destruct (Z.ltb_spec 11 (Z.abs n)); destruct (Z.ltb_spec n 0);
      cbn [Relativedelta.years Relativedelta.months];
      rewrite ?Z.mul_1_r;
      repeat match goal with
             | |- context [?a =? 0] => destruct (Z.eqb_spec a 0)
             end;
      repeat match goal with
             | |- context [?a <? ?b] => destruct (Z.ltb_spec a b)
             end;
      subst t; f_equal; Z.div_mod_to_equations; lia. }
  rewrite Hym. clear Hym.
  rewrite (monthrange_days _ _ HM). cbn [mbind result_bind].
  assert (Hleap : Relativedelta.leapdays (Relativedelta._set_months no_delta n)
                  = 0).
  { unfold Relativedelta._set_months. destruct (11 <? Z.abs n); reflexivity. }
  assert (Hdays : Relativedelta.days (Relativedelta._set_months no_delta n) = 0).
  { unfold Relativedelta._set_months. destruct (11 <? Z.abs n); reflexivity. }
  assert (Hhours : Relativedelta.hours (Relativedelta._set_months no_delta n)
                   = 0).
  { unfold Relativedelta._set_months. destruct (11 <? Z.abs n); reflexivity. }
  assert (Hminutes :
            Relativedelta.minutes (Relativedelta._set_months no_delta n) = 0).
  { unfold Relativedelta._set_months. destruct (11 <? Z.abs n); reflexivity. }
  assert (Hseconds :
            Relativedelta.seconds (Relativedelta._set_months no_delta n) = 0).
  { unfold Relativedelta._set_months. destruct (11 <? Z.abs n); reflexivity. }
  assert (Hus :
            Relativedelta.microseconds (Relativedelta._set_months no_delta n)
            = 0).
  { unfold Relativedelta._set_months. destruct (11 <? Z.abs n); reflexivity. }
  rewrite Hleap, Hdays, Hhours, Hminutes, Hseconds, Hus.
  change (negb (0 =? 0)) with false. cbn [andb].
  change (Datetime.timedelta_new 0 (0 + 0 * 60 + 0 * 3600) 0)
    with (Ok {| Datetime.days := 0; Datetime.seconds := 0;
                Datetime.microseconds := 0 |}).
  assert (Hnew :
    Datetime.new (t / 12) (t mod 12 + 1)
      (Z.min (Datetime._days_in_month (t / 12) (t mod 12 + 1))
             (Datetime.day other))
      (Datetime.hour other) (Datetime.minute other) (Datetime.second other)
      (Datetime.microsecond other) (Datetime.tz other)
    = Ok (shift_months other n)).
  { exact (datetime_new_eta _ Hshift). }
  rewrite Hnew. cbn [mbind result_bind].
  apply datetime_add_zero, Hshift.
Qed.

(** ** relativedelta(dt1, dt2) *)

Lemma datetime_cmp_naive (a b : Datetime.datetime) :
  Datetime.tz a = None -> Datetime.tz b = None ->
  Relativedelta.datetime_cmp a b
  = Ok (Relativedelta._cmp (fields_of a) (fields_of b)).
Proof.
  intros Ha Hb. unfold Relativedelta.datetime_cmp. rewrite Ha, Hb. reflexivity.
Qed.

Lemma datetime_cmp_mixed (a b : Datetime.datetime) (tz : Datetime.tzinfo) :
  Datetime.tz a = None -> Datetime.tz b = Some tz ->
  Relativedelta.datetime_cmp a b = Raise TypeError.
Proof.
  intros Ha Hb. unfold Relativedelta.datetime_cmp. rewrite Ha, Hb. reflexivity.
Qed.

(** The earlier month is the earlier datetime. *)
Lemma cmp_by_month (a b : Datetime.datetime) :
  1 <= Datetime.month a <= 12 -> 1 <= Datetime.month b <= 12 ->
  (Datetime.year a * 12 + (Datetime.month a - 1)
   < Datetime.year b * 12 + (Datetime.month b - 1) ->
   Relativedelta._cmp (fields_of a) (fields_of b) = -1)
  /\ (Datetime.year b * 12 + (Datetime.month b - 1)
      < Datetime.year a * 12 + (Datetime.month a - 1) ->
      Relativedelta._cmp (fields_of a) (fields_of b) = 1).
Proof.
  intros Ha Hb. unfold fields_of. cbn [Relativedelta._cmp].
  destruct (Z.ltb_spec (Datetime.year a) (Datetime.year b));
    destruct (Z.ltb_spec (Datetime.year b) (Datetime.year a));
    destruct (Z.ltb_spec (Datetime.month a) (Datetime.month b));
    destruct (Z.ltb_spec (Datetime.month b) (Datetime.month a));
    split; intros; try reflexivity; lia.
Qed.

Lemma adjust_step (fuel : nat) compare increment dt1 dt2 self months dtm :
  Relativedelta.adjust (S fuel) compare increment dt1 dt2 self months dtm
  = match compare dt1 dtm with
    | Raise e => Some (Raise e)
    | Ok false => Some (Ok (self, dtm))
    | Ok true =>
        match Relativedelta.__radd__
                (Relativedelta._set_months self (months + increment)) dt2 with
        | Raise e => Some (Raise e)
        | Ok dtm' =>
            Relativedelta.adjust fuel compare increment dt1 dt2
              (Relativedelta._set_months self (months + increment))
              (months + increment) dtm'
        end
    end.
Proof. reflexivity. Qed.

Lemma shift_months_naive (dt : Datetime.datetime) (n : Z) :
  Datetime.tz dt = None -> Datetime.tz (shift_months dt n) = None.
Proof. intros H. exact H. Qed.

(** For two naive datetimes the loop of the constructor ends after one
    adjustment at most, and the object holds the months between the two and
    the time from [dt2], moved by these months, to [dt1]. *)
Lemma new_naive (fuel : nat) (dt1 dt2 : Datetime.datetime) :
  Datetime.tz dt1 = None -> Datetime.tz dt2 = None ->
  well_formed dt1 = true -> well_formed dt2 = true ->
  (2 <= fuel)%nat ->
  let k := months_between dt1 dt2 in
  exists delta,
    well_formed (shift_months dt2 k) = true
    /\ Datetime.sub dt1 (shift_months dt2 k) = Ok delta
    /\ Relativedelta.new fuel dt1 dt2
       = Some (Ok (Relativedelta._fix
                     (Relativedelta.set_delta
                        (Relativedelta._set_months no_delta k) delta))).
Proof.
  intros Hz1 Hz2 Hwf1 Hwf2 Hfuel.
  destruct fuel as [|[|fuel]]; try lia. clear Hfuel.
  pose proof (well_formed_fields dt1 Hwf1) as (Hy1 & Hm1 & _).
  pose proof (well_formed_fields dt2 Hwf2) as (Hy2 & Hm2 & _).
  unfold months_between.
  set (k0 := (Datetime.year dt1 - Datetime.year dt2) * 12
             + (Datetime.month dt1 - Datetime.month dt2)).
  set (c12 := Relativedelta._cmp (fields_of dt1) (fields_of dt2)).
  set (c := Relativedelta._cmp (fields_of dt1) (fields_of (shift_months dt2 k0))).
  cbv zeta.
  assert (Hidx0 : Datetime.year dt2 * 12 + (Datetime.month dt2 - 1) + k0
                  = Datetime.year dt1 * 12 + (Datetime.month dt1 - 1))
    by (subst k0; lia).
  assert (Hradd0 : Relativedelta.__radd__
                     (Relativedelta._set_months no_delta k0) dt2
                   = Ok (shift_months dt2 k0)).
  { apply radd_set_months; [exact Hwf2|lia]. }
  pose proof (shift_months_index dt2 k0) as [Hi0 Hmo0].
  (* the number of months when [dt2] moved by [k0] is [dt2] itself *)
  assert (Hsame : Datetime.year dt1 * 12 + (Datetime.month dt1 - 1)
                  = Datetime.year dt2 * 12 + (Datetime.month dt2 - 1) ->
                  c = c12).
  { intros E. assert (k0 = 0) as Hk by lia. subst c c12.
    rewrite Hk, shift_months_zero by exact Hwf2. reflexivity. }
  pose proof (cmp_by_month dt1 dt2 Hm1 Hm2) as [Hlt12 Hgt12].
  fold c12 in Hlt12, Hgt12.
  (* the final number of months and the facts about it *)
  assert (Hfinal : forall k,
    12 <= Datetime.year dt2 * 12 + (Datetime.month dt2 - 1) + k < 120000 ->
    exists delta,
      well_formed (shift_months dt2 k) = true
      /\ Datetime.sub dt1 (shift_months dt2 k) = Ok delta).
  { intros k Hk.
    pose proof (shift_months_well_formed dt2 k Hwf2 Hk) as Hwfk.
    destruct (sub_naive dt1 (shift_months dt2 k) Hz1
                (shift_months_naive dt2 k Hz2) Hwf1 Hwfk) as (delta & Hsub & _).
    exists delta. split; [exact Hwfk|exact Hsub]. }
  unfold Relativedelta.new. fold no_delta. fold k0. cbv zeta.
  rewrite Hradd0.
  unfold Relativedelta.lt at 1.
  rewrite (datetime_cmp_naive dt1 dt2 Hz1 Hz2). fold c12.
  cbn [mbind result_bind].
  destruct (Z.ltb_spec c12 0) as [Hless|Hless].
  - (* dt1 < dt2: compare is [gt], increment is 1 *)
    rewrite adjust_step. unfold Relativedelta.gt at 1.
    rewrite (datetime_cmp_naive dt1 (shift_months dt2 k0) Hz1
               (shift_months_naive dt2 k0 Hz2)).
    fold c. cbn [mbind result_bind].
    destruct (Z.ltb_spec 0 c) as [Hover|Hover].
    + assert (Hidx : Datetime.year dt1 * 12 + (Datetime.month dt1 - 1)
                     < Datetime.year dt2 * 12 + (Datetime.month dt2 - 1)).
      { destruct (Z.lt_trichotomy
                    (Datetime.year dt1 * 12 + (Datetime.month dt1 - 1))
                    (Datetime.year dt2 * 12 + (Datetime.month dt2 - 1)))
          as [H|[H|H]]; [exact H| |].
        - specialize (Hsame H). lia.
        - specialize (Hgt12 H). lia. }
      rewrite set_months_twice.
      rewrite radd_set_months by (try exact Hwf2; lia).
      rewrite adjust_step. unfold Relativedelta.gt at 1.
      rewrite (datetime_cmp_naive dt1 (shift_months dt2 (k0 + 1)) Hz1
                 (shift_months_naive dt2 (k0 + 1) Hz2)).
      pose proof (shift_months_index dt2 (k0 + 1)) as [Hi1 Hmo1].
      rewrite (proj1 (cmp_by_month dt1 (shift_months dt2 (k0 + 1)) Hm1 Hmo1))
        by lia.
      cbn [mbind result_bind].
      change (0 <? -1) with false. cbv iota.
      destruct (Hfinal (k0 + 1) ltac:(lia)) as (delta & Hwfk & Hsub).
      exists delta. split; [exact Hwfk|]. split; [exact Hsub|].
      cbn [mbind result_bind]. rewrite Hsub. reflexivity.
    + destruct (Hfinal k0 ltac:(lia)) as (delta & Hwfk & Hsub).
      exists delta. split; [exact Hwfk|]. split; [exact Hsub|].
      cbn [mbind result_bind]. rewrite Hsub. reflexivity.
  - (* dt1 >= dt2: compare is [lt], increment is -1 *)
    rewrite adjust_step. unfold Relativedelta.lt at 1.
    rewrite (datetime_cmp_naive dt1 (shift_months dt2 k0) Hz1
               (shift_months_naive dt2 k0 Hz2)).
    fold c. cbn [mbind result_bind].
    destruct (Z.ltb_spec c 0) as [Hover|Hover].
    + assert (Hidx : Datetime.year dt2 * 12 + (Datetime.month dt2 - 1)
                     < Datetime.year dt1 * 12 + (Datetime.month dt1 - 1)).
      { destruct (Z.lt_trichotomy
                    (Datetime.year dt1 * 12 + (Datetime.month dt1 - 1))
                    (Datetime.year dt2 * 12 + (Datetime.month dt2 - 1)))
          as [H|[H|H]]; [| |exact H].
        - specialize (Hlt12 H). lia.
        - specialize (Hsame H). lia. }
      rewrite set_months_twice.
      replace (k0 + -1) with (k0 - 1) by lia.
      rewrite radd_set_months by (try exact Hwf2; lia).
      rewrite adjust_step. unfold Relativedelta.lt at 1.
      rewrite (datetime_cmp_naive dt1 (shift_months dt2 (k0 - 1)) Hz1
                 (shift_months_naive dt2 (k0 - 1) Hz2)).
      pose proof (shift_months_index dt2 (k0 - 1)) as [Hi1 Hmo1].
      rewrite (proj2 (cmp_by_month dt1 (shift_months dt2 (k0 - 1)) Hm1 Hmo1))
        by lia.
      cbn [mbind result_bind].
      change (1 <? 0) with false. cbv iota.
      destruct (Hfinal (k0 - 1) ltac:(lia)) as (delta & Hwfk & Hsub).
      exists delta. split; [exact Hwfk|]. split; [exact Hsub|].
      cbn [mbind result_bind]. rewrite Hsub. reflexivity.
    + destruct (Hfinal k0 ltac:(lia)) as (delta & Hwfk & Hsub).
      exists delta. split; [exact Hwfk|]. split; [exact Hsub|].
      cbn [mbind result_bind]. rewrite Hsub. reflexivity.
Qed.

(** ** The order of naive datetimes *)

(** The first day of a later month comes after the last day of an earlier
    one. *)
Lemma month_start_mono (y m y' m' : Z) :
  1 <= m <= 12 -> 1 <= m' <= 12 ->
  y * 12 + m < y' * 12 + m' ->
  Datetime._days_before_year y + Datetime._days_before_month y m
  + Datetime._days_in_month y m
  <= Datetime._days_before_year y' + Datetime._days_before_month y' m'.
Proof.
  intros Hm Hm' Hlt.
  destruct (Z.eq_dec y y') as [<-|Hne].
  - pose proof (days_before_month_mono y m m' ltac:(lia) ltac:(lia) ltac:(lia)).
    lia.
  - assert (Hy : y + 1 <= y') by lia.
    pose proof (days_before_year_mono (y + 1) y' Hy) as H1.
    pose proof (days_before_year_succ y) as H2.
    pose proof (days_before_month_bounds y m Hm) as [_ H3].
    pose proof (days_before_month_bounds y' m' Hm') as [H4 _].
    lia.
Qed.

Lemma toordinal_month_start (dt : Datetime.datetime) :
  Datetime.toordinal dt
  = Datetime._days_before_year (Datetime.year dt)
    + Datetime._days_before_month (Datetime.year dt) (Datetime.month dt)
    + Datetime.day dt.
Proof. reflexivity. Qed.

Lemma well_formed_day (dt : Datetime.datetime) :
  well_formed dt = true ->
  1 <= Datetime.month dt <= 12
  /\ 1 <= Datetime.day dt
     <= Datetime._days_in_month (Datetime.year dt) (Datetime.month dt).
Proof.
  intros H. apply well_formed_checks in H as [H _].
  apply check_date_fields_ok in H. lia.
Qed.

(** The comparison of the fields is the comparison of the instants. *)
Lemma cmp_microseconds (a b : Datetime.datetime) :
  well_formed a = true -> well_formed b = true ->
  (Relativedelta._cmp (fields_of a) (fields_of b) = -1
   /\ microseconds_of a < microseconds_of b)
  \/ (Relativedelta._cmp (fields_of a) (fields_of b) = 0
      /\ microseconds_of a = microseconds_of b)
  \/ (Relativedelta._cmp (fields_of a) (fields_of b) = 1
      /\ microseconds_of b < microseconds_of a).
Proof.
  intros Ha Hb.
  pose proof (well_formed_fields a Ha) as (_ & _ & _ & ? & ? & ? & ?).
  pose proof (well_formed_fields b Hb) as (_ & _ & _ & ? & ? & ? & ?).
  pose proof (well_formed_day a Ha) as [Hma Hda].
  pose proof (well_formed_day b Hb) as [Hmb Hdb].
  pose proof (month_start_mono (Datetime.year a) (Datetime.month a)
                (Datetime.year b) (Datetime.month b) Hma Hmb) as Hab.
  pose proof (month_start_mono (Datetime.year b) (Datetime.month b)
                (Datetime.year a) (Datetime.month a) Hmb Hma) as Hba.
  assert (Hsame : Datetime.year a = Datetime.year b ->
                  Datetime.month a = Datetime.month b ->
                  Datetime.toordinal a - Datetime.toordinal b
                  = Datetime.day a - Datetime.day b).
  { intros Ey Em. rewrite !toordinal_month_start, Ey, Em. lia. }
  unfold microseconds_of. rewrite !toordinal_month_start in *.
  unfold fields_of. cbn [Relativedelta._cmp].
  repeat (match goal with
          | |- context [if ?x <? ?y then _ else _] =>
              destruct (Z.ltb_spec x y)
          end; cbv iota);
    first [left; split; [reflexivity|nia]
          |right; left; split; [reflexivity|nia]
          |right; right; split; [reflexivity|nia]].
Qed.

(** A month later is 28 days later at least, and so for a month earlier. *)
Lemma shift_months_next (dt : Datetime.datetime) :
  well_formed dt = true ->
  microseconds_of dt + 28 * 86400000000
  <= microseconds_of (shift_months dt 1).
Proof.
  intros Hwf. pose proof (well_formed_day dt Hwf) as [Hm Hd].
  pose proof (shift_months_index dt 1) as [Hi Hmo].
  pose proof (month_start_mono (Datetime.year dt) (Datetime.month dt)
                (Datetime.year (shift_months dt 1))
                (Datetime.month (shift_months dt 1)) Hm Hmo ltac:(lia)) as H.
  pose proof (days_in_month_bounds (Datetime.year dt) (Datetime.month dt) Hm).
  pose proof (days_in_month_bounds (Datetime.year (shift_months dt 1))
                (Datetime.month (shift_months dt 1)) Hmo).
  unfold microseconds_of. rewrite !toordinal_month_start.
  change (Datetime.day (shift_months dt 1))
    with (Z.min (Datetime._days_in_month (Datetime.year (shift_months dt 1))
                   (Datetime.month (shift_months dt 1))) (Datetime.day dt)).
  change (Datetime.hour (shift_months dt 1)) with (Datetime.hour dt).
  change (Datetime.minute (shift_months dt 1)) with (Datetime.minute dt).
  change (Datetime.second (shift_months dt 1)) with (Datetime.second dt).
  change (Datetime.microsecond (shift_months dt 1))
    with (Datetime.microsecond dt).
  lia.
Qed.

Lemma shift_months_previous (dt : Datetime.datetime) :
  well_formed dt = true ->
  microseconds_of (shift_months dt (-1)) + 28 * 86400000000
  <= microseconds_of dt.
Proof.
  intros Hwf. pose proof (well_formed_day dt Hwf) as [Hm Hd].
  pose proof (shift_months_index dt (-1)) as [Hi Hmo].
  pose proof (month_start_mono (Datetime.year (shift_months dt (-1)))
                (Datetime.month (shift_months dt (-1)))
                (Datetime.year dt) (Datetime.month dt) Hmo Hm ltac:(lia)) as H.
  pose proof (days_in_month_bounds (Datetime.year dt) (Datetime.month dt) Hm).
  pose proof (days_in_month_bounds (Datetime.year (shift_months dt (-1)))
                (Datetime.month (shift_months dt (-1))) Hmo).
  unfold microseconds_of. rewrite !toordinal_month_start.
  change (Datetime.day (shift_months dt (-1)))
    with (Z.min (Datetime._days_in_month (Datetime.year (shift_months dt (-1)))
                   (Datetime.month (shift_months dt (-1)))) (Datetime.day dt)).
  change (Datetime.hour (shift_months dt (-1))) with (Datetime.hour dt).
  change (Datetime.minute (shift_months dt (-1))) with (Datetime.minute dt).
  change (Datetime.second (shift_months dt (-1))) with (Datetime.second dt).
  change (Datetime.microsecond (shift_months dt (-1)))
    with (Datetime.microsecond dt).
  lia.
Qed.

(** Two months apart are 28 days apart at least. *)
Lemma two_months_apart (a b : Datetime.datetime) :
  well_formed a = true -> well_formed b = true ->
  Datetime.year b * 12 + (Datetime.month b - 1) + 2
  <= Datetime.year a * 12 + (Datetime.month a - 1) ->
  microseconds_of b + 28 * 86400000000 <= microseconds_of a.
Proof.
  intros Ha Hb Hidx.
  pose proof (well_formed_fields a Ha) as (_ & _ & _ & ? & ? & ? & ?).
  pose proof (well_formed_fields b Hb) as (_ & _ & _ & ? & ? & ? & ?).
  pose proof (well_formed_day a Ha) as [Hma Hda].
  pose proof (well_formed_day b Hb) as [Hmb Hdb].
  pose proof (shift_months_index b 1) as [Hi Hmo].
  pose proof (month_start_mono (Datetime.year b) (Datetime.month b)
                (Datetime.year (shift_months b 1))
                (Datetime.month (shift_months b 1)) Hmb Hmo ltac:(lia)) as Hstep1.
  pose proof (month_start_mono (Datetime.year (shift_months b 1))
                (Datetime.month (shift_months b 1))
                (Datetime.year a) (Datetime.month a) Hmo Hma ltac:(lia)) as Hstep2.
  pose proof (days_in_month_bounds (Datetime.year (shift_months b 1))
                (Datetime.month (shift_months b 1)) Hmo).
  unfold microseconds_of. rewrite !toordinal_month_start. lia.
Qed.

(** Datetimes less than 28 days apart: no whole month lies between them. *)
Lemma months_between_short (a b : Datetime.datetime) :
  well_formed a = true -> well_formed b = true ->
  - (28 * 86400000000) < microseconds_of a - microseconds_of b
    < 28 * 86400000000 ->
  months_between a b = 0.
Proof.
  intros Ha Hb Hspan.
  pose proof (well_formed_fields a Ha) as (Hya & Hma & _).
  pose proof (well_formed_fields b Hb) as (Hyb & Hmb & _).
  unfold months_between.
  set (k0 := (Datetime.year a - Datetime.year b) * 12
             + (Datetime.month a - Datetime.month b)).
  cbv zeta.
  assert (Hk0 : -1 <= k0 <= 1).
  { destruct (Z_le_gt_dec 2 k0) as [H2|H2].
    - pose proof (two_months_apart a b Ha Hb ltac:(subst k0; lia)). lia.
    - destruct (Z_le_gt_dec k0 (-2)) as [H3|H3]; [|lia].
      pose proof (two_months_apart b a Hb Ha ltac:(subst k0; lia)). lia. }
  pose proof (cmp_microseconds a b Ha Hb) as C12.
  pose proof (cmp_by_month a b Hma Hmb) as [Hlt Hgt].
  assert (Hcase : k0 = -1 \/ k0 = 0 \/ k0 = 1) by lia.
  destruct Hcase as [Hk|[Hk|Hk]]; rewrite Hk.
  - assert (Hwfs : well_formed (shift_months b (-1)) = true).
    { apply shift_months_well_formed; [exact Hb|subst k0; lia]. }
    pose proof (shift_months_previous b Hb) as Hprev.
    pose proof (cmp_microseconds a (shift_months b (-1)) Ha Hwfs) as C.
    rewrite Hlt by (subst k0; lia). change (-1 <? 0) with true. cbv iota.
    destruct C as [[C ?]|[[C ?]|[C ?]]]; rewrite C; try lia. reflexivity.
  - rewrite shift_months_zero by exact Hb.
    destruct C12 as [[C ?]|[[C ?]|[C ?]]]; rewrite C; reflexivity.
  - assert (Hwfs : well_formed (shift_months b 1) = true).
    { apply shift_months_well_formed; [exact Hb|subst k0; lia]. }
    pose proof (shift_months_next b Hb) as Hnext.
    pose proof (cmp_microseconds a (shift_months b 1) Ha Hwfs) as C.
    rewrite Hgt by (subst k0; lia). change (1 <? 0) with false. cbv iota.
    destruct C as [[C ?]|[[C ?]|[C ?]]]; rewrite C; try lia. reflexivity.
Qed.

(** ** The fields of the object *)

Lemma timedelta_new_range (d s us : Z) (delta : Datetime.timedelta) :
  Datetime.timedelta_new d s us = Ok delta ->
  0 <= Datetime.seconds delta < 86400
  /\ 0 <= Datetime.microseconds delta < 1000000.
Proof.
  unfold Datetime.timedelta_new.
  destruct (999999999 <? _); [discriminate|].
  intros [= <-]. cbn [Datetime.seconds Datetime.microseconds].
  Z.div_mod_to_equations. lia.
Qed.

Lemma sub_naive_fields (a b : Datetime.datetime) (delta : Datetime.timedelta) :
  Datetime.tz a = None -> Datetime.tz b = None ->
  Datetime.sub a b = Ok delta ->
  (Datetime.days delta * 86400 + Datetime.seconds delta) * 1000000
  + Datetime.microseconds delta
  = microseconds_of a - microseconds_of b
  /\ 0 <= Datetime.microseconds delta < 1000000.
Proof.
  intros Ha Hb. unfold Datetime.sub. rewrite Ha, Hb.
  destruct (Datetime.timedelta_new _ _ _) as [base|] eqn:E;
    cbn [mbind result_bind]; [|discriminate].
  intros [= <-].
  pose proof (timedelta_new_total _ _ _ _ E) as Ht.
  pose proof (timedelta_new_range _ _ _ _ E) as [_ Hr].
  change (10 ^ 6) with 1000000 in Ht.
  split; [|exact Hr]. unfold microseconds_of. lia.
Qed.

(** One step of [_fix]: the part of a field beyond its range is carried
    into the next field, with the sign of the field. *)
Lemma fix_stage (x acc M N : Z) :
  0 < N -> M = N - 1 ->
  (if M <? Z.abs x
   then (x * Relativedelta._sign x mod N * Relativedelta._sign x,
         acc + x * Relativedelta._sign x / N * Relativedelta._sign x)
   else (x, acc))
  = (Z.sgn x * (Z.abs x mod N), acc + Z.sgn x * (Z.abs x / N)).
Proof.
  intros HN ->. unfold Relativedelta._sign.
  destruct (Z.ltb_spec x 0) as [Hx|Hx].
  - rewrite (Z.sgn_neg x Hx), (Z.abs_neq x) by lia.
    replace (x * -1) with (- x) by lia.
    destruct (Z.ltb_spec (N - 1) (- x)); [f_equal; lia|].
    rewrite Z.mod_small, Z.div_small by lia. f_equal; lia.
  - rewrite (Z.abs_eq x) by lia. rewrite !Z.mul_1_r.
    destruct (Z.ltb_spec (N - 1) x) as [Hb|Hb].
    + rewrite (Z.sgn_pos x) by lia. f_equal; lia.
    + rewrite Z.mod_small, Z.div_small by lia.
      destruct (Z.eq_dec x 0) as [->|Hne]; [cbn [Z.sgn]; f_equal; lia|].
      rewrite (Z.sgn_pos x) by lia. f_equal; lia.
Qed.

Lemma abs_stage_mod (x N : Z) :
  0 < N -> Z.abs (Z.sgn x * (Z.abs x mod N)) = Z.abs x mod N.
Proof.
  intros HN. pose proof (Z.mod_pos_bound (Z.abs x) N HN).
  destruct x as [|p|p]; cbn [Z.sgn Z.abs]; [reflexivity| |];
    set (r := Z.pos p mod N) in *; lia.
Qed.

Lemma abs_stage_div (x N : Z) :
  0 < N -> Z.abs (0 + Z.sgn x * (Z.abs x / N)) = Z.abs x / N.
Proof.
  intros HN. pose proof (Z.div_pos (Z.abs x) N ltac:(lia) HN).
  destruct x as [|p|p]; cbn [Z.sgn Z.abs] in *; [reflexivity| |];
    set (q := Z.pos p / N) in *; lia.
Qed.

(** [_fix] in closed form. *)
Lemma fix_closed (self : Relativedelta.relativedelta) :
  let us := Relativedelta.microseconds self in
  let s := Relativedelta.seconds self + Z.sgn us * (Z.abs us / 1000000) in
  let m := Relativedelta.minutes self + Z.sgn s * (Z.abs s / 60) in
  let h := Relativedelta.hours self + Z.sgn m * (Z.abs m / 60) in
  let mo := Relativedelta.months self in
  Relativedelta._fix self
  = {| Relativedelta.years :=
         Relativedelta.years self + Z.sgn mo * (Z.abs mo / 12);
       Relativedelta.months := Z.sgn mo * (Z.abs mo mod 12);
       Relativedelta.days :=
         Relativedelta.days self + Z.sgn h * (Z.abs h / 24);
       Relativedelta.leapdays := Relativedelta.leapdays self;
       Relativedelta.hours := Z.sgn h * (Z.abs h mod 24);
       Relativedelta.minutes := Z.sgn m * (Z.abs m mod 60);
       Relativedelta.seconds := Z.sgn s * (Z.abs s mod 60);
       Relativedelta.microseconds := Z.sgn us * (Z.abs us mod 1000000) |}.
Proof.
  unfold Relativedelta._fix. cbv zeta.
  rewrite (fix_stage (Relativedelta.microseconds self)
             (Relativedelta.seconds self) 999999 1000000) by lia.
  cbv iota beta.
  rewrite (fix_stage _ (Relativedelta.minutes self) 59 60) by lia.
  cbv iota beta.
  rewrite (fix_stage _ (Relativedelta.hours self) 59 60) by lia.
  cbv iota beta.
  rewrite (fix_stage _ (Relativedelta.days self) 23 24) by lia.
  cbv iota beta.
  rewrite (fix_stage _ (Relativedelta.years self) 11 12) by lia.
  reflexivity.
Qed.

Lemma stage_in_range (x N : Z) :
  0 < N -> Z.abs x < N ->
  Z.sgn x * (Z.abs x mod N) = x /\ Z.sgn x * (Z.abs x / N) = 0.
Proof.
  intros HN Hx. rewrite Z.mod_small, Z.div_small by lia.
  destruct x as [|p|p]; cbn [Z.sgn Z.abs]; lia.
Qed.

(** [_fix] leaves an object whose fields are in their ranges as it is. *)
Lemma fix_normal (self : Relativedelta.relativedelta) :
  Z.abs (Relativedelta.microseconds self) < 1000000 ->
  Z.abs (Relativedelta.seconds self) < 60 ->
  Z.abs (Relativedelta.minutes self) < 60 ->
  Z.abs (Relativedelta.hours self) < 24 ->
  Z.abs (Relativedelta.months self) < 12 ->
  Relativedelta._fix self = self.
Proof.
  intros Hus Hs Hm Hh Hmo. rewrite fix_closed. cbv zeta.
  destruct (stage_in_range _ 1000000 ltac:(lia) Hus) as [Eus1 Eus2].
  rewrite Eus1, Eus2, Z.add_0_r.
  destruct (stage_in_range _ 60 ltac:(lia) Hs) as [Es1 Es2].
  rewrite Es1, Es2, Z.add_0_r.
  destruct (stage_in_range _ 60 ltac:(lia) Hm) as [Em1 Em2].
  rewrite Em1, Em2, Z.add_0_r.
  destruct (stage_in_range _ 24 ltac:(lia) Hh) as [Eh1 Eh2].
  rewrite Eh1, Eh2, Z.add_0_r.
  destruct (stage_in_range _ 12 ltac:(lia) Hmo) as [Emo1 Emo2].
  rewrite Emo1, Emo2, Z.add_0_r.
  destruct self. reflexivity.
Qed.

(** After [_fix], [abs] takes the absolute value of every field: the
    constructor it calls finds the fields in their ranges. *)
Lemma abs_after_fix (self : Relativedelta.relativedelta) :
  Relativedelta.abs (Relativedelta._fix self)
  = {| Relativedelta.years :=
         Z.abs (Relativedelta.years (Relativedelta._fix self));
       Relativedelta.months :=
         Z.abs (Relativedelta.months (Relativedelta._fix self));
       Relativedelta.days :=
         Z.abs (Relativedelta.days (Relativedelta._fix self));
       Relativedelta.leapdays :=
         Relativedelta.leapdays (Relativedelta._fix self);
       Relativedelta.hours :=
         Z.abs (Relativedelta.hours (Relativedelta._fix self));
       Relativedelta.minutes :=
         Z.abs (Relativedelta.minutes (Relativedelta._fix self));
       Relativedelta.seconds :=
         Z.abs (Relativedelta.seconds (Relativedelta._fix self));
       Relativedelta.microseconds :=
         Z.abs (Relativedelta.microseconds (Relativedelta._fix self)) |}.
Proof.
  unfold Relativedelta.abs, Relativedelta.keywords.
  apply fix_normal;
    cbn [Relativedelta.microseconds Relativedelta.seconds
         Relativedelta.minutes Relativedelta.hours Relativedelta.months];
    rewrite fix_closed; cbv zeta;
    cbn [Relativedelta.microseconds Relativedelta.seconds
         Relativedelta.minutes Relativedelta.hours Relativedelta.months];
    rewrite Z.abs_idemp, abs_stage_mod by lia;
    apply Z.mod_pos_bound; lia.
Qed.

(** After [_fix] and [abs] every field that [humanize_delta] reads is in its
    range. *)
Lemma fix_abs_ranges (self : Relativedelta.relativedelta) :
  let delta := fields_read (Relativedelta.abs (Relativedelta._fix self)) in
  0 <= years delta /\ 0 <= months delta <= 11 /\ 0 <= days delta
  /\ 0 <= hours delta <= 23 /\ 0 <= minutes delta <= 59
  /\ 0 <= seconds delta <= 59.
Proof.
  rewrite abs_after_fix, fix_closed. cbv zeta.
  cbn [fields_read years months days hours minutes seconds
       Relativedelta.years Relativedelta.months Relativedelta.days
       Relativedelta.hours Relativedelta.minutes Relativedelta.seconds].
  rewrite !abs_stage_mod by lia.
  repeat match goal with
         | |- context [Z.abs ?x mod ?N] =>
             lazymatch goal with
             | _ : 0 <= Z.abs x mod N < N |- _ => fail
             | _ => pose proof (Z.mod_pos_bound (Z.abs x) N ltac:(lia))
             end
         end.
  repeat split; try apply Z.abs_nonneg; lia.
Qed.

(** The fields of a span of less than a month. *)
Lemma fix_short_span (delta : Datetime.timedelta) :
  0 <= Datetime.microseconds delta < 1000000 ->
  fields_read
    (Relativedelta.abs
       (Relativedelta._fix
          (Relativedelta.set_delta (Relativedelta._set_months no_delta 0)
             delta)))
  = span_of (Z.abs (Datetime.seconds delta + Datetime.days delta * 86400)).
Proof.
  intros Hus. rewrite abs_after_fix, fix_closed. cbv zeta.
  change (Relativedelta._set_months no_delta 0) with no_delta.
  unfold Relativedelta.set_delta, span_of, no_delta, fields_read.
  cbn [Relativedelta.years Relativedelta.months Relativedelta.days
       Relativedelta.hours Relativedelta.minutes Relativedelta.seconds
       Relativedelta.microseconds Relativedelta.leapdays].
  rewrite (Z.abs_eq (Datetime.microseconds delta)) by lia.
  rewrite (Z.div_small (Datetime.microseconds delta) 1000000) by lia.
  rewrite Z.mul_0_r, Z.add_0_r.
  set (s := Datetime.seconds delta + Datetime.days delta * 86400).
  change (Z.sgn 0 * (Z.abs 0 mod 12)) with 0.
  change (0 + Z.sgn 0 * (Z.abs 0 / 12)) with 0.
  rewrite !abs_stage_mod by lia.
  rewrite !abs_stage_div by lia.
  rewrite !Z.div_div by lia.
  rewrite !Z.mul_0_r, !Z.add_0_r.
  reflexivity.
Qed.

(** ** time_since *)

Lemma new_aware (fuel : nat) (dt1 dt2 : Datetime.datetime)
    (tz : Datetime.tzinfo) :
  Datetime.tz dt1 = None -> Datetime.tz dt2 = Some tz ->
  well_formed dt1 = true -> well_formed dt2 = true ->
  Relativedelta.new fuel dt1 dt2 = Some (Raise TypeError).
Proof.
  intros Hz1 Hz2 Hwf1 Hwf2.
  pose proof (well_formed_fields dt1 Hwf1) as (Hy1 & Hm1 & _).
  pose proof (well_formed_fields dt2 Hwf2) as (Hy2 & Hm2 & _).
  unfold Relativedelta.new. fold no_delta. cbv zeta.
  rewrite radd_set_months by (try exact Hwf2; lia).
  unfold Relativedelta.lt. rewrite (datetime_cmp_mixed dt1 dt2 tz Hz1 Hz2).
  reflexivity.
Qed.

(** The whole seconds between two datetimes less than 28 days apart, as
    the constructor and [abs] leave them. *)
Lemma new_short_span (fuel : nat) (dt1 dt2 : Datetime.datetime) :
  Datetime.tz dt1 = None -> Datetime.tz dt2 = None ->
  well_formed dt1 = true -> well_formed dt2 = true ->
  (2 <= fuel)%nat ->
  - (28 * 86400000000) < microseconds_of dt1 - microseconds_of dt2
    < 28 * 86400000000 ->
  exists delta,
    Relativedelta.new fuel dt1 dt2 = Some (Ok delta)
    /\ fields_read (Relativedelta.abs delta)
       = span_of (Z.abs ((microseconds_of dt1 - microseconds_of dt2)
                         / 1000000)).
Proof.
  intros Hz1 Hz2 Hwf1 Hwf2 Hfuel Hspan.
  destruct (new_naive fuel dt1 dt2 Hz1 Hz2 Hwf1 Hwf2 Hfuel)
    as (delta & _ & Hsub & Hnew).
  rewrite (months_between_short dt1 dt2 Hwf1 Hwf2 Hspan) in Hsub, Hnew.
  rewrite shift_months_zero in Hsub by exact Hwf2.
  destruct (sub_naive_fields dt1 dt2 delta Hz1 Hz2 Hsub) as [Htotal Hus].
  eexists. split; [exact Hnew|].
  rewrite (fix_short_span delta Hus). do 2 f_equal.
  apply (Z.div_unique _ _ _ (Datetime.microseconds delta)); lia.
Qed.

Lemma time_since_short (fuel : nat) (past_datetime : Datetime.datetime)
    (precision : string) (max_units : Z) (clock : nat -> Datetime.datetime) :
  (2 <= fuel)%nat ->
  Datetime.tz past_datetime = None ->
  well_formed past_datetime = true ->
  well_formed (clock 0%nat) = true ->
  - (28 * 86400000000)
  < microseconds_of (Asyncio.naive (clock 0%nat)) - microseconds_of past_datetime
  < 28 * 86400000000 ->
  Asyncio.run clock 0 (time_since fuel past_datetime precision max_units)
  = ([Asyncio.utcnow_called (Asyncio.naive (clock 0%nat))],
     Ok (Some (humanize_delta
                 (span_of (Z.abs ((microseconds_of (Asyncio.naive (clock 0%nat))
                                   - microseconds_of past_datetime)
                                  / 1000000)))
                 precision max_units +:+ " ago"))).
Proof.
  intros Hfuel Hz Hwf Hclock Hspan.
  destruct (new_short_span fuel (Asyncio.naive (clock 0%nat)) past_datetime
              eq_refl Hz (well_formed_naive _ Hclock) Hwf Hfuel Hspan)
    as (delta & Hnew & Hfields).
  unfold time_since. cbn [Asyncio.run]. rewrite Hnew. cbn [Asyncio.run].
  rewrite Hfields. reflexivity.
Qed.

(** X5. [time_since] raises [TypeError] on every timezone-aware datetime:
    the reading of the clock is naive, and the two do not compare. *)
Theorem time_since_aware_raises :
  forall (fuel : nat) (past_datetime : Datetime.datetime)
         (tz : Datetime.tzinfo) (precision : string) (max_units : Z)
         (clock : nat -> Datetime.datetime),
    Datetime.tz past_datetime = Some tz ->
    well_formed past_datetime = true ->
    well_formed (clock 0%nat) = true ->
    Asyncio.run clock 0 (time_since fuel past_datetime precision max_units)
    = ([Asyncio.utcnow_called (Asyncio.naive (clock 0%nat))], Raise TypeError).
Proof.
  intros fuel past_datetime tz precision max_units clock Hz Hwf Hclock.
  unfold time_since. cbn [Asyncio.run].
  rewrite (new_aware fuel (Asyncio.naive (clock 0%nat)) past_datetime tz
             eq_refl Hz (well_formed_naive _ Hclock) Hwf).
  reflexivity.
Qed.

Lemma time_since_aware_raises_witness :
  let past := {| Datetime.year := 1994; Datetime.month := 11;
                 Datetime.day := 15; Datetime.hour := 8;
                 Datetime.minute := 12; Datetime.second := 31;
                 Datetime.microsecond := 0;
                 Datetime.tz := Some Datetime.timezone_utc |} in
  let now := {| Datetime.year := 2021; Datetime.month := 3;
                Datetime.day := 5; Datetime.hour := 14;
                Datetime.minute := 30; Datetime.second := 0;
                Datetime.microsecond := 0; Datetime.tz := None |} in
  Asyncio.run (fun _ => now) 0 (time_since 2 past "seconds" 6)
  = ([Asyncio.utcnow_called now], Raise TypeError).
Proof.
  exact (time_since_aware_raises 2
           {| Datetime.year := 1994; Datetime.month := 11;
              Datetime.day := 15; Datetime.hour := 8;
              Datetime.minute := 12; Datetime.second := 31;
              Datetime.microsecond := 0;
              Datetime.tz := Some Datetime.timezone_utc |}
           Datetime.timezone_utc "seconds" 6
           (fun _ =>
              {| Datetime.year := 2021; Datetime.month := 3;
                 Datetime.day := 5; Datetime.hour := 14;
                 Datetime.minute := 30; Datetime.second := 0;
                 Datetime.microsecond := 0; Datetime.tz := None |})
           eq_refl eq_refl eq_refl).
Defined.

(** X6. For a naive datetime, in the past or in the future, [time_since]
    reads the clock once and returns, without raising, the text of
    [humanize_delta] followed by " ago"; the loop of the [relativedelta]
    constructor ends within two tests.  No field of the delta that is
    rendered is negative, the months are at most 11, the hours at most 23,
    and the minutes and seconds at most 59. *)
Theorem time_since_naive_returns :
  forall (fuel : nat) (past_datetime : Datetime.datetime)
         (precision : string) (max_units : Z)
         (clock : nat -> Datetime.datetime),
    (2 <= fuel)%nat ->
    Datetime.tz past_datetime = None ->
    well_formed past_datetime = true ->
    well_formed (clock 0%nat) = true ->
    exists delta : relativedelta,
      Asyncio.run clock 0 (time_since fuel past_datetime precision max_units)
      = ([Asyncio.utcnow_called (Asyncio.naive (clock 0%nat))],
         Ok (Some (humanize_delta delta precision max_units +:+ " ago")))
      /\ 0 <= years delta /\ 0 <= months delta <= 11 /\ 0 <= days delta
      /\ 0 <= hours delta <= 23 /\ 0 <= minutes delta <= 59
      /\ 0 <= seconds delta <= 59.
Proof.
  intros fuel past_datetime precision max_units clock Hfuel Hz Hwf Hclock.
  destruct (new_naive fuel (Asyncio.naive (clock 0%nat)) past_datetime
              eq_refl Hz (well_formed_naive _ Hclock) Hwf Hfuel)
    as (delta & _ & _ & Hnew).
  eexists. split.
  - unfold time_since. cbn [Asyncio.run]. rewrite Hnew. cbn [Asyncio.run].
    reflexivity.
  - apply fix_abs_ranges.
Qed.

Lemma time_since_naive_returns_witness :
  exists delta : relativedelta,
    Asyncio.run
      (fun _ => {| Datetime.year := 2021; Datetime.month := 3;
                   Datetime.day := 5; Datetime.hour := 14;
                   Datetime.minute := 30; Datetime.second := 0;
                   Datetime.microsecond := 0; Datetime.tz := None |}) 0
      (time_since 2
         {| Datetime.year := 2019; Datetime.month := 12;
            Datetime.day := 31; Datetime.hour := 23;
            Datetime.minute := 59; Datetime.second := 58;
            Datetime.microsecond := 0; Datetime.tz := None |} "seconds" 6)
    = ([Asyncio.utcnow_called
          {| Datetime.year := 2021; Datetime.month := 3;
             Datetime.day := 5; Datetime.hour := 14;
             Datetime.minute := 30; Datetime.second := 0;
             Datetime.microsecond := 0; Datetime.tz := None |}],
       Ok (Some (humanize_delta delta "seconds" 6 +:+ " ago")))
    /\ 0 <= years delta /\ 0 <= months delta <= 11 /\ 0 <= days delta
    /\ 0 <= hours delta <= 23 /\ 0 <= minutes delta <= 59
    /\ 0 <= seconds delta <= 59.
Proof.
  exact (time_since_naive_returns 2
           {| Datetime.year := 2019; Datetime.month := 12;
              Datetime.day := 31; Datetime.hour := 23;
              Datetime.minute := 59; Datetime.second := 58;
              Datetime.microsecond := 0; Datetime.tz := None |}
           "seconds" 6
           (fun _ =>
              {| Datetime.year := 2021; Datetime.month := 3;
                 Datetime.day := 5; Datetime.hour := 14;
                 Datetime.minute := 30; Datetime.second := 0;
                 Datetime.microsecond := 0; Datetime.tz := None |})
           ltac:(lia) eq_refl eq_refl eq_refl).
Defined.

(** X7. For a naive datetime that lies less than 28 days before the reading
    of the clock, [time_since] renders the whole seconds elapsed, split into
    days, hours, minutes and seconds, and no months or years. *)
Theorem time_since_elapsed :
  forall (fuel : nat) (past_datetime : Datetime.datetime)
         (precision : string) (max_units : Z)
         (clock : nat -> Datetime.datetime),
    (2 <= fuel)%nat ->
    Datetime.tz past_datetime = None ->
    well_formed past_datetime = true ->
    well_formed (clock 0%nat) = true ->
    let now := Asyncio.naive (clock 0%nat) in
    let elapsed := microseconds_of now - microseconds_of past_datetime in
    0 <= elapsed < 28 * 86400000000 ->
    Asyncio.run clock 0 (time_since fuel past_datetime precision max_units)
    = ([Asyncio.utcnow_called now],
       Ok (Some (humanize_delta (span_of (elapsed / 1000000))
                   precision max_units +:+ " ago"))).
Proof.
  intros fuel past_datetime precision max_units clock Hfuel Hz Hwf Hclock
    now elapsed Hspan.
  subst now elapsed.
  rewrite (time_since_short fuel past_datetime precision max_units clock
             Hfuel Hz Hwf Hclock) by lia.
  rewrite Z.abs_eq; [reflexivity|].
  apply Z.div_pos; lia.
Qed.

Lemma time_since_elapsed_witness :
  let past := {| Datetime.year := 2021; Datetime.month := 2;
                 Datetime.day := 27; Datetime.hour := 12;
                 Datetime.minute := 29; Datetime.second := 55;
                 Datetime.microsecond := 250000; Datetime.tz := None |} in
  let now := {| Datetime.year := 2021; Datetime.month := 3;
                Datetime.day := 5; Datetime.hour := 14;
                Datetime.minute := 30; Datetime.second := 0;
                Datetime.microsecond := 0; Datetime.tz := None |} in
  Asyncio.run (fun _ => now) 0 (time_since 2 past "seconds" 6)
  = ([Asyncio.utcnow_called now],
     Ok (Some "6 days, 2 hours and 4 seconds ago")).
Proof.
  exact (time_since_elapsed 2
           {| Datetime.year := 2021; Datetime.month := 2;
              Datetime.day := 27; Datetime.hour := 12;
              Datetime.minute := 29; Datetime.second := 55;
              Datetime.microsecond := 250000; Datetime.tz := None |}
           "seconds" 6
           (fun _ =>
              {| Datetime.year := 2021; Datetime.month := 3;
                 Datetime.day := 5; Datetime.hour := 14;
                 Datetime.minute := 30; Datetime.second := 0;
                 Datetime.microsecond := 0; Datetime.tz := None |})
           ltac:(lia) eq_refl eq_refl eq_refl
           ltac:(vm_compute; split; [discriminate|reflexivity])).
Defined.

(** ** Whole months *)

(** A datetime moved into a later month than that of [a] lies after [a]. *)
Lemma later_month_later (a b : Datetime.datetime) (n : Z) :
  well_formed a = true -> well_formed b = true ->
  Datetime.year a * 12 + (Datetime.month a - 1)
  < Datetime.year b * 12 + (Datetime.month b - 1) + n ->
  microseconds_of a < microseconds_of (shift_months b n).
Proof.
  intros Ha Hb Hidx.
  pose proof (well_formed_fields a Ha) as (_ & _ & _ & ? & ? & ? & ?).
  pose proof (well_formed_fields b Hb) as (_ & _ & _ & ? & ? & ? & ?).
  pose proof (well_formed_day a Ha) as [Hma Hda].
  pose proof (well_formed_day b Hb) as [Hmb Hdb].
  pose proof (shift_months_index b n) as [Hi Hmo].
  pose proof (month_start_mono (Datetime.year a) (Datetime.month a)
                (Datetime.year (shift_months b n))
                (Datetime.month (shift_months b n)) Hma Hmo ltac:(lia))
    as Hstart.
  pose proof (days_in_month_bounds (Datetime.year (shift_months b n))
                (Datetime.month (shift_months b n)) Hmo).
  unfold microseconds_of. rewrite !toordinal_month_start.
  change (Datetime.day (shift_months b n))
    with (Z.min (Datetime._days_in_month (Datetime.year (shift_months b n))
                   (Datetime.month (shift_months b n))) (Datetime.day b)).
  change (Datetime.hour (shift_months b n)) with (Datetime.hour b).
  change (Datetime.minute (shift_months b n)) with (Datetime.minute b).
  change (Datetime.second (shift_months b n)) with (Datetime.second b).
  change (Datetime.microsecond (shift_months b n))
    with (Datetime.microsecond b).
  lia.
Qed.

(** The months between a datetime and a later one: the largest number of
    months by which the earlier one can be moved without passing the
    later. *)
Lemma months_between_past (a b : Datetime.datetime) :
  well_formed a = true -> well_formed b = true ->
  microseconds_of b <= microseconds_of a ->
  0 <= months_between a b
  /\ Datetime.year b * 12 + (Datetime.month b - 1) + months_between a b
     <= Datetime.year a * 12 + (Datetime.month a - 1)
  /\ microseconds_of (shift_months b (months_between a b))
     <= microseconds_of a
  /\ microseconds_of a
     < microseconds_of (shift_months b (months_between a b + 1)).
Proof.
  intros Ha Hb Hle.
  pose proof (well_formed_fields a Ha) as (Hya & Hma & _).
  pose proof (well_formed_fields b Hb) as (Hyb & Hmb & _).
  unfold months_between.
  set (k0 := (Datetime.year a - Datetime.year b) * 12
             + (Datetime.month a - Datetime.month b)).
  cbv zeta.
  pose proof (cmp_microseconds a b Ha Hb) as C12.
  pose proof (cmp_by_month a b Hma Hmb) as [Hlt _].
  assert (Hk0 : 0 <= k0).
  { destruct (Z_lt_le_dec k0 0) as [Hneg|]; [|assumption].
    rewrite Hlt in C12 by (subst k0; lia). lia. }
  assert (Hwfs : well_formed (shift_months b k0) = true).
  { apply shift_months_well_formed; [exact Hb|subst k0; lia]. }
  pose proof (cmp_microseconds a (shift_months b k0) Ha Hwfs) as C.
  assert (Hc12 : (Relativedelta._cmp (fields_of a) (fields_of b) <? 0) = false).
  { destruct C12 as [[E ?]|[[E ?]|[E ?]]]; rewrite E; [lia| |]; reflexivity. }
  rewrite Hc12.
  destruct (Z.ltb_spec (Relativedelta._cmp (fields_of a)
                          (fields_of (shift_months b k0))) 0) as [Hover|Hover].
  - assert (Hafter : microseconds_of a < microseconds_of (shift_months b k0))
      by lia.
    assert (Hk1 : 1 <= k0).
    { destruct (Z.eq_dec k0 0) as [E0|]; [|lia].
      rewrite E0, shift_months_zero in Hafter by exact Hb. lia. }
    assert (Hwf1 : well_formed (shift_months b (k0 - 1)) = true).
    { apply shift_months_well_formed; [exact Hb|subst k0; lia]. }
    pose proof (shift_months_index b (k0 - 1)) as [Hi1 Hmo1].
    pose proof (cmp_microseconds a (shift_months b (k0 - 1)) Ha Hwf1) as C1.
    rewrite (proj2 (cmp_by_month a (shift_months b (k0 - 1)) Hma Hmo1)) in C1
      by (subst k0; lia).
    replace (k0 - 1 + 1) with k0 by lia.
    repeat split; try lia; subst k0; lia.
  - pose proof (later_month_later a b (k0 + 1) Ha Hb ltac:(subst k0; lia)).
    repeat split; try lia; subst k0; lia.
Qed.

(** The fields of a span of whole months and seconds that are not
    negative. *)
Lemma fix_calendar_span (k : Z) (delta : Datetime.timedelta) :
  0 <= k ->
  0 <= Datetime.microseconds delta < 1000000 ->
  0 <= Datetime.seconds delta + Datetime.days delta * 86400 ->
  fields_read
    (Relativedelta.abs
       (Relativedelta._fix
          (Relativedelta.set_delta (Relativedelta._set_months no_delta k)
             delta)))
  = calendar_span k (Datetime.seconds delta + Datetime.days delta * 86400).
Proof.
  intros Hk Hus Hs. rewrite abs_after_fix, fix_closed. cbv zeta.
  assert (Hset : Relativedelta._set_months no_delta k
                 = {| Relativedelta.years := k / 12;
                      Relativedelta.months := k mod 12;
                      Relativedelta.days := 0; Relativedelta.leapdays := 0;
                      Relativedelta.hours := 0; Relativedelta.minutes := 0;
                      Relativedelta.seconds := 0;
                      Relativedelta.microseconds := 0 |}).
  { unfold Relativedelta._set_months, Relativedelta._sign, no_delta.
    cbn [Relativedelta.days Relativedelta.leapdays Relativedelta.hours
         Relativedelta.minutes Relativedelta.seconds
         Relativedelta.microseconds].
    destruct (Z.ltb_spec k 0); [lia|]. rewrite !Z.mul_1_r.
    destruct (Z.ltb_spec 11 (Z.abs k)); [reflexivity|].
    rewrite Z.div_small, Z.mod_small by lia. reflexivity. }
  rewrite Hset.
  unfold Relativedelta.set_delta, calendar_span, fields_read.
  cbn [Relativedelta.years Relativedelta.months Relativedelta.days
       Relativedelta.hours Relativedelta.minutes Relativedelta.seconds
       Relativedelta.microseconds Relativedelta.leapdays].
  rewrite (Z.abs_eq (Datetime.microseconds delta)) by lia.
  rewrite (Z.div_small (Datetime.microseconds delta) 1000000) by lia.
  set (s := Datetime.seconds delta + Datetime.days delta * 86400) in *.
  replace (s + Z.sgn (Datetime.microseconds delta) * 0) with s by lia.
  pose proof (Z.mod_pos_bound k 12 ltac:(lia)) as Hmod.
  rewrite (Z.abs_eq (k mod 12)) by lia.
  rewrite (Z.div_small (k mod 12) 12), (Z.mod_small (k mod 12) 12) by lia.
  rewrite !abs_stage_mod by lia.
  rewrite !abs_stage_div by lia.
  rewrite !Z.div_div by lia.
  rewrite (Z.abs_eq s) by lia.
  f_equal.
  - pose proof (Z.div_pos k 12 Hk ltac:(lia)). lia.
  - destruct (Z.eq_dec (k mod 12) 0) as [->|]; [reflexivity|].
    rewrite Z.sgn_pos by lia. lia.
Qed.

(** X8. For a naive datetime that is not after the reading of the clock,
    [time_since] counts whole months first and the rest in seconds: with [k]
    the largest number of months by which the datetime can be moved, its day
    cut to the length of the month reached, without passing the reading, the
    text renders [k] as years and months, and the whole seconds from the
    moved datetime to the reading as days, hours, minutes and seconds. *)
Theorem time_since_calendar :
  forall (fuel : nat) (past_datetime : Datetime.datetime)
         (precision : string) (max_units : Z)
         (clock : nat -> Datetime.datetime),
    (2 <= fuel)%nat ->
    Datetime.tz past_datetime = None ->
    well_formed past_datetime = true ->
    well_formed (clock 0%nat) = true ->
    let now := Asyncio.naive (clock 0%nat) in
    microseconds_of past_datetime <= microseconds_of now ->
    exists k : Z,
      0 <= k
      /\ microseconds_of (shift_months past_datetime k) <= microseconds_of now
      /\ microseconds_of now < microseconds_of (shift_months past_datetime (k + 1))
      /\ Asyncio.run clock 0
           (time_since fuel past_datetime precision max_units)
         = ([Asyncio.utcnow_called now],
            Ok (Some (humanize_delta
                        (calendar_span k
                           ((microseconds_of now
                             - microseconds_of (shift_months past_datetime k))
                            / 1000000))
                        precision max_units +:+ " ago"))).
Proof.
  intros fuel past_datetime precision max_units clock Hfuel Hz Hwf Hclock
    now Hle.
  pose proof (well_formed_naive _ Hclock) as Hnow. fold now in Hnow.
  destruct (months_between_past now past_datetime Hnow Hwf Hle)
    as (Hk & Hidx & Hbefore & Hafter).
  destruct (new_naive fuel now past_datetime eq_refl Hz Hnow Hwf Hfuel)
    as (delta & Hwfs & Hsub & Hnew).
  set (k := months_between now past_datetime) in *.
  destruct (sub_naive_fields now (shift_months past_datetime k) delta
              eq_refl (shift_months_naive _ _ Hz) Hsub) as [Htotal Hus].
  exists k. split; [exact Hk|]. split; [exact Hbefore|].
  split; [exact Hafter|].
  unfold time_since. cbn [Asyncio.run]. fold now. rewrite Hnew.
  cbn [Asyncio.run].
  assert (Hs : Datetime.seconds delta + Datetime.days delta * 86400
               = (microseconds_of now
                  - microseconds_of (shift_months past_datetime k)) / 1000000).
  { apply (Z.div_unique _ _ _ (Datetime.microseconds delta)); lia. }
  rewrite fix_calendar_span; [rewrite Hs; reflexivity|exact Hk|exact Hus|].
  rewrite Hs. apply Z.div_pos; lia.
Qed.

Lemma time_since_calendar_witness :
  exists k : Z,
    0 <= k
    /\ microseconds_of
         (shift_months
            {| Datetime.year := 2020; Datetime.month := 1;
               Datetime.day := 31; Datetime.hour := 12;
               Datetime.minute := 0; Datetime.second := 0;
               Datetime.microsecond := 0; Datetime.tz := None |} k)
       <= microseconds_of
            {| Datetime.year := 2021; Datetime.month := 3;
               Datetime.day := 5; Datetime.hour := 14;
               Datetime.minute := 30; Datetime.second := 0;
               Datetime.microsecond := 0; Datetime.tz := None |}
    /\ microseconds_of
         {| Datetime.year := 2021; Datetime.month := 3;
            Datetime.day := 5; Datetime.hour := 14;
            Datetime.minute := 30; Datetime.second := 0;
            Datetime.microsecond := 0; Datetime.tz := None |}
       < microseconds_of
           (shift_months
              {| Datetime.year := 2020; Datetime.month := 1;
                 Datetime.day := 31; Datetime.hour := 12;
                 Datetime.minute := 0; Datetime.second := 0;
                 Datetime.microsecond := 0; Datetime.tz := None |} (k + 1))
    /\ Asyncio.run
         (fun _ => {| Datetime.year := 2021; Datetime.month := 3;
                      Datetime.day := 5; Datetime.hour := 14;
                      Datetime.minute := 30; Datetime.second := 0;
                      Datetime.microsecond := 0; Datetime.tz := None |}) 0
         (time_since 2
            {| Datetime.year := 2020; Datetime.month := 1;
               Datetime.day := 31; Datetime.hour := 12;
               Datetime.minute := 0; Datetime.second := 0;
               Datetime.microsecond := 0; Datetime.tz := None |}
            "seconds" 6)
       = ([Asyncio.utcnow_called
             {| Datetime.year := 2021; Datetime.month := 3;
                Datetime.day := 5; Datetime.hour := 14;
                Datetime.minute := 30; Datetime.second := 0;
                Datetime.microsecond := 0; Datetime.tz := None |}],
          Ok (Some (humanize_delta
                      (calendar_span k
                         ((microseconds_of
                             {| Datetime.year := 2021; Datetime.month := 3;
                                Datetime.day := 5; Datetime.hour := 14;
                                Datetime.minute := 30; Datetime.second := 0;
                                Datetime.microsecond := 0;
                                Datetime.tz := None |}
                           - microseconds_of
                               (shift_months
                                  {| Datetime.year := 2020;
                                     Datetime.month := 1;
                                     Datetime.day := 31; Datetime.hour := 12;
                                     Datetime.minute := 0;
                                     Datetime.second := 0;
                                     Datetime.microsecond := 0;
                                     Datetime.tz := None |} k))
                          / 1000000))
                      "seconds" 6 +:+ " ago"))).
Proof.
  exact (time_since_calendar 2
           {| Datetime.year := 2020; Datetime.month := 1;
              Datetime.day := 31; Datetime.hour := 12;
              Datetime.minute := 0; Datetime.second := 0;
              Datetime.microsecond := 0; Datetime.tz := None |}
           "seconds" 6
           (fun _ =>
              {| Datetime.year := 2021; Datetime.month := 3;
                 Datetime.day := 5; Datetime.hour := 14;
                 Datetime.minute := 30; Datetime.second := 0;
                 Datetime.microsecond := 0; Datetime.tz := None |})
           ltac:(lia) eq_refl eq_refl eq_refl
           ltac:(vm_compute; discriminate)).
Defined.

Lemma humanize_delta_zero (precision : string) (max_units : Z) :
  humanize_delta (span_of 0) precision max_units
  = _stringify_time_unit 0 precision.
Proof.
  apply emitted_nil_fallback.
  destruct (emitted_spec (span_of 0) precision max_units) as (n & _ & -> & _).
  rewrite filter_nonzero_nil; [reflexivity|].
  intros uv Huv.
  apply list_elem_of_In, (subseteq_take n), list_elem_of_In in Huv.
  cbn in Huv.
  repeat (destruct Huv as [<-|Huv]; [reflexivity|]). destruct Huv.
Qed.

(** X9. When less than a second has passed since a naive datetime,
    [time_since] returns "less than a " followed by [precision] without its
    last character and " ago", whatever [precision] and [max_units] are:
    "less than a second ago" at the default precision. *)
Theorem time_since_less_than_a_second :
  forall (fuel : nat) (past_datetime : Datetime.datetime)
         (precision : string) (max_units : Z)
         (clock : nat -> Datetime.datetime),
    (2 <= fuel)%nat ->
    Datetime.tz past_datetime = None ->
    well_formed past_datetime = true ->
    well_formed (clock 0%nat) = true ->
    let now := Asyncio.naive (clock 0%nat) in
    0 <= microseconds_of now - microseconds_of past_datetime < 1000000 ->
    Asyncio.run clock 0 (time_since fuel past_datetime precision max_units)
    = ([Asyncio.utcnow_called now],
       Ok (Some (("less than a " +:+ slice_to precision (-1)) +:+ " ago"))).
Proof.
  intros fuel past_datetime precision max_units clock Hfuel Hz Hwf Hclock
    now Hspan.
  subst now.
  rewrite (time_since_short fuel past_datetime precision max_units clock
             Hfuel Hz Hwf Hclock) by lia.
  rewrite Z.div_small by lia. cbn [Z.abs].
  rewrite humanize_delta_zero. reflexivity.
Qed.

Lemma time_since_less_than_a_second_witness :
  let past := {| Datetime.year := 2021; Datetime.month := 3;
                 Datetime.day := 5; Datetime.hour := 14;
                 Datetime.minute := 29; Datetime.second := 59;
                 Datetime.microsecond := 400000; Datetime.tz := None |} in
  let now := {| Datetime.year := 2021; Datetime.month := 3;
                Datetime.day := 5; Datetime.hour := 14;
                Datetime.minute := 30; Datetime.second := 0;
                Datetime.microsecond := 0; Datetime.tz := None |} in
  Asyncio.run (fun _ => now) 0 (time_since 2 past "seconds" 6)
  = ([Asyncio.utcnow_called now], Ok (Some "less than a second ago")).
Proof.
  exact (time_since_less_than_a_second 2
           {| Datetime.year := 2021; Datetime.month := 3;
              Datetime.day := 5; Datetime.hour := 14;
              Datetime.minute := 29; Datetime.second := 59;
              Datetime.microsecond := 400000; Datetime.tz := None |}
           "seconds" 6
           (fun _ =>
              {| Datetime.year := 2021; Datetime.month := 3;
                 Datetime.day := 5; Datetime.hour := 14;
                 Datetime.minute := 30; Datetime.second := 0;
                 Datetime.microsecond := 0; Datetime.tz := None |})
           ltac:(lia) eq_refl eq_refl eq_refl
           ltac:(vm_compute; split; [discriminate|reflexivity])).
Defined.

(** X10. A naive datetime that lies ahead of the reading of the clock, by
    less than 28 days, is described as " ago" as well: [time_since] renders
    the time to it, rounded up to whole seconds, so that a datetime one
    microsecond ahead gives "1 second ago". *)
Theorem time_since_future :
  forall (fuel : nat) (past_datetime : Datetime.datetime)
         (precision : string) (max_units : Z)
         (clock : nat -> Datetime.datetime),
    (2 <= fuel)%nat ->
    Datetime.tz past_datetime = None ->
    well_formed past_datetime = true ->
    well_formed (clock 0%nat) = true ->
    let now := Asyncio.naive (clock 0%nat) in
    let ahead := microseconds_of past_datetime - microseconds_of now in
    0 < ahead < 28 * 86400000000 ->
    Asyncio.run clock 0 (time_since fuel past_datetime precision max_units)
    = ([Asyncio.utcnow_called now],
       Ok (Some (humanize_delta (span_of ((ahead + 999999) / 1000000))
                   precision max_units +:+ " ago")))
    /\ 1 <= (ahead + 999999) / 1000000.
Proof.
  intros fuel past_datetime precision max_units clock Hfuel Hz Hwf Hclock
    now ahead Hspan.
  subst now ahead. split.
  - rewrite (time_since_short fuel past_datetime precision max_units clock
               Hfuel Hz Hwf Hclock) by lia.
    replace (Z.abs ((microseconds_of (Asyncio.naive (clock 0%nat))
                     - microseconds_of past_datetime) / 1000000))
      with ((microseconds_of past_datetime
             - microseconds_of (Asyncio.naive (clock 0%nat)) + 999999)
            / 1000000)
      by (Z.div_mod_to_equations; lia).
    reflexivity.
  - Z.div_mod_to_equations. lia.
Qed.

Lemma time_since_future_witness :
  let past := {| Datetime.year := 2021; Datetime.month := 3;
                 Datetime.day := 5; Datetime.hour := 14;
                 Datetime.minute := 30; Datetime.second := 0;
                 Datetime.microsecond := 1; Datetime.tz := None |} in
  let now := {| Datetime.year := 2021; Datetime.month := 3;
                Datetime.day := 5; Datetime.hour := 14;
                Datetime.minute := 30; Datetime.second := 0;
                Datetime.microsecond := 0; Datetime.tz := None |} in
  Asyncio.run (fun _ => now) 0 (time_since 2 past "seconds" 6)
  = ([Asyncio.utcnow_called now], Ok (Some "1 second ago")).
Proof.
  exact (proj1 (time_since_future 2
           {| Datetime.year := 2021; Datetime.month := 3;
              Datetime.day := 5; Datetime.hour := 14;
              Datetime.minute := 30; Datetime.second := 0;
              Datetime.microsecond := 1; Datetime.tz := None |}
           "seconds" 6
           (fun _ =>
              {| Datetime.year := 2021; Datetime.month := 3;
                 Datetime.day := 5; Datetime.hour := 14;
                 Datetime.minute := 30; Datetime.second := 0;
                 Datetime.microsecond := 0; Datetime.tz := None |})
           ltac:(lia) eq_refl eq_refl eq_refl
           ltac:(vm_compute; split; reflexivity))).
Defined.

(** ** Timezone-aware datetimes *)

Lemma sub_mixed (time now : Datetime.datetime) (tz : Datetime.tzinfo) :
  Datetime.tz time = Some tz -> Datetime.tz now = None ->
  well_formed time = true -> well_formed now = true ->
  Datetime.sub time now = Raise TypeError.
Proof.
  intros Ht Hn Wt Wn.
  pose proof (toordinal_bounds _ Wt) as Bt.
  pose proof (toordinal_bounds _ Wn) as Bn.
  apply well_formed_fields in Wt as (_ & _ & _ & ? & ? & ? & ?).
  apply well_formed_fields in Wn as (_ & _ & _ & ? & ? & ? & ?).
  unfold Datetime.sub. rewrite Ht, Hn.
  destruct (timedelta_new_ok
              (Datetime.toordinal time - Datetime.toordinal now)
              (Datetime.second time + Datetime.minute time * 60
               + Datetime.hour time * 3600
               - (Datetime.second now + Datetime.minute now * 60
                  + Datetime.hour now * 3600))
              (Datetime.microsecond time - Datetime.microsecond now))
    as [delay Hdelay]; try lia.
  rewrite Hdelay. reflexivity.
Qed.

(** X11. [wait_until] raises [TypeError] on every timezone-aware target,
    after one reading of the clock and without sleeping. *)
Theorem wait_until_aware_type_error :
  forall (time : Datetime.datetime) (tz : Datetime.tzinfo)
         (clock : nat -> Datetime.datetime),
    Datetime.tz time = Some tz ->
    well_formed time = true ->
    well_formed (clock 0%nat) = true ->
    Asyncio.run clock 0 (wait_until time)
    = ([Asyncio.utcnow_called (Asyncio.naive (clock 0%nat))], Raise TypeError).
Proof.
  intros time tz clock Hz Hwf Hclock.
  unfold wait_until. cbn [Asyncio.run].
  rewrite (sub_mixed time (Asyncio.naive (clock 0%nat)) tz Hz eq_refl Hwf
             (well_formed_naive _ Hclock)).
  reflexivity.
Qed.

Lemma wait_until_aware_type_error_witness :
  let time := {| Datetime.year := 2030; Datetime.month := 1;
                 Datetime.day := 1; Datetime.hour := 0;
                 Datetime.minute := 0; Datetime.second := 0;
                 Datetime.microsecond := 0;
                 Datetime.tz := Some (Datetime.tzoffset 3600) |} in
  let now := {| Datetime.year := 2021; Datetime.month := 3;
                Datetime.day := 5; Datetime.hour := 14;
                Datetime.minute := 30; Datetime.second := 0;
                Datetime.microsecond := 0; Datetime.tz := None |} in
  Asyncio.run (fun _ => now) 0 (wait_until time)
  = ([Asyncio.utcnow_called now], Raise TypeError).
Proof.
  exact (wait_until_aware_type_error
           {| Datetime.year := 2030; Datetime.month := 1;
              Datetime.day := 1; Datetime.hour := 0;
              Datetime.minute := 0; Datetime.second := 0;
              Datetime.microsecond := 0;
              Datetime.tz := Some (Datetime.tzoffset 3600) |}
           (Datetime.tzoffset 3600)
           (fun _ =>
              {| Datetime.year := 2021; Datetime.month := 3;
                 Datetime.day := 5; Datetime.hour := 14;
                 Datetime.minute := 30; Datetime.second := 0;
                 Datetime.microsecond := 0; Datetime.tz := None |})
           eq_refl eq_refl eq_refl).
Defined.

(** ** Further properties of parse_rfc1123 *)

Lemma datetime_new_record y m d hh mm ss us tzinfo dt :
  Datetime.new y m d hh mm ss us tzinfo = Ok dt ->
  dt = {| Datetime.year := y; Datetime.month := m; Datetime.day := d;
          Datetime.hour := hh; Datetime.minute := mm; Datetime.second := ss;
          Datetime.microsecond := us; Datetime.tz := tzinfo |}.
Proof.
  unfold Datetime.new.
  destruct (Datetime._check_date_fields y m d); cbn; [|discriminate].
  destruct (Datetime._check_time_fields hh mm ss us); cbn; [|discriminate].
  intros [= <-]. reflexivity.
Qed.

Lemma parse_rfc1123_fields (s : string) (dt : Datetime.datetime) :
  parse_rfc1123 s = Ok dt ->
  well_formed dt = true /\ Datetime.microsecond dt = 0.
Proof.
  unfold parse_rfc1123, Strptime.strptime.
  destruct (Strptime._strptime s RFC1123_FORMAT)
    as [[[[[[y m] d] hh] mm] ss]|] eqn:E; [|discriminate].
  cbn [mbind result_bind].
  destruct (Datetime.new y m d hh mm ss 0 None) as [dt0|] eqn:E0;
    [|discriminate].
  cbn [mbind result_bind]. unfold Datetime.replace_tzinfo. intros H.
  split; [eapply datetime_new_well_formed, H|].
  apply datetime_new_record in H. apply datetime_new_record in E0.
  rewrite H, E0. reflexivity.
Qed.

(** X12. The only exception of [parse_rfc1123] is [ValueError], and every
    timestamp it returns is a valid date and time of day with no
    microseconds. *)
Theorem parse_rfc1123_outcome :
  forall time_str : string,
    match parse_rfc1123 time_str with
    | Raise e => e = ValueError
    | Ok dt => well_formed dt = true /\ Datetime.microsecond dt = 0
    end.
Proof.
  intros time_str. destruct (parse_rfc1123 time_str) as [dt|e] eqn:E.
  - apply (parse_rfc1123_fields time_str dt E).
  - apply (parse_rfc1123_raises time_str e E).
Qed.

(** X13. No timestamp that [parse_rfc1123] returns is accepted by
    [wait_until] or by [time_since]: both raise [TypeError] on it, because
    the timestamp carries a timezone and the reading of the clock does not. *)
Theorem parse_rfc1123_result_not_accepted :
  forall (time_str : string) (dt : Datetime.datetime) (fuel : nat)
         (precision : string) (max_units : Z)
         (clock : nat -> Datetime.datetime),
    parse_rfc1123 time_str = Ok dt ->
    well_formed (clock 0%nat) = true ->
    Asyncio.run clock 0 (wait_until dt)
    = ([Asyncio.utcnow_called (Asyncio.naive (clock 0%nat))], Raise TypeError)
    /\ Asyncio.run clock 0 (time_since fuel dt precision max_units)
       = ([Asyncio.utcnow_called (Asyncio.naive (clock 0%nat))],
          Raise TypeError).
Proof.
  intros time_str dt fuel precision max_units clock Hparse Hclock.
  pose proof (parse_rfc1123_ok time_str dt Hparse) as [_ Hz].
  pose proof (parse_rfc1123_fields time_str dt Hparse) as [Hwf _].
  split.
  - unfold wait_until. cbn [Asyncio.run].
    rewrite (sub_mixed dt (Asyncio.naive (clock 0%nat)) _ Hz eq_refl Hwf
               (well_formed_naive _ Hclock)).
    reflexivity.
  - unfold time_since. cbn [Asyncio.run].
    rewrite (new_aware fuel (Asyncio.naive (clock 0%nat)) dt _
               eq_refl Hz (well_formed_naive _ Hclock) Hwf).
    reflexivity.
Qed.

Lemma parse_rfc1123_result_not_accepted_witness :
  let dt := {| Datetime.year := 1994; Datetime.month := 11;
               Datetime.day := 15; Datetime.hour := 8;
               Datetime.minute := 12; Datetime.second := 31;
               Datetime.microsecond := 0;
               Datetime.tz := Some Datetime.timezone_utc |} in
  let now := {| Datetime.year := 1994; Datetime.month := 11;
                Datetime.day := 15; Datetime.hour := 8;
                Datetime.minute := 12; Datetime.second := 0;
                Datetime.microsecond := 0; Datetime.tz := None |} in
  Asyncio.run (fun _ => now) 0 (wait_until dt)
  = ([Asyncio.utcnow_called now], Raise TypeError)
  /\ Asyncio.run (fun _ => now) 0 (time_since 2 dt "seconds" 6)
     = ([Asyncio.utcnow_called now], Raise TypeError).
Proof.
  exact (parse_rfc1123_result_not_accepted
           "Tue, 15 Nov 1994 08:12:31 GMT"
           {| Datetime.year := 1994; Datetime.month := 11;
              Datetime.day := 15; Datetime.hour := 8;
              Datetime.minute := 12; Datetime.second := 31;
              Datetime.microsecond := 0;
              Datetime.tz := Some Datetime.timezone_utc |}
           2 "seconds" 6
           (fun _ =>
              {| Datetime.year := 1994; Datetime.month := 11;
                 Datetime.day := 15; Datetime.hour := 8;
                 Datetime.minute := 12; Datetime.second := 0;
                 Datetime.microsecond := 0; Datetime.tz := None |})
           ltac:(vm_compute; reflexivity) eq_refl).
Defined.

Lemma digit_value_range (c : ascii) :
  Re.is_digit c = true -> 0 <= digit_value c <= 9.
Proof.
  intros H. apply digit_cases in H. cbn in H.
  repeat (destruct H as [<-|H]; [vm_compute; split; discriminate|]).
  destruct H.
Qed.

Lemma month_at_range (name : string) :
  In name month_abbrevs ->
  1 <= match index name month_abbrevs with Ok i => i + 1 | Raise _ => 0 end
    <= 12.
Proof.
  intros Hin. cbn in Hin.
  repeat (destruct Hin as [<-|Hin]; [vm_compute; split; discriminate|]).
  destruct Hin.
Qed.

(** X14. A text in the exact pattern whose day, hour, minute and second are
    in range is parsed when its year is not 0000 and its day exists in its
    month of that year, and [ValueError] is raised otherwise, as for a 30th
    of February. *)
Theorem parse_rfc1123_date_must_exist :
  forall time_str : string,
    rfc1123_exact time_str = true ->
    rfc1123_in_range time_str = true ->
    let year := number_at time_str 12 4 in
    let month := month_at time_str 8 in
    let day := number_at time_str 5 2 in
    (1 <= year /\ day <= Datetime._days_in_month year month ->
     is_ok (parse_rfc1123 time_str) = true)
    /\ (year = 0 \/ Datetime._days_in_month year month < day ->
        parse_rfc1123 time_str = Raise ValueError).
Proof.
  intros s Hex Hrange. rewrite (parse_rfc1123_exact s Hex Hrange).
  destruct (rfc1123_exact_shape s Hex)
    as (w1 & w2 & w3 & d1 & d2 & b1 & b2 & b3 & y1 & y2 & y3 & y4
        & h1 & h2 & m1 & m2 & s1 & s2 & -> & Hwd & Hmo
        & Hd1 & Hd2 & Hy1 & Hy2 & Hy3 & Hy4 & Hh1 & Hh2 & Hm1 & Hm2
        & Hs1 & Hs2).
  unfold rfc1123_in_range, number_at in Hrange. cbn [substring] in Hrange.
  apply andb_true_iff in Hrange as [Hrange Rs].
  apply andb_true_iff in Hrange as [Hrange Rm].
  apply andb_true_iff in Hrange as [Hrange Rh].
  apply andb_true_iff in Hrange as [Rd1 Rd2].
  apply Z.leb_le in Rs, Rm, Rh, Rd1, Rd2.
  unfold rfc1123_timestamp, number_at, month_at. cbn [substring].
  pose proof (month_at_range _ Hmo) as Hmonth.
  set (month := match index (String b1 (String b2 (String b3 "")))
                        month_abbrevs with
                | Ok i => i + 1
                | Raise _ => 0
                end) in *.
  apply digit_value_range in Hd1, Hd2, Hy1, Hy2, Hy3, Hy4, Hh1, Hh2,
    Hm1, Hm2, Hs1, Hs2.
  cbn [digits_value] in *.
  set (year := (((0 * 10 + digit_value y1) * 10 + digit_value y2) * 10
                + digit_value y3) * 10 + digit_value y4) in *.
  set (day := (0 * 10 + digit_value d1) * 10 + digit_value d2) in *.
  set (hour := (0 * 10 + digit_value h1) * 10 + digit_value h2) in *.
  set (minute := (0 * 10 + digit_value m1) * 10 + digit_value m2) in *.
  set (second := (0 * 10 + digit_value s1) * 10 + digit_value s2) in *.
  assert (Hyear : 0 <= year <= 9999) by (subst year; lia).
  assert (Hhour : 0 <= hour) by (subst hour; lia).
  assert (Hminute : 0 <= minute) by (subst minute; lia).
  assert (Hsecond : 0 <= second) by (subst second; lia).
  clearbody year day hour minute second month.
  cbv zeta.
  unfold Datetime.new, Datetime._check_date_fields, Datetime._check_time_fields,
    Datetime.MINYEAR, Datetime.MAXYEAR.
  destruct (Z.leb_spec 1 year); destruct (Z.leb_spec year 9999); try lia;
    destruct (Z.leb_spec 1 month); destruct (Z.leb_spec month 12); try lia;
    destruct (Z.leb_spec 1 day); try lia;
    destruct (Z.leb_spec day (Datetime._days_in_month year month));
    destruct (Z.leb_spec 0 hour); destruct (Z.leb_spec hour 23); try lia;
    destruct (Z.leb_spec 0 minute); destruct (Z.leb_spec minute 59); try lia;
    destruct (Z.leb_spec 0 second); destruct (Z.leb_spec second 59); try lia;
    cbn; (split; [intros; first [reflexivity|lia]
                 |intros; first [reflexivity|lia]]).
Qed.

Lemma parse_rfc1123_date_must_exist_witness :
  is_ok (parse_rfc1123 "Thu, 29 Feb 2024 23:59:59 GMT") = true
  /\ parse_rfc1123 "Tue, 30 Feb 2021 08:12:31 GMT" = Raise ValueError.
Proof.
  split.
  - apply (proj1 (parse_rfc1123_date_must_exist
                    "Thu, 29 Feb 2024 23:59:59 GMT" eq_refl eq_refl)).
    vm_compute. split; discriminate.
  - apply (proj2 (parse_rfc1123_date_must_exist
                    "Tue, 30 Feb 2021 08:12:31 GMT" eq_refl eq_refl)).
    right. vm_compute. reflexivity.
Defined.

(** X15. The weekday name is read and not used: replacing the weekday
    abbreviation of a text in the exact pattern by any other of the seven
    leaves the result of [parse_rfc1123] as it is. *)
Theorem parse_rfc1123_weekday_ignored :
  forall (weekday weekday' rest : string),
    In weekday weekday_abbrevs ->
    In weekday' weekday_abbrevs ->
    rfc1123_exact (weekday +:+ rest) = true ->
    rfc1123_in_range (weekday +:+ rest) = true ->
    parse_rfc1123 (weekday' +:+ rest) = parse_rfc1123 (weekday +:+ rest).
Proof.
  intros weekday weekday' rest Hw Hw' Hex Hrange.
  assert (Hex' : rfc1123_exact (weekday' +:+ rest) = true).
  { cbn in Hw, Hw'.
    repeat (destruct Hw as [<-|Hw]);
      repeat (destruct Hw' as [<-|Hw']);
      try contradiction; exact Hex. }
  assert (Hrange' : rfc1123_in_range (weekday' +:+ rest) = true).
  { cbn in Hw, Hw'.
    repeat (destruct Hw as [<-|Hw]);
      repeat (destruct Hw' as [<-|Hw']);
      try contradiction; exact Hrange. }
  rewrite (parse_rfc1123_exact _ Hex Hrange), (parse_rfc1123_exact _ Hex' Hrange').
  cbn in Hw, Hw'.
  repeat (destruct Hw as [<-|Hw]);
    repeat (destruct Hw' as [<-|Hw']);
    try contradiction; reflexivity.
Qed.

Lemma parse_rfc1123_weekday_ignored_witness :
  parse_rfc1123 ("Mon" +:+ ", 15 Nov 1994 08:12:31 GMT")
  = parse_rfc1123 ("Tue" +:+ ", 15 Nov 1994 08:12:31 GMT").
Proof.
  apply (parse_rfc1123_weekday_ignored "Tue" "Mon" ", 15 Nov 1994 08:12:31 GMT");
    vm_compute; tauto.
Defined.

(** ** Further properties of format_infraction *)

(** Splits the hypotheses [... = Raise e] along the calls that can have
    raised. *)
Ltac raise_step :=
  match goal with
  | H : Raise _ = Raise _ |- _ => injection H as <-
  | H : Ok _ = Raise _ |- _ => discriminate H
  | H : mbind _ ?r = Raise _ |- _ =>
      destruct r eqn:?; cbn [mbind result_bind] in H
  | H : (if ?c then _ else _) = Raise _ |- _ => destruct c eqn:?
  | H : match ?x with _ => _ end = Raise _ |- _ => destruct x eqn:?
  | H : (let _ := _ in _) = Raise _ |- _ => cbv beta zeta in H
  end.

Ltac raise_cases H := cbv beta zeta in H; repeat raise_step.

Lemma timedelta_new_raises d s us e :
  Datetime.timedelta_new d s us = Raise e -> e = OverflowError.
Proof.
  unfold Datetime.timedelta_new. intros H. raise_cases H. reflexivity.
Qed.

Lemma int_bytes_raises (text : string) e :
  int_bytes text = Raise e -> e = ValueError.
Proof. apply int_base10_raises. Qed.

Lemma date_fromordinal_raises n e :
  Datetime.date_fromordinal n = Raise e -> e = ValueError.
Proof.
  unfold Datetime.date_fromordinal.
  destruct (Datetime._ord2ymd n) as [[y m] d]. apply date_new_raises.
Qed.

Lemma date_add_days_raises date n e :
  Datetime.date_add_days date n = Raise e ->
  e = ValueError \/ e = OverflowError.
Proof.
  unfold Datetime.date_add_days. intros H.
  raise_cases H; eauto using date_fromordinal_raises.
Qed.

Lemma add_days_raises dt n e :
  Datetime.add_days dt n = Raise e -> e = ValueError \/ e = OverflowError.
Proof.
  unfold Datetime.add_days. intros H.
  raise_cases H;
    eauto using date_fromordinal_raises, datetime_new_raises,
      timedelta_new_raises.
Qed.

Lemma parse_isodate_common_raises s e :
  Isoparser._parse_isodate_common s = Raise e -> e = ValueError.
Proof.
  unfold Isoparser._parse_isodate_common. intros H.
  raise_cases H; eauto using int_bytes_raises.
Qed.

Lemma calculate_weekdate_raises y w d e :
  Isoparser._calculate_weekdate y w d = Raise e ->
  e = ValueError \/ e = OverflowError.
Proof.
  unfold Isoparser._calculate_weekdate. intros H.
  raise_cases H; eauto using date_new_raises, date_add_days_raises.
Qed.

Lemma parse_isodate_uncommon_raises s e :
  Isoparser._parse_isodate_uncommon s = Raise e ->
  e = ValueError \/ e = OverflowError.
Proof.
  unfold Isoparser._parse_isodate_uncommon. intros H.
  raise_cases H;
    eauto using int_bytes_raises, date_new_raises, date_add_days_raises,
      calculate_weekdate_raises.
Qed.

Lemma parse_isodate_raises s e :
  Isoparser._parse_isodate s = Raise e ->
  e = ValueError \/ e = OverflowError.
Proof.
  unfold Isoparser._parse_isodate. intros H.
  destruct (Isoparser._parse_isodate_common s) as [r|e'] eqn:E;
    [discriminate H|].
  destruct e';
    first [apply parse_isodate_uncommon_raises in H; exact H
          |apply parse_isodate_common_raises in E; discriminate E].
Qed.

Lemma parse_tzstr_raises s e :
  Isoparser._parse_tzstr s = Raise e -> e = ValueError.
Proof.
  unfold Isoparser._parse_tzstr. intros H.
  raise_cases H; eauto using int_bytes_raises.
Qed.

Lemma isotime_loop_raises turns s st e :
  Isoparser.isotime_loop turns s st = Raise e -> e = ValueError.
Proof.
  revert st. induction turns as [|turns IH]; intros st H; [discriminate H|].
  cbn [Isoparser.isotime_loop] in H.
  raise_cases H; eauto using int_bytes_raises, parse_tzstr_raises.
Qed.

Lemma parse_isotime_raises s e :
  Isoparser._parse_isotime s = Raise e -> e = ValueError.
Proof.
  unfold Isoparser._parse_isotime. intros H.
  raise_cases H; eauto using isotime_loop_raises.
Qed.

Lemma isoparse_raises s e :
  Isoparser.isoparse s = Raise e -> e = ValueError \/ e = OverflowError.
Proof.
  unfold Isoparser.isoparse, Isoparser.encode_ascii. intros H.
  raise_cases H;
    eauto using parse_isodate_raises, parse_isotime_raises,
      datetime_new_raises, add_days_raises.
Qed.

Lemma year_text_padded :
  forallb year_text_value (upto 10000) = true.
Proof. vm_compute. reflexivity. Qed.

Lemma two_digit_value_all : forallb two_digit_value (upto 100) = true.
Proof. vm_compute. reflexivity. Qed.

Lemma time_text_parsed_all :
  forallb (fun h => forallb (fun m => time_text_parsed h m) (upto 60))
          (upto 24) = true.
Proof. vm_compute. reflexivity. Qed.

Lemma year_text_int `{Strftime.Libc} (n : Z) :
  1 <= n <= 9999 ->
  Strftime.pads_year = true \/ 1000 <= n ->
  int_bytes (if Strftime.pads_year then Strftime.zfill 4 (str_int n)
             else str_int n) = Ok n.
Proof.
  intros Hn Hpad.
  pose proof (forallb_upto year_text_value 10000 n year_text_padded
                ltac:(lia)) as Hchk.
  unfold year_text_value in Hchk.
  destruct (int_bytes (Strftime.zfill 4 (str_int n))) as [v|] eqn:E;
    [|discriminate].
  apply Z.eqb_eq in Hchk. subst v.
  destruct Strftime.pads_year; [exact E|].
  destruct Hpad as [|Hpad]; [discriminate|].
  destruct (@four_digit_form glibc n Hn (or_intror Hpad))
    as (a & b & c & d & Etext & _).
  cbn [Strftime.pads_year glibc] in Etext.
  rewrite Etext in E |- *. exact E.
Qed.

Lemma two_digit_int (n : Z) :
  0 <= n <= 99 -> int_bytes (Strftime.zfill 2 (str_int n)) = Ok n.
Proof.
  intros Hn.
  pose proof (forallb_upto two_digit_value 100 n two_digit_value_all
                ltac:(lia)) as Hchk.
  unfold two_digit_value in Hchk.
  destruct (int_bytes _) as [v|]; [|discriminate].
  apply Z.eqb_eq in Hchk. subst v. reflexivity.
Qed.

Lemma time_text_isotime (hour minute : Z) :
  0 <= hour <= 23 -> 0 <= minute <= 59 ->
  String.length (time_text hour minute) = 5%nat
  /\ forallb (fun c => (N_of_ascii c <? 128)%N)
       (list_ascii_of_string (time_text hour minute)) = true
  /\ Isoparser._parse_isotime (time_text hour minute)
     = Ok ([hour; minute; 0; 0], None).
Proof.
  intros Hh Hm.
  pose proof (forallb_upto
                (fun h => forallb (fun m => time_text_parsed h m) (upto 60))
                24 hour time_text_parsed_all ltac:(lia)) as H1.
  cbv beta in H1.
  pose proof (forallb_upto (fun m => time_text_parsed hour m) 60 minute H1
                ltac:(lia)) as H2.
  cbv beta in H2. unfold time_text_parsed in H2.
  apply andb_true_iff in H2 as [H2 Hparse].
  apply andb_true_iff in H2 as [Hlen Hascii].
  apply Nat.eqb_eq in Hlen.
  split; [exact Hlen|]. split; [exact Hascii|].
  destruct (Isoparser._parse_isotime (time_text hour minute))
    as [[[|h [|m [|[] [|[] []]]]] []]|]; try discriminate Hparse.
  apply andb_true_iff in Hparse as [E1 E2].
  apply Z.eqb_eq in E1, E2. subst. reflexivity.
Qed.

Lemma digit_is_ascii (c : ascii) :
  Re.is_digit c = true -> (N_of_ascii c <? 128)%N = true.
Proof.
  intros H. apply digit_cases in H. cbn in H.
  repeat (destruct H as [<-|H]; [reflexivity|]). destruct H.
Qed.

Lemma substring_all (s : string) : substring 0 (String.length s) s = s.
Proof.
  induction s as [|c s IH]; [reflexivity|]. cbn. rewrite IH. reflexivity.
Qed.

Lemma substring_none (s : string) : substring 0 0 s = "".
Proof. destruct s; reflexivity. Qed.

(** The date [YYYY-MM-DD] at the start of a text is read as its three
    numbers. *)
Lemma parse_isodate_layout y1 y2 y3 y4 m1 m2 d1 d2 (rest : string)
    (year month day : Z) :
  int_bytes (String y1 (String y2 (String y3 (String y4 "")))) = Ok year ->
  int_bytes (String m1 (String m2 "")) = Ok month ->
  int_bytes (String d1 (String d2 "")) = Ok day ->
  Isoparser._parse_isodate
    (String y1 (String y2 (String y3 (String y4 (String "-"
       (String m1 (String m2 (String "-" (String d1 (String d2 rest))))))))))
  = Ok ([year; month; day], 10%nat).
Proof.
  intros Hy Hm Hd.
  assert (Hcommon :
    Isoparser._parse_isodate_common
      (String y1 (String y2 (String y3 (String y4 (String "-"
         (String m1 (String m2 (String "-" (String d1 (String d2 rest))))))))))
    = Ok ([year; month; day], 10%nat)).
  { unfold Isoparser._parse_isodate_common.
    lazy -[int_bytes]. rewrite Hy.
    lazy -[int_bytes]. rewrite Hm.
    lazy -[int_bytes substring]. cbn [substring].
    rewrite substring_none, Hd. reflexivity. }
  unfold Isoparser._parse_isodate. rewrite Hcommon. reflexivity.
Qed.

Lemma check_time_fields_minute (hour minute : Z) :
  0 <= hour <= 23 -> 0 <= minute <= 59 ->
  Datetime._check_time_fields hour minute 0 0 = Ok tt.
Proof.
  intros Hh Hm. unfold Datetime._check_time_fields.
  destruct (Z.leb_spec 0 hour); [|lia]. destruct (Z.leb_spec hour 23); [|lia].
  destruct (Z.leb_spec 0 minute); [|lia].
  destruct (Z.leb_spec minute 59); [|lia]. reflexivity.
Qed.

(** The texts that the C library writes for the fields of [dt], as their
    characters and the numbers that [int] reads from them. *)
Lemma date_texts `{Strftime.Libc} (dt : Datetime.datetime) :
  well_formed dt = true ->
  Strftime.pads_year = true \/ 1000 <= Datetime.year dt ->
  exists y1 y2 y3 y4 m1 m2 d1 d2,
    (if Strftime.pads_year then Strftime.zfill 4 (str_int (Datetime.year dt))
     else str_int (Datetime.year dt))
    = String y1 (String y2 (String y3 (String y4 "")))
    /\ Strftime.zfill 2 (str_int (Datetime.month dt)) = String m1 (String m2 "")
    /\ Strftime.zfill 2 (str_int (Datetime.day dt)) = String d1 (String d2 "")
    /\ int_bytes (String y1 (String y2 (String y3 (String y4 ""))))
       = Ok (Datetime.year dt)
    /\ int_bytes (String m1 (String m2 "")) = Ok (Datetime.month dt)
    /\ int_bytes (String d1 (String d2 "")) = Ok (Datetime.day dt)
    /\ forallb (fun c => (N_of_ascii c <? 128)%N)
         [y1; y2; y3; y4; m1; m2; d1; d2] = true.
Proof.
  intros Hwf Hpad.
  pose proof (well_formed_fields dt Hwf) as (Hy & Hm & Hd & _).
  destruct (four_digit_form (Datetime.year dt) Hy Hpad)
    as (y1 & y2 & y3 & y4 & Ey & Dy1 & Dy2 & Dy3 & Dy4).
  destruct (two_digit_form (Datetime.month dt) ltac:(lia))
    as (m1 & m2 & Em & Dm1 & Dm2).
  destruct (two_digit_form (Datetime.day dt) ltac:(lia))
    as (d1 & d2 & Ed & Dd1 & Dd2).
  exists y1, y2, y3, y4, m1, m2, d1, d2.
  split; [exact Ey|]. split; [exact Em|]. split; [exact Ed|].
  split; [rewrite <- Ey; apply year_text_int; assumption|].
  split; [rewrite <- Em; apply two_digit_int; lia|].
  split; [rewrite <- Ed; apply two_digit_int; lia|].
  cbn [forallb].
  rewrite !digit_is_ascii by assumption. reflexivity.
Qed.

(** [isoparse] reads the layout of [format_infraction] back. *)
Lemma isoparse_layout `{Strftime.Libc} (dt : Datetime.datetime) :
  well_formed dt = true ->
  Strftime.pads_year = true \/ 1000 <= Datetime.year dt ->
  Isoparser.isoparse (infraction_layout dt)
  = Ok {| Datetime.year := Datetime.year dt;
          Datetime.month := Datetime.month dt;
          Datetime.day := Datetime.day dt;
          Datetime.hour := Datetime.hour dt;
          Datetime.minute := Datetime.minute dt;
          Datetime.second := 0; Datetime.microsecond := 0;
          Datetime.tz := None |}.
Proof.
  intros Hwf Hpad.
  pose proof (well_formed_fields dt Hwf) as (_ & _ & _ & Hh & Hmi & _ & _).
  pose proof (well_formed_checks dt Hwf) as [Hdate _].
  destruct (date_texts dt Hwf Hpad)
    as (y1 & y2 & y3 & y4 & m1 & m2 & d1 & d2 & Ey & Em & Ed
        & Iy & Im & Id & Hascii).
  destruct (time_text_isotime (Datetime.hour dt) (Datetime.minute dt) Hh Hmi)
    as (HlenT & HasciiT & HparseT).
  unfold infraction_layout.
  change (Strftime.zfill 2 (str_int (Datetime.hour dt)) +:+ ":"
          +:+ Strftime.zfill 2 (str_int (Datetime.minute dt)))
    with (time_text (Datetime.hour dt) (Datetime.minute dt)).
  set (T := time_text (Datetime.hour dt) (Datetime.minute dt)) in *.
  rewrite Ey, Em, Ed. cbn [String.append].
  clearbody T.
  set (s := String y1 (String y2 (String y3 (String y4 (String "-"
              (String m1 (String m2 (String "-" (String d1 (String d2
                 (String " " T))))))))))).
  assert (Henc : Isoparser.encode_ascii s = Ok s).
  { unfold Isoparser.encode_ascii. subst s.
    cbn [list_ascii_of_string forallb]. cbn [forallb] in Hascii.
    repeat (apply andb_true_iff in Hascii as [? Hascii]).
    repeat match goal with
           | E : (N_of_ascii _ <? 128)%N = true |- _ => rewrite E; clear E
           end.
    rewrite HasciiT. reflexivity. }
  assert (Hlen : String.length s = 16%nat).
  { subst s. cbn [String.length]. rewrite HlenT. reflexivity. }
  assert (Htail : slice_from s (10 + 1) = T).
  { unfold slice_from. rewrite Hlen. subst s. cbn [Nat.add Nat.sub substring].
    rewrite <- HlenT. apply substring_all. }
  pose proof (parse_isodate_layout y1 y2 y3 y4 m1 m2 d1 d2 (String " " T)
                _ _ _ Iy Im Id) as Hparse.
  fold s in Hparse.
  unfold Isoparser.isoparse. rewrite Henc. cbn [mbind result_bind].
  rewrite Hparse. cbn [mbind result_bind].
  rewrite Hlen, Htail, HparseT.
  change (10 <? 16)%nat with true. cbv iota. cbn [mbind result_bind nth andb].
  destruct (Z.eqb_spec (Datetime.hour dt) 24) as [E24|_]; [lia|].
  unfold Datetime.new. rewrite Hdate. cbn [mbind result_bind].
  rewrite (check_time_fields_minute _ _ Hh Hmi). reflexivity.
Qed.


Lemma short_year_text :
  forallb (fun y => (String.length (str_int y) <? 4)%nat) (upto 1000) = true.
Proof. vm_compute. reflexivity. Qed.

Lemma infraction_layout_length `{Strftime.Libc} (dt : Datetime.datetime) :
  well_formed dt = true ->
  String.length (infraction_layout dt)
  = (String.length
       (if Strftime.pads_year
        then Strftime.zfill 4 (str_int (Datetime.year dt))
        else str_int (Datetime.year dt)) + 12)%nat.
Proof.
  intros Hwf.
  pose proof (well_formed_fields dt Hwf) as (_ & Hm & Hd & Hh & Hmi & _).
  destruct (two_digit_form (Datetime.month dt) ltac:(lia))
    as (? & ? & Em & _).
  destruct (two_digit_form (Datetime.day dt) ltac:(lia)) as (? & ? & Ed & _).
  destruct (two_digit_form (Datetime.hour dt) ltac:(lia)) as (? & ? & Eh & _).
  destruct (two_digit_form (Datetime.minute dt) ltac:(lia))
    as (? & ? & Emi & _).
  unfold infraction_layout. rewrite Em, Ed, Eh, Emi.
  rewrite string_length_app. reflexivity.
Qed.

(** A text of the parsed fields that is in the pattern was written with a
    year of four digits. *)
Lemma pattern_year `{Strftime.Libc} (dt : Datetime.datetime) :
  well_formed dt = true ->
  is_infraction_pattern (infraction_layout dt) = true ->
  Strftime.pads_year = true \/ 1000 <= Datetime.year dt.
Proof.
  intros Hwf Hpat.
  pose proof (well_formed_fields dt Hwf) as (Hy & _).
  destruct Strftime.pads_year eqn:Epad; [left; reflexivity|right].
  destruct (Z_lt_le_dec (Datetime.year dt) 1000) as [Hlt|]; [|assumption].
  exfalso.
  pose proof (forallb_upto (fun y => (String.length (str_int y) <? 4)%nat)
                1000 (Datetime.year dt) short_year_text ltac:(lia)) as Hshort.
  cbv beta in Hshort. apply Nat.ltb_lt in Hshort.
  unfold is_infraction_pattern in Hpat.
  repeat (apply andb_true_iff in Hpat as [Hpat _]).
  apply Nat.eqb_eq in Hpat.
  rewrite (infraction_layout_length dt Hwf), Epad in Hpat. lia.
Qed.

Lemma format_infraction_layout `{Strftime.Libc} (dt : Datetime.datetime) :
  well_formed dt = true ->
  Strftime.pads_year = true \/ 1000 <= Datetime.year dt ->
  format_infraction (infraction_layout dt) = Ok (infraction_layout dt).
Proof.
  intros Hwf Hpad. unfold format_infraction.
  rewrite (isoparse_layout dt Hwf Hpad). cbn [mbind result_bind].
  rewrite strftime_infraction. reflexivity.
Qed.

(** X16. [format_infraction] returns its own result unchanged: a text that
    it returns and that is in the pattern of four digits, a dash, two
    digits, a dash, two digits, a space, two digits, a colon and two digits
    is accepted again and mapped to itself. *)
Theorem format_infraction_idempotent :
  forall `{Strftime.Libc} (timestamp text : string),
    format_infraction timestamp = Ok text ->
    is_infraction_pattern text = true ->
    format_infraction text = Ok text.
Proof.
  intros libc timestamp text Hformat Hpat.
  unfold format_infraction in Hformat.
  destruct (Isoparser.isoparse timestamp) as [dt|] eqn:Eparse;
    [|discriminate Hformat].
  change (Ok (Strftime.strftime dt INFRACTION_FORMAT) = Ok text) in Hformat.
  rewrite strftime_infraction in Hformat. injection Hformat as <-.
  pose proof (isoparse_well_formed _ _ Eparse) as Hwf.
  apply format_infraction_layout; [exact Hwf|].
  apply pattern_year; assumption.
Qed.

Lemma format_infraction_idempotent_witness :
  @format_infraction glibc "2021-03-05 14:30" = Ok "2021-03-05 14:30".
Proof.
  exact (@format_infraction_idempotent glibc "2021-03-05T14:30:00+05:00"
           "2021-03-05 14:30" eq_refl eq_refl).
Defined.



Lemma encode_ascii_non_ascii (s : string) :
  has_non_ascii s = true -> Isoparser.encode_ascii s = Raise ValueError.
Proof.
  unfold has_non_ascii, Isoparser.encode_ascii. intros H.
  assert (Hf : forallb (fun c => (N_of_ascii c <? 128)%N)
                 (list_ascii_of_string s) = false).
  { induction (list_ascii_of_string s) as [|c l IH]; [discriminate H|].
    cbn [existsb forallb] in *.
    destruct (N.leb_spec 128 (N_of_ascii c)) as [Hc|Hc].
    - destruct (N.ltb_spec (N_of_ascii c) 128); [lia|reflexivity].
    - cbn [orb] in H. rewrite (IH H). apply andb_false_r. }
  rewrite Hf. reflexivity.
Qed.

(** X18. [format_infraction] raises [ValueError] for every text of fewer
    than four characters, the empty text among them, and for every text with
    a character outside ASCII. *)
Theorem format_infraction_rejects :
  forall `{Strftime.Libc} (timestamp : string),
    (String.length timestamp < 4)%nat \/ has_non_ascii timestamp = true ->
    format_infraction timestamp = Raise ValueError.
Proof.
  intros libc timestamp [Hshort|Hnon]; unfold format_infraction,
    Isoparser.isoparse.
  - unfold Isoparser.encode_ascii.
    destruct (forallb _ _); cbn [mbind result_bind]; [|reflexivity].
    unfold Isoparser._parse_isodate, Isoparser._parse_isodate_common,
      Isoparser._parse_isodate_uncommon.
    cbv zeta. apply Nat.ltb_lt in Hshort. rewrite Hshort. reflexivity.
  - rewrite (encode_ascii_non_ascii _ Hnon). reflexivity.
Qed.

Lemma format_infraction_rejects_witness :
  @format_infraction glibc "" = Raise ValueError
  /\ @format_infraction glibc "202" = Raise ValueError.
Proof.
  split.
  - apply (@format_infraction_rejects glibc ""). left. cbn. lia.
  - apply (@format_infraction_rejects glibc "202"). left. cbn. lia.
Defined.

(** X19. The exceptions of [format_infraction] are [ValueError] and
    [OverflowError] and no other; [OverflowError] is raised when the text
    names a day past the last one that [datetime] holds, as midnight at the
    end of the year 9999. *)
Theorem format_infraction_exceptions :
  forall `{Strftime.Libc} (timestamp : string),
    (forall e, format_infraction timestamp = Raise e ->
               e = ValueError \/ e = OverflowError)
    /\ format_infraction "9999-12-31T24:00" = Raise OverflowError.
Proof.
  intros libc timestamp. split.
  - intros e. unfold format_infraction.
    destruct (Isoparser.isoparse timestamp) as [dt|e'] eqn:E;
      cbn [mbind result_bind]; [discriminate|].
    intros [= <-]. apply (isoparse_raises _ _ E).
  - vm_compute. reflexivity.
Qed.

Lemma format_infraction_exceptions_witness :
  OverflowError = ValueError \/ OverflowError = OverflowError.
Proof.
  exact (proj1 (@format_infraction_exceptions glibc "9999-12-31T24:00")
           OverflowError eq_refl).
Defined.
